(** * RTP sender core (webrtc/modules/rtp_rtcp/source/rtp_sender.cc)

    A shallow embedding of [RTPSender]: the payload registry, the RTP header
    builder and the in-place header-extension patchers, RTX framing, padding
    generation, the NACK response loop with its bandwidth gate, and the
    protocol state setters.

    Conventions.
    - C integers are [Z]; every conversion the C++ performs (to [uint8_t],
      [uint16_t], [uint32_t], [int]) is written out with [u8], [u16], [u32],
      [i32], [i64].
    - Packet buffers are [list Z] (one byte per element); a write is stdpp's
      list insert, which leaves the buffer alone when the index is out of
      range (the C++ would write out of bounds there).
    - The collaborators declared outside this translation unit (transport,
      pacer, clock, random generator, packet history, SSRC database,
      header-extension map, header parser) appear as oracles in the sender
      state or as small models of their documented behaviour.
    - Statistics, observers, tracing and logging are not part of the model. *)

From Stdlib Require Import ZArith List Bool String Lia.
From stdpp Require Import base option list gmap.

Local Open Scope Z_scope.

(** ** Machine integers *)

Definition u8 (x : Z) : Z := x mod 256.
Definition u16 (x : Z) : Z := x mod 65536.
Definition u32 (x : Z) : Z := x mod 4294967296.

(** Two's complement reading of the low [w] bits. *)
Definition to_signed (w : Z) (x : Z) : Z :=
  let y := x mod 2 ^ w in
  if y <? 2 ^ (w - 1) then y else y - 2 ^ w.

Definition i8 (x : Z) : Z := to_signed 8 x.
Definition i32 (x : Z) : Z := to_signed 32 x.
Definition i64 (x : Z) : Z := to_signed 64 x.

(** ** Constants *)

(** rtp_sender.cc, file scope. *)
Definition kMaxPaddingLength : Z := 224.
Definition kSendSideDelayWindowMs : Z := 1000.

(** Constants of headers outside this file; the values are fixed by the
    assertions and comments of rtp_sender.cc ([assert(pos == k...Length)]
    after four bytes were written, "Add extension ID (0xBEDE)") and by the
    wire format. *)
Definition kRtpMarkerBitMask : Z := 128.
Definition kRtpOneByteHeaderExtensionId : Z := 48862.
Definition kRtpOneByteHeaderLength : Z := 4.
Definition kTransmissionTimeOffsetLength : Z := 4.
Definition kAudioLevelLength : Z := 4.
Definition kAbsoluteSendTimeLength : Z := 4.
Definition kRtpCsrcSize : Z := 15.
Definition IP_PACKET_SIZE : Z := 1500.
Definition NACK_BYTECOUNT_SIZE : nat := 60.
Definition MAX_INIT_RTP_SEQ_NUMBER : Z := 32767.
Definition RAND_MAX : Z := 2147483647.

(** RTX mode bits. *)
Definition kRtxOff : Z := 0.
Definition kRtxRetransmitted : Z := 1.
Definition kRtxRedundantPayloads : Z := 2.

(** ** Byte buffers *)

Definition byte_at (b : list Z) (i : Z) : Z :=
  if i <? 0 then 0 else default 0 (b !! Z.to_nat i).

Definition set_byte (b : list Z) (i : Z) (v : Z) : list Z :=
  if i <? 0 then b else <[Z.to_nat i := u8 v]> b.

(** [memcpy(dst + d, src + s, n)] for ranges that lie inside both buffers. *)
Definition memcpy (dst : list Z) (d : nat) (src : list Z) (s n : nat) : list Z :=
  take d dst ++ take n (drop s src) ++ drop (d + n) dst.

(** A buffer whose elements are bytes. *)
Definition is_bytes (b : list Z) : Prop := Forall (fun x => 0 <= x < 256) b.

Module RtpUtility.

(** Big-endian stores of rtp_utility.cc, which is outside this file; they
    write the value most significant byte first. *)
Definition AssignUWord16ToBuffer (b : list Z) (p : Z) (v : Z) : list Z :=
  set_byte (set_byte b p (Z.shiftr v 8)) (p + 1) v.

Definition AssignUWord24ToBuffer (b : list Z) (p : Z) (v : Z) : list Z :=
  set_byte (set_byte (set_byte b p (Z.shiftr v 16)) (p + 1) (Z.shiftr v 8))
           (p + 2) v.

Definition AssignUWord32ToBuffer (b : list Z) (p : Z) (v : Z) : list Z :=
  set_byte
    (set_byte (set_byte (set_byte b p (Z.shiftr v 24)) (p + 1) (Z.shiftr v 16))
              (p + 2) (Z.shiftr v 8))
    (p + 3) v.

(** Big-endian loads, the readers' side of the stores above. *)
Definition BufferToUWord16 (b : list Z) (p : Z) : Z :=
  byte_at b p * 256 + byte_at b (p + 1).

Definition BufferToUWord24 (b : list Z) (p : Z) : Z :=
  byte_at b p * 65536 + byte_at b (p + 1) * 256 + byte_at b (p + 2).

Definition BufferToUWord32 (b : list Z) (p : Z) : Z :=
  byte_at b p * 16777216 + byte_at b (p + 1) * 65536
  + byte_at b (p + 2) * 256 + byte_at b (p + 3).

(** The fields of [RTPHeader] that rtp_sender.cc reads. *)
Record RTPHeader := {
  markerBit : bool;
  payloadType : Z;
  sequenceNumber : Z;
  timestamp : Z;
  ssrc : Z;
  numCSRCs : Z;
  paddingLength : Z;
  headerLength : Z
}.

Definition default_header : RTPHeader :=
  {| markerBit := false; payloadType := 0; sequenceNumber := 0;
     timestamp := 0; ssrc := 0; numCSRCs := 0; paddingLength := 0;
     headerLength := 0 |}.

(** Modelled from the spec: [RtpHeaderParser::Parse] is defined outside this
    file. The model follows the wire format the spec fixes (RFC 3550 fixed
    header, CSRC list, RFC 5285 extension block of 4 + 4 * length bytes,
    padding length in the last byte): it fails on fewer than 12 bytes, on a
    version other than 2 and when the CSRC list or the extension block does
    not fit in [length] bytes. *)
Definition Parse (b : list Z) (length : Z) : option RTPHeader :=
  if length <? 12 then None
  else
    let V := Z.shiftr (byte_at b 0) 6 in
    let P := negb (Z.land (byte_at b 0) 32 =? 0) in
    let X := negb (Z.land (byte_at b 0) 16 =? 0) in
    let CC := Z.land (byte_at b 0) 15 in
    let M := negb (Z.land (byte_at b 1) 128 =? 0) in
    let PT := Z.land (byte_at b 1) 127 in
    if negb (V =? 2) then None
    else if length <? 12 + 4 * CC then None
    else
      let h := {| markerBit := M; payloadType := PT;
                  sequenceNumber := BufferToUWord16 b 2;
                  timestamp := BufferToUWord32 b 4;
                  ssrc := BufferToUWord32 b 8;
                  numCSRCs := CC;
                  paddingLength := if P then byte_at b (length - 1) else 0;
                  headerLength := 12 + 4 * CC |} in
      if X then
        let remain := length - (12 + 4 * CC) in
        if remain <? 4 then None
        else
          let XLen := 4 * BufferToUWord16 b (12 + 4 * CC + 2) in
          if remain <? 4 + XLen then None
          else Some {| markerBit := M; payloadType := PT;
                       sequenceNumber := BufferToUWord16 b 2;
                       timestamp := BufferToUWord32 b 4;
                       ssrc := BufferToUWord32 b 8;
                       numCSRCs := CC;
                       paddingLength := paddingLength h;
                       headerLength := 12 + 4 * CC + 4 + XLen |}
      else Some h.

(** The callers in rtp_sender.cc mostly ignore the result of [Parse] and
    go on with the header object; on failure that is the
    default-constructed header. *)
Definition ParseOrDefault (b : list Z) (length : Z) : RTPHeader :=
  default default_header (Parse b length).

(** Modelled from the spec: [RtpUtility::StringCompare] is defined outside
    this file; payload names "match" when they agree on the first [n]
    characters, letter case ignored. *)
Definition lower (c : Ascii.ascii) : Ascii.ascii :=
  let n := Ascii.nat_of_ascii c in
  if ((65 <=? n)%nat && (n <=? 90)%nat)%bool then Ascii.ascii_of_nat (n + 32) else c.

Fixpoint StringCompare (s1 s2 : string) (n : nat) : bool :=
  match n with
  | O => true
  | S n' =>
    match s1, s2 with
    | EmptyString, EmptyString => true
    | String c1 r1, String c2 r2 =>
      if Ascii.eqb (lower c1) (lower c2) then StringCompare r1 r2 n' else false
    | _, _ => false
    end
  end.

End RtpUtility.

Definition RTP_PAYLOAD_NAME_SIZE : nat := 32.

(** ** Header-extension map *)

Inductive RTPExtensionType :=
| kRtpExtensionNone
| kRtpExtensionTransmissionTimeOffset
| kRtpExtensionAudioLevel
| kRtpExtensionAbsoluteSendTime.

#[global] Instance RTPExtensionType_eq_dec : EqDecision RTPExtensionType.
Proof. solve_decision. Defined.

Module RtpHeaderExtensionMap.

(** Modelled from the spec: [RtpHeaderExtensionMap] is defined outside this
    file. The spec gives a mapping from the closed set of extension kinds
    to a 4-bit ID in [1, 14], at most one ID per kind, with a deterministic
    iteration order and the byte offset of each extension inside the
    block. The model keeps the registered (ID, kind) pairs in iteration
    order, ascending ID; every kind occupies four bytes of the block. *)
Definition t : Type := list (Z * RTPExtensionType).

Definition extension_length (type : RTPExtensionType) : Z :=
  match type with
  | kRtpExtensionNone => 0
  | kRtpExtensionTransmissionTimeOffset => kTransmissionTimeOffsetLength
  | kRtpExtensionAudioLevel => kAudioLevelLength
  | kRtpExtensionAbsoluteSendTime => kAbsoluteSendTimeLength
  end.

Fixpoint GetId (m : t) (type : RTPExtensionType) : option Z :=
  match m with
  | [] => None
  | (id, type') :: rest =>
    if decide (type' = type) then Some id else GetId rest type
  end.

Definition IsRegistered (m : t) (type : RTPExtensionType) : bool :=
  match GetId m type with Some _ => true | None => false end.

Fixpoint length_before (m : t) (type : RTPExtensionType) : Z :=
  match m with
  | [] => 0
  | (_, type') :: rest =>
    if decide (type' = type) then 0
    else extension_length type' + length_before rest type
  end.

(** Offset of the kind's block from the start of the extension header, the
    four bytes of the 0xBEDE header included; -1 when not registered. *)
Definition GetLengthUntilBlockStartInBytes (m : t) (type : RTPExtensionType) : Z :=
  match GetId m type with
  | None => -1
  | Some _ => kRtpOneByteHeaderLength + length_before m type
  end.

Definition Size (m : t) : Z := Z.of_nat (length m).

(** The blocks of all registered kinds together. *)
Definition blocks_length (m : t) : Z :=
  foldr (fun e acc => extension_length e.2 + acc) 0 m.

Definition GetTotalLengthInBytes (m : t) : Z :=
  let l := blocks_length m in
  if 0 <? l then kRtpOneByteHeaderLength + l else 0.

Fixpoint find_id (m : t) (id : Z) : option RTPExtensionType :=
  match m with
  | [] => None
  | (id', type) :: rest => if id' =? id then Some type else find_id rest id
  end.

Fixpoint insert_by_id (m : t) (id : Z) (type : RTPExtensionType) : t :=
  match m with
  | [] => [(id, type)]
  | (id', type') :: rest =>
    if id <? id' then (id, type) :: m
    else (id', type') :: insert_by_id rest id type
  end.

(** Registration keeps "at most one ID per kind" and "IDs in [1, 14]":
    the same (ID, kind) pair again is accepted, a taken ID or an already
    registered kind is refused. *)
Definition Register (m : t) (type : RTPExtensionType) (id : Z) : t * Z :=
  if (id <? 1) || (14 <? id) then (m, -1)
  else match find_id m id with
       | Some type' => if decide (type' = type) then (m, 0) else (m, -1)
       | None =>
         match GetId m type with
         | Some _ => (m, -1)
         | None => (insert_by_id m id type, 0)
         end
       end.

Definition Deregister (m : t) (type : RTPExtensionType) : t * Z :=
  (filter (fun e => e.2 <> type) m, 0).

End RtpHeaderExtensionMap.

(** ** Payload registry entries *)

(** [RtpVideoCodecTypes] and [RtpUtility::Payload] are declared outside this
    file. The payload's [typeSpecific] union is read as [Audio] exactly when
    the [audio] flag is set, so the flag is the tag of the union. *)
Inductive RtpVideoCodecTypes := kRtpVideoNone | kRtpVideoGeneric | kRtpVideoVp8.

Inductive PayloadUnion :=
| Audio (frequency : Z) (channels : Z) (rate : Z)
| Video (videoCodecType : RtpVideoCodecTypes) (maxRate : Z).

Record Payload := {
  name : string;
  typeSpecific : PayloadUnion
}.

Definition audio (p : Payload) : bool :=
  match typeSpecific p with Audio _ _ _ => true | Video _ _ => false end.

(** ** Collaborators *)

Inductive StorageType := kDontStore | kDontRetransmit | kAllowRetransmission.

Inductive Priority := kHighPriority | kNormalPriority | kLowPriority.

(** One call of [PacedSender::SendPacket]. *)
Record PacerCall := {
  pc_priority : Priority;
  pc_ssrc : Z;
  pc_sequence_number : Z;
  pc_capture_time_ms : Z;
  pc_bytes : Z;
  pc_retransmission : bool
}.

(** The packet history is a collaborator with its own lock and clock; the
    sender sees it through this interface. The first argument of the two
    stateful operations is the clock reading. *)
Class PacketHistoryOps (H : Type) := {
  (** [PutRTPPacket(packet, packet_length, max_packet_length,
      capture_time_ms, type)]: new history and 0, or -1 on failure. *)
  PutRTPPacket : Z -> H -> list Z -> Z -> Z -> Z -> StorageType -> H * Z;
  (** [GetPacketAndSetSendTime(sequence_number, min_elapsed_time_ms,
      retransmit, ...)]: the stored packet, its length and capture time. *)
  GetPacketAndSetSendTime :
    Z -> H -> Z -> Z -> bool -> H * option (list Z * Z * Z);
  (** [GetBestFittingPacket(packet, &packet_length, &capture_time_ms)]. *)
  GetBestFittingPacket : H -> Z -> option (list Z * Z * Z);
  (** [SetStorePacketsStatus(enable, number_to_store)]. *)
  StorePacketsStatus : H -> bool -> Z -> H
}.

(** The objects the sender only holds pointers to. [transport_] and
    [paced_sender_] may be NULL; their answers may depend on how many calls
    came before. [rand_] is the sequence of values of [rand()]. *)
Record Collaborators := {
  transport_ : option (nat -> list Z -> Z);
  paced_sender_ : option (nat -> PacerCall -> bool);
  rand_ : nat -> Z;
  CreateSSRC : gset Z -> Z;
  RegisterAudioPayload : string -> Z -> Z -> Z -> Z -> Z * option Payload;
  RegisterVideoPayload : string -> Z -> Z -> Z * option Payload
}.

Module SSRCDatabase.

(** Modelled from the spec: the SSRC allocator is a process-wide
    singleton defined outside this file. The spec has identifiers
    "released to", "registered with" and handed out by the allocator; the
    model is the set of identifiers currently in use. *)
Definition ReturnSSRC (db : gset Z) (ssrc : Z) : gset Z := db ∖ {[ssrc]}.
Definition RegisterSSRC (db : gset Z) (ssrc : Z) : gset Z := {[ssrc]} ∪ db.

End SSRCDatabase.

(** ** Observing the resend calls of [OnReceivedNACK]

    [logged resend] behaves as [resend] and keeps a record of every call:
    the state it ran in, its two arguments and its result. *)
Record ResendCall (S : Type) := {
  rc_state : S;
  rc_packet_id : Z;
  rc_min_resend_time : Z;
  rc_result : Z
}.
Arguments rc_state {S}.
Arguments rc_packet_id {S}.
Arguments rc_min_resend_time {S}.
Arguments rc_result {S}.

Definition logged {S : Type} (resend : S -> Z -> Z -> S * Z)
    (sl : S * list (ResendCall S)) (packet_id min_resend_time : Z)
    : S * list (ResendCall S) * Z :=
  let '(s', r) := resend sl.1 packet_id min_resend_time in
  ((s', sl.2 ++ [{| rc_state := sl.1; rc_packet_id := packet_id;
                    rc_min_resend_time := min_resend_time;
                    rc_result := r |}]), r).

(** The value of the [bytes_re_sent] counter after the given calls,
    starting from [acc]. *)
Definition bytes_re_sent_after {S : Type} (acc : Z)
    (calls : list (ResendCall S)) : Z :=
  foldl (fun acc c =>
           if 0 <? rc_result c then u32 (acc + rc_result c) else acc)
        acc calls.

Section Sender.

Context {H : Type} `{PacketHistoryOps H}.

(** ** Sender state

    The members of [RTPSender] that the modelled methods read or write,
    under their C++ names; [clock_] and [tick_] are the current readings
    of [Clock::TimeInMilliseconds] and [TickTime::MillisecondTimestamp],
    [transport_log] and [pacer_log] record the calls made to the transport
    and the pacer, [rand_calls] counts the calls of [rand()],
    [audio_red_], [video_codec_type_] and [video_max_bitrate_] are the
    state of the [audio_] and [video_] packetizers the sender consults. *)
Record RTPSender := {
  collab : Collaborators;
  audio_configured_ : bool;
  clock_ : Z;
  tick_ : Z;
  transport_log : list (list Z * Z);
  pacer_log : list PacerCall;
  rand_calls : nat;
  audio_red_ : option Z;
  video_codec_type_ : RtpVideoCodecTypes;
  video_max_bitrate_ : Z;
  sending_media_ : bool;
  max_payload_length_ : Z;
  packet_over_head_ : Z;
  payload_type_ : Z;
  payload_type_map_ : gmap Z Payload;
  rtp_header_extension_map_ : RtpHeaderExtensionMap.t;
  transmission_time_offset_ : Z;
  absolute_send_time_ : Z;
  nack_byte_count_times_ : list Z;
  nack_byte_count_ : list Z;
  packet_history_ : H;
  start_timestamp_forced_ : bool;
  start_timestamp_ : Z;
  ssrc_db_ : gset Z;
  sequence_number_forced_ : bool;
  ssrc_forced_ : bool;
  ssrc_ : Z;
  ssrc_rtx_ : Z;
  sequence_number_ : Z;
  sequence_number_rtx_ : Z;
  timestamp_ : Z;
  capture_time_ms_ : Z;
  last_timestamp_time_ms_ : Z;
  media_has_been_sent_ : bool;
  last_packet_marker_bit_ : bool;
  num_csrcs_ : Z;
  csrcs_ : list Z;
  include_csrcs_ : bool;
  rtx_ : Z;
  payload_type_rtx_ : Z;
  target_bitrate_ : Z
}.

(** Member assignments: [set_f v s] is [s] after [f = v]. *)
Definition set_clock_ (v : Z) (s : RTPSender) : RTPSender :=
  Build_RTPSender (collab s) (audio_configured_ s) v (tick_ s)
    (transport_log s) (pacer_log s) (rand_calls s) (audio_red_ s)
    (video_codec_type_ s) (video_max_bitrate_ s) (sending_media_ s)
    (max_payload_length_ s) (packet_over_head_ s) (payload_type_ s)
    (payload_type_map_ s) (rtp_header_extension_map_ s)
    (transmission_time_offset_ s) (absolute_send_time_ s)
    (nack_byte_count_times_ s) (nack_byte_count_ s) (packet_history_ s)
    (start_timestamp_forced_ s) (start_timestamp_ s) (ssrc_db_ s)
    (sequence_number_forced_ s) (ssrc_forced_ s) (ssrc_ s) (ssrc_rtx_ s)
    (sequence_number_ s) (sequence_number_rtx_ s) (timestamp_ s)
    (capture_time_ms_ s) (last_timestamp_time_ms_ s)
    (media_has_been_sent_ s) (last_packet_marker_bit_ s) (num_csrcs_ s)
    (csrcs_ s) (include_csrcs_ s) (rtx_ s) (payload_type_rtx_ s)
    (target_bitrate_ s).

Definition set_tick_ (v : Z) (s : RTPSender) : RTPSender :=
  Build_RTPSender (collab s) (audio_configured_ s) (clock_ s) v
    (transport_log s) (pacer_log s) (rand_calls s) (audio_red_ s)
    (video_codec_type_ s) (video_max_bitrate_ s) (sending_media_ s)
    (max_payload_length_ s) (packet_over_head_ s) (payload_type_ s)
    (payload_type_map_ s) (rtp_header_extension_map_ s)
    (transmission_time_offset_ s) (absolute_send_time_ s)
    (nack_byte_count_times_ s) (nack_byte_count_ s) (packet_history_ s)
    (start_timestamp_forced_ s) (start_timestamp_ s) (ssrc_db_ s)
    (sequence_number_forced_ s) (ssrc_forced_ s) (ssrc_ s) (ssrc_rtx_ s)
    (sequence_number_ s) (sequence_number_rtx_ s) (timestamp_ s)
    (capture_time_ms_ s) (last_timestamp_time_ms_ s)
    (media_has_been_sent_ s) (last_packet_marker_bit_ s) (num_csrcs_ s)
    (csrcs_ s) (include_csrcs_ s) (rtx_ s) (payload_type_rtx_ s)
    (target_bitrate_ s).

Definition set_transport_log (v : list (list Z * Z)) (s : RTPSender) : RTPSender :=
  Build_RTPSender (collab s) (audio_configured_ s) (clock_ s) (tick_ s) v
    (pacer_log s) (rand_calls s) (audio_red_ s) (video_codec_type_ s)
    (video_max_bitrate_ s) (sending_media_ s) (max_payload_length_ s)
    (packet_over_head_ s) (payload_type_ s) (payload_type_map_ s)
    (rtp_header_extension_map_ s) (transmission_time_offset_ s)
    (absolute_send_time_ s) (nack_byte_count_times_ s) (nack_byte_count_ s)
    (packet_history_ s) (start_timestamp_forced_ s) (start_timestamp_ s)
    (ssrc_db_ s) (sequence_number_forced_ s) (ssrc_forced_ s) (ssrc_ s)
    (ssrc_rtx_ s) (sequence_number_ s) (sequence_number_rtx_ s)
    (timestamp_ s) (capture_time_ms_ s) (last_timestamp_time_ms_ s)
    (media_has_been_sent_ s) (last_packet_marker_bit_ s) (num_csrcs_ s)
    (csrcs_ s) (include_csrcs_ s) (rtx_ s) (payload_type_rtx_ s)
    (target_bitrate_ s).

Definition set_pacer_log (v : list PacerCall) (s : RTPSender) : RTPSender :=
  Build_RTPSender (collab s) (audio_configured_ s) (clock_ s) (tick_ s)
    (transport_log s) v (rand_calls s) (audio_red_ s) (video_codec_type_ s)
    (video_max_bitrate_ s) (sending_media_ s) (max_payload_length_ s)
    (packet_over_head_ s) (payload_type_ s) (payload_type_map_ s)
    (rtp_header_extension_map_ s) (transmission_time_offset_ s)
    (absolute_send_time_ s) (nack_byte_count_times_ s) (nack_byte_count_ s)
    (packet_history_ s) (start_timestamp_forced_ s) (start_timestamp_ s)
    (ssrc_db_ s) (sequence_number_forced_ s) (ssrc_forced_ s) (ssrc_ s)
    (ssrc_rtx_ s) (sequence_number_ s) (sequence_number_rtx_ s)
    (timestamp_ s) (capture_time_ms_ s) (last_timestamp_time_ms_ s)
    (media_has_been_sent_ s) (last_packet_marker_bit_ s) (num_csrcs_ s)
    (csrcs_ s) (include_csrcs_ s) (rtx_ s) (payload_type_rtx_ s)
    (target_bitrate_ s).

Definition set_rand_calls (v : nat) (s : RTPSender) : RTPSender :=
  Build_RTPSender (collab s) (audio_configured_ s) (clock_ s) (tick_ s)
    (transport_log s) (pacer_log s) v (audio_red_ s) (video_codec_type_ s)
    (video_max_bitrate_ s) (sending_media_ s) (max_payload_length_ s)
    (packet_over_head_ s) (payload_type_ s) (payload_type_map_ s)
    (rtp_header_extension_map_ s) (transmission_time_offset_ s)
    (absolute_send_time_ s) (nack_byte_count_times_ s) (nack_byte_count_ s)
    (packet_history_ s) (start_timestamp_forced_ s) (start_timestamp_ s)
    (ssrc_db_ s) (sequence_number_forced_ s) (ssrc_forced_ s) (ssrc_ s)
    (ssrc_rtx_ s) (sequence_number_ s) (sequence_number_rtx_ s)
    (timestamp_ s) (capture_time_ms_ s) (last_timestamp_time_ms_ s)
    (media_has_been_sent_ s) (last_packet_marker_bit_ s) (num_csrcs_ s)
    (csrcs_ s) (include_csrcs_ s) (rtx_ s) (payload_type_rtx_ s)
    (target_bitrate_ s).

Definition set_audio_red_ (v : option Z) (s : RTPSender) : RTPSender :=
  Build_RTPSender (collab s) (audio_configured_ s) (clock_ s) (tick_ s)
    (transport_log s) (pacer_log s) (rand_calls s) v (video_codec_type_ s)
    (video_max_bitrate_ s) (sending_media_ s) (max_payload_length_ s)
    (packet_over_head_ s) (payload_type_ s) (payload_type_map_ s)
    (rtp_header_extension_map_ s) (transmission_time_offset_ s)
    (absolute_send_time_ s) (nack_byte_count_times_ s) (nack_byte_count_ s)
    (packet_history_ s) (start_timestamp_forced_ s) (start_timestamp_ s)
    (ssrc_db_ s) (sequence_number_forced_ s) (ssrc_forced_ s) (ssrc_ s)
    (ssrc_rtx_ s) (sequence_number_ s) (sequence_number_rtx_ s)
    (timestamp_ s) (capture_time_ms_ s) (last_timestamp_time_ms_ s)
    (media_has_been_sent_ s) (last_packet_marker_bit_ s) (num_csrcs_ s)
    (csrcs_ s) (include_csrcs_ s) (rtx_ s) (payload_type_rtx_ s)
    (target_bitrate_ s).

Definition set_video_codec_type_ (v : RtpVideoCodecTypes) (s : RTPSender) : RTPSender :=
  Build_RTPSender (collab s) (audio_configured_ s) (clock_ s) (tick_ s)
    (transport_log s) (pacer_log s) (rand_calls s) (audio_red_ s) v
    (video_max_bitrate_ s) (sending_media_ s) (max_payload_length_ s)
    (packet_over_head_ s) (payload_type_ s) (payload_type_map_ s)
    (rtp_header_extension_map_ s) (transmission_time_offset_ s)
    (absolute_send_time_ s) (nack_byte_count_times_ s) (nack_byte_count_ s)
    (packet_history_ s) (start_timestamp_forced_ s) (start_timestamp_ s)
    (ssrc_db_ s) (sequence_number_forced_ s) (ssrc_forced_ s) (ssrc_ s)
    (ssrc_rtx_ s) (sequence_number_ s) (sequence_number_rtx_ s)
    (timestamp_ s) (capture_time_ms_ s) (last_timestamp_time_ms_ s)
    (media_has_been_sent_ s) (last_packet_marker_bit_ s) (num_csrcs_ s)
    (csrcs_ s) (include_csrcs_ s) (rtx_ s) (payload_type_rtx_ s)
    (target_bitrate_ s).

Definition set_video_max_bitrate_ (v : Z) (s : RTPSender) : RTPSender :=
  Build_RTPSender (collab s) (audio_configured_ s) (clock_ s) (tick_ s)
    (transport_log s) (pacer_log s) (rand_calls s) (audio_red_ s)
    (video_codec_type_ s) v (sending_media_ s) (max_payload_length_ s)
    (packet_over_head_ s) (payload_type_ s) (payload_type_map_ s)
    (rtp_header_extension_map_ s) (transmission_time_offset_ s)
    (absolute_send_time_ s) (nack_byte_count_times_ s) (nack_byte_count_ s)
    (packet_history_ s) (start_timestamp_forced_ s) (start_timestamp_ s)
    (ssrc_db_ s) (sequence_number_forced_ s) (ssrc_forced_ s) (ssrc_ s)
    (ssrc_rtx_ s) (sequence_number_ s) (sequence_number_rtx_ s)
    (timestamp_ s) (capture_time_ms_ s) (last_timestamp_time_ms_ s)
    (media_has_been_sent_ s) (last_packet_marker_bit_ s) (num_csrcs_ s)
    (csrcs_ s) (include_csrcs_ s) (rtx_ s) (payload_type_rtx_ s)
    (target_bitrate_ s).

Definition set_sending_media_ (v : bool) (s : RTPSender) : RTPSender :=
  Build_RTPSender (collab s) (audio_configured_ s) (clock_ s) (tick_ s)
    (transport_log s) (pacer_log s) (rand_calls s) (audio_red_ s)
    (video_codec_type_ s) (video_max_bitrate_ s) v (max_payload_length_ s)
    (packet_over_head_ s) (payload_type_ s) (payload_type_map_ s)
    (rtp_header_extension_map_ s) (transmission_time_offset_ s)
    (absolute_send_time_ s) (nack_byte_count_times_ s) (nack_byte_count_ s)
    (packet_history_ s) (start_timestamp_forced_ s) (start_timestamp_ s)
    (ssrc_db_ s) (sequence_number_forced_ s) (ssrc_forced_ s) (ssrc_ s)
    (ssrc_rtx_ s) (sequence_number_ s) (sequence_number_rtx_ s)
    (timestamp_ s) (capture_time_ms_ s) (last_timestamp_time_ms_ s)
    (media_has_been_sent_ s) (last_packet_marker_bit_ s) (num_csrcs_ s)
    (csrcs_ s) (include_csrcs_ s) (rtx_ s) (payload_type_rtx_ s)
    (target_bitrate_ s).

Definition set_max_payload_length_ (v : Z) (s : RTPSender) : RTPSender :=
  Build_RTPSender (collab s) (audio_configured_ s) (clock_ s) (tick_ s)
    (transport_log s) (pacer_log s) (rand_calls s) (audio_red_ s)
    (video_codec_type_ s) (video_max_bitrate_ s) (sending_media_ s) v
    (packet_over_head_ s) (payload_type_ s) (payload_type_map_ s)
    (rtp_header_extension_map_ s) (transmission_time_offset_ s)
    (absolute_send_time_ s) (nack_byte_count_times_ s) (nack_byte_count_ s)
    (packet_history_ s) (start_timestamp_forced_ s) (start_timestamp_ s)
    (ssrc_db_ s) (sequence_number_forced_ s) (ssrc_forced_ s) (ssrc_ s)
    (ssrc_rtx_ s) (sequence_number_ s) (sequence_number_rtx_ s)
    (timestamp_ s) (capture_time_ms_ s) (last_timestamp_time_ms_ s)
    (media_has_been_sent_ s) (last_packet_marker_bit_ s) (num_csrcs_ s)
    (csrcs_ s) (include_csrcs_ s) (rtx_ s) (payload_type_rtx_ s)
    (target_bitrate_ s).

Definition set_packet_over_head_ (v : Z) (s : RTPSender) : RTPSender :=
  Build_RTPSender (collab s) (audio_configured_ s) (clock_ s) (tick_ s)
    (transport_log s) (pacer_log s) (rand_calls s) (audio_red_ s)
    (video_codec_type_ s) (video_max_bitrate_ s) (sending_media_ s)
    (max_payload_length_ s) v (payload_type_ s) (payload_type_map_ s)
    (rtp_header_extension_map_ s) (transmission_time_offset_ s)
    (absolute_send_time_ s) (nack_byte_count_times_ s) (nack_byte_count_ s)
    (packet_history_ s) (start_timestamp_forced_ s) (start_timestamp_ s)
    (ssrc_db_ s) (sequence_number_forced_ s) (ssrc_forced_ s) (ssrc_ s)
    (ssrc_rtx_ s) (sequence_number_ s) (sequence_number_rtx_ s)
    (timestamp_ s) (capture_time_ms_ s) (last_timestamp_time_ms_ s)
    (media_has_been_sent_ s) (last_packet_marker_bit_ s) (num_csrcs_ s)
    (csrcs_ s) (include_csrcs_ s) (rtx_ s) (payload_type_rtx_ s)
    (target_bitrate_ s).

Definition set_payload_type_ (v : Z) (s : RTPSender) : RTPSender :=
  Build_RTPSender (collab s) (audio_configured_ s) (clock_ s) (tick_ s)
    (transport_log s) (pacer_log s) (rand_calls s) (audio_red_ s)
    (video_codec_type_ s) (video_max_bitrate_ s) (sending_media_ s)
    (max_payload_length_ s) (packet_over_head_ s) v (payload_type_map_ s)
    (rtp_header_extension_map_ s) (transmission_time_offset_ s)
    (absolute_send_time_ s) (nack_byte_count_times_ s) (nack_byte_count_ s)
    (packet_history_ s) (start_timestamp_forced_ s) (start_timestamp_ s)
    (ssrc_db_ s) (sequence_number_forced_ s) (ssrc_forced_ s) (ssrc_ s)
    (ssrc_rtx_ s) (sequence_number_ s) (sequence_number_rtx_ s)
    (timestamp_ s) (capture_time_ms_ s) (last_timestamp_time_ms_ s)
    (media_has_been_sent_ s) (last_packet_marker_bit_ s) (num_csrcs_ s)
    (csrcs_ s) (include_csrcs_ s) (rtx_ s) (payload_type_rtx_ s)
    (target_bitrate_ s).

Definition set_payload_type_map_ (v : gmap Z Payload) (s : RTPSender) : RTPSender :=
  Build_RTPSender (collab s) (audio_configured_ s) (clock_ s) (tick_ s)
    (transport_log s) (pacer_log s) (rand_calls s) (audio_red_ s)
    (video_codec_type_ s) (video_max_bitrate_ s) (sending_media_ s)
    (max_payload_length_ s) (packet_over_head_ s) (payload_type_ s) v
    (rtp_header_extension_map_ s) (transmission_time_offset_ s)
    (absolute_send_time_ s) (nack_byte_count_times_ s) (nack_byte_count_ s)
    (packet_history_ s) (start_timestamp_forced_ s) (start_timestamp_ s)
    (ssrc_db_ s) (sequence_number_forced_ s) (ssrc_forced_ s) (ssrc_ s)
    (ssrc_rtx_ s) (sequence_number_ s) (sequence_number_rtx_ s)
    (timestamp_ s) (capture_time_ms_ s) (last_timestamp_time_ms_ s)
    (media_has_been_sent_ s) (last_packet_marker_bit_ s) (num_csrcs_ s)
    (csrcs_ s) (include_csrcs_ s) (rtx_ s) (payload_type_rtx_ s)
    (target_bitrate_ s).

Definition set_rtp_header_extension_map_ (v : RtpHeaderExtensionMap.t) (s : RTPSender) : RTPSender :=
  Build_RTPSender (collab s) (audio_configured_ s) (clock_ s) (tick_ s)
    (transport_log s) (pacer_log s) (rand_calls s) (audio_red_ s)
    (video_codec_type_ s) (video_max_bitrate_ s) (sending_media_ s)
    (max_payload_length_ s) (packet_over_head_ s) (payload_type_ s)
    (payload_type_map_ s) v (transmission_time_offset_ s)
    (absolute_send_time_ s) (nack_byte_count_times_ s) (nack_byte_count_ s)
    (packet_history_ s) (start_timestamp_forced_ s) (start_timestamp_ s)
    (ssrc_db_ s) (sequence_number_forced_ s) (ssrc_forced_ s) (ssrc_ s)
    (ssrc_rtx_ s) (sequence_number_ s) (sequence_number_rtx_ s)
    (timestamp_ s) (capture_time_ms_ s) (last_timestamp_time_ms_ s)
    (media_has_been_sent_ s) (last_packet_marker_bit_ s) (num_csrcs_ s)
    (csrcs_ s) (include_csrcs_ s) (rtx_ s) (payload_type_rtx_ s)
    (target_bitrate_ s).

Definition set_transmission_time_offset_ (v : Z) (s : RTPSender) : RTPSender :=
  Build_RTPSender (collab s) (audio_configured_ s) (clock_ s) (tick_ s)
    (transport_log s) (pacer_log s) (rand_calls s) (audio_red_ s)
    (video_codec_type_ s) (video_max_bitrate_ s) (sending_media_ s)
    (max_payload_length_ s) (packet_over_head_ s) (payload_type_ s)
    (payload_type_map_ s) (rtp_header_extension_map_ s) v
    (absolute_send_time_ s) (nack_byte_count_times_ s) (nack_byte_count_ s)
    (packet_history_ s) (start_timestamp_forced_ s) (start_timestamp_ s)
    (ssrc_db_ s) (sequence_number_forced_ s) (ssrc_forced_ s) (ssrc_ s)
    (ssrc_rtx_ s) (sequence_number_ s) (sequence_number_rtx_ s)
    (timestamp_ s) (capture_time_ms_ s) (last_timestamp_time_ms_ s)
    (media_has_been_sent_ s) (last_packet_marker_bit_ s) (num_csrcs_ s)
    (csrcs_ s) (include_csrcs_ s) (rtx_ s) (payload_type_rtx_ s)
    (target_bitrate_ s).

Definition set_absolute_send_time_ (v : Z) (s : RTPSender) : RTPSender :=
  Build_RTPSender (collab s) (audio_configured_ s) (clock_ s) (tick_ s)
    (transport_log s) (pacer_log s) (rand_calls s) (audio_red_ s)
    (video_codec_type_ s) (video_max_bitrate_ s) (sending_media_ s)
    (max_payload_length_ s) (packet_over_head_ s) (payload_type_ s)
    (payload_type_map_ s) (rtp_header_extension_map_ s)
    (transmission_time_offset_ s) v (nack_byte_count_times_ s)
    (nack_byte_count_ s) (packet_history_ s) (start_timestamp_forced_ s)
    (start_timestamp_ s) (ssrc_db_ s) (sequence_number_forced_ s)
    (ssrc_forced_ s) (ssrc_ s) (ssrc_rtx_ s) (sequence_number_ s)
    (sequence_number_rtx_ s) (timestamp_ s) (capture_time_ms_ s)
    (last_timestamp_time_ms_ s) (media_has_been_sent_ s)
    (last_packet_marker_bit_ s) (num_csrcs_ s) (csrcs_ s) (include_csrcs_ s)
    (rtx_ s) (payload_type_rtx_ s) (target_bitrate_ s).

Definition set_nack_byte_count_times_ (v : list Z) (s : RTPSender) : RTPSender :=
  Build_RTPSender (collab s) (audio_configured_ s) (clock_ s) (tick_ s)
    (transport_log s) (pacer_log s) (rand_calls s) (audio_red_ s)
    (video_codec_type_ s) (video_max_bitrate_ s) (sending_media_ s)
    (max_payload_length_ s) (packet_over_head_ s) (payload_type_ s)
    (payload_type_map_ s) (rtp_header_extension_map_ s)
    (transmission_time_offset_ s) (absolute_send_time_ s) v
    (nack_byte_count_ s) (packet_history_ s) (start_timestamp_forced_ s)
    (start_timestamp_ s) (ssrc_db_ s) (sequence_number_forced_ s)
    (ssrc_forced_ s) (ssrc_ s) (ssrc_rtx_ s) (sequence_number_ s)
    (sequence_number_rtx_ s) (timestamp_ s) (capture_time_ms_ s)
    (last_timestamp_time_ms_ s) (media_has_been_sent_ s)
    (last_packet_marker_bit_ s) (num_csrcs_ s) (csrcs_ s) (include_csrcs_ s)
    (rtx_ s) (payload_type_rtx_ s) (target_bitrate_ s).

Definition set_nack_byte_count_ (v : list Z) (s : RTPSender) : RTPSender :=
  Build_RTPSender (collab s) (audio_configured_ s) (clock_ s) (tick_ s)
    (transport_log s) (pacer_log s) (rand_calls s) (audio_red_ s)
    (video_codec_type_ s) (video_max_bitrate_ s) (sending_media_ s)
    (max_payload_length_ s) (packet_over_head_ s) (payload_type_ s)
    (payload_type_map_ s) (rtp_header_extension_map_ s)
    (transmission_time_offset_ s) (absolute_send_time_ s)
    (nack_byte_count_times_ s) v (packet_history_ s)
    (start_timestamp_forced_ s) (start_timestamp_ s) (ssrc_db_ s)
    (sequence_number_forced_ s) (ssrc_forced_ s) (ssrc_ s) (ssrc_rtx_ s)
    (sequence_number_ s) (sequence_number_rtx_ s) (timestamp_ s)
    (capture_time_ms_ s) (last_timestamp_time_ms_ s)
    (media_has_been_sent_ s) (last_packet_marker_bit_ s) (num_csrcs_ s)
    (csrcs_ s) (include_csrcs_ s) (rtx_ s) (payload_type_rtx_ s)
    (target_bitrate_ s).

Definition set_packet_history_ (v : H) (s : RTPSender) : RTPSender :=
  Build_RTPSender (collab s) (audio_configured_ s) (clock_ s) (tick_ s)
    (transport_log s) (pacer_log s) (rand_calls s) (audio_red_ s)
    (video_codec_type_ s) (video_max_bitrate_ s) (sending_media_ s)
    (max_payload_length_ s) (packet_over_head_ s) (payload_type_ s)
    (payload_type_map_ s) (rtp_header_extension_map_ s)
    (transmission_time_offset_ s) (absolute_send_time_ s)
    (nack_byte_count_times_ s) (nack_byte_count_ s) v
    (start_timestamp_forced_ s) (start_timestamp_ s) (ssrc_db_ s)
    (sequence_number_forced_ s) (ssrc_forced_ s) (ssrc_ s) (ssrc_rtx_ s)
    (sequence_number_ s) (sequence_number_rtx_ s) (timestamp_ s)
    (capture_time_ms_ s) (last_timestamp_time_ms_ s)
    (media_has_been_sent_ s) (last_packet_marker_bit_ s) (num_csrcs_ s)
    (csrcs_ s) (include_csrcs_ s) (rtx_ s) (payload_type_rtx_ s)
    (target_bitrate_ s).

Definition set_start_timestamp_forced_ (v : bool) (s : RTPSender) : RTPSender :=
  Build_RTPSender (collab s) (audio_configured_ s) (clock_ s) (tick_ s)
    (transport_log s) (pacer_log s) (rand_calls s) (audio_red_ s)
    (video_codec_type_ s) (video_max_bitrate_ s) (sending_media_ s)
    (max_payload_length_ s) (packet_over_head_ s) (payload_type_ s)
    (payload_type_map_ s) (rtp_header_extension_map_ s)
    (transmission_time_offset_ s) (absolute_send_time_ s)
    (nack_byte_count_times_ s) (nack_byte_count_ s) (packet_history_ s) v
    (start_timestamp_ s) (ssrc_db_ s) (sequence_number_forced_ s)
    (ssrc_forced_ s) (ssrc_ s) (ssrc_rtx_ s) (sequence_number_ s)
    (sequence_number_rtx_ s) (timestamp_ s) (capture_time_ms_ s)
    (last_timestamp_time_ms_ s) (media_has_been_sent_ s)
    (last_packet_marker_bit_ s) (num_csrcs_ s) (csrcs_ s) (include_csrcs_ s)
    (rtx_ s) (payload_type_rtx_ s) (target_bitrate_ s).

Definition set_start_timestamp_ (v : Z) (s : RTPSender) : RTPSender :=
  Build_RTPSender (collab s) (audio_configured_ s) (clock_ s) (tick_ s)
    (transport_log s) (pacer_log s) (rand_calls s) (audio_red_ s)
    (video_codec_type_ s) (video_max_bitrate_ s) (sending_media_ s)
    (max_payload_length_ s) (packet_over_head_ s) (payload_type_ s)
    (payload_type_map_ s) (rtp_header_extension_map_ s)
    (transmission_time_offset_ s) (absolute_send_time_ s)
    (nack_byte_count_times_ s) (nack_byte_count_ s) (packet_history_ s)
    (start_timestamp_forced_ s) v (ssrc_db_ s) (sequence_number_forced_ s)
    (ssrc_forced_ s) (ssrc_ s) (ssrc_rtx_ s) (sequence_number_ s)
    (sequence_number_rtx_ s) (timestamp_ s) (capture_time_ms_ s)
    (last_timestamp_time_ms_ s) (media_has_been_sent_ s)
    (last_packet_marker_bit_ s) (num_csrcs_ s) (csrcs_ s) (include_csrcs_ s)
    (rtx_ s) (payload_type_rtx_ s) (target_bitrate_ s).

Definition set_ssrc_db_ (v : gset Z) (s : RTPSender) : RTPSender :=
  Build_RTPSender (collab s) (audio_configured_ s) (clock_ s) (tick_ s)
    (transport_log s) (pacer_log s) (rand_calls s) (audio_red_ s)
    (video_codec_type_ s) (video_max_bitrate_ s) (sending_media_ s)
    (max_payload_length_ s) (packet_over_head_ s) (payload_type_ s)
    (payload_type_map_ s) (rtp_header_extension_map_ s)
    (transmission_time_offset_ s) (absolute_send_time_ s)
    (nack_byte_count_times_ s) (nack_byte_count_ s) (packet_history_ s)
    (start_timestamp_forced_ s) (start_timestamp_ s) v
    (sequence_number_forced_ s) (ssrc_forced_ s) (ssrc_ s) (ssrc_rtx_ s)
    (sequence_number_ s) (sequence_number_rtx_ s) (timestamp_ s)
    (capture_time_ms_ s) (last_timestamp_time_ms_ s)
    (media_has_been_sent_ s) (last_packet_marker_bit_ s) (num_csrcs_ s)
    (csrcs_ s) (include_csrcs_ s) (rtx_ s) (payload_type_rtx_ s)
    (target_bitrate_ s).

Definition set_sequence_number_forced_ (v : bool) (s : RTPSender) : RTPSender :=
  Build_RTPSender (collab s) (audio_configured_ s) (clock_ s) (tick_ s)
    (transport_log s) (pacer_log s) (rand_calls s) (audio_red_ s)
    (video_codec_type_ s) (video_max_bitrate_ s) (sending_media_ s)
    (max_payload_length_ s) (packet_over_head_ s) (payload_type_ s)
    (payload_type_map_ s) (rtp_header_extension_map_ s)
    (transmission_time_offset_ s) (absolute_send_time_ s)
    (nack_byte_count_times_ s) (nack_byte_count_ s) (packet_history_ s)
    (start_timestamp_forced_ s) (start_timestamp_ s) (ssrc_db_ s) v
    (ssrc_forced_ s) (ssrc_ s) (ssrc_rtx_ s) (sequence_number_ s)
    (sequence_number_rtx_ s) (timestamp_ s) (capture_time_ms_ s)
    (last_timestamp_time_ms_ s) (media_has_been_sent_ s)
    (last_packet_marker_bit_ s) (num_csrcs_ s) (csrcs_ s) (include_csrcs_ s)
    (rtx_ s) (payload_type_rtx_ s) (target_bitrate_ s).

Definition set_ssrc_forced_ (v : bool) (s : RTPSender) : RTPSender :=
  Build_RTPSender (collab s) (audio_configured_ s) (clock_ s) (tick_ s)
    (transport_log s) (pacer_log s) (rand_calls s) (audio_red_ s)
    (video_codec_type_ s) (video_max_bitrate_ s) (sending_media_ s)
    (max_payload_length_ s) (packet_over_head_ s) (payload_type_ s)
    (payload_type_map_ s) (rtp_header_extension_map_ s)
    (transmission_time_offset_ s) (absolute_send_time_ s)
    (nack_byte_count_times_ s) (nack_byte_count_ s) (packet_history_ s)
    (start_timestamp_forced_ s) (start_timestamp_ s) (ssrc_db_ s)
    (sequence_number_forced_ s) v (ssrc_ s) (ssrc_rtx_ s)
    (sequence_number_ s) (sequence_number_rtx_ s) (timestamp_ s)
    (capture_time_ms_ s) (last_timestamp_time_ms_ s)
    (media_has_been_sent_ s) (last_packet_marker_bit_ s) (num_csrcs_ s)
    (csrcs_ s) (include_csrcs_ s) (rtx_ s) (payload_type_rtx_ s)
    (target_bitrate_ s).

Definition set_ssrc_ (v : Z) (s : RTPSender) : RTPSender :=
  Build_RTPSender (collab s) (audio_configured_ s) (clock_ s) (tick_ s)
    (transport_log s) (pacer_log s) (rand_calls s) (audio_red_ s)
    (video_codec_type_ s) (video_max_bitrate_ s) (sending_media_ s)
    (max_payload_length_ s) (packet_over_head_ s) (payload_type_ s)
    (payload_type_map_ s) (rtp_header_extension_map_ s)
    (transmission_time_offset_ s) (absolute_send_time_ s)
    (nack_byte_count_times_ s) (nack_byte_count_ s) (packet_history_ s)
    (start_timestamp_forced_ s) (start_timestamp_ s) (ssrc_db_ s)
    (sequence_number_forced_ s) (ssrc_forced_ s) v (ssrc_rtx_ s)
    (sequence_number_ s) (sequence_number_rtx_ s) (timestamp_ s)
    (capture_time_ms_ s) (last_timestamp_time_ms_ s)
    (media_has_been_sent_ s) (last_packet_marker_bit_ s) (num_csrcs_ s)
    (csrcs_ s) (include_csrcs_ s) (rtx_ s) (payload_type_rtx_ s)
    (target_bitrate_ s).

Definition set_ssrc_rtx_ (v : Z) (s : RTPSender) : RTPSender :=
  Build_RTPSender (collab s) (audio_configured_ s) (clock_ s) (tick_ s)
    (transport_log s) (pacer_log s) (rand_calls s) (audio_red_ s)
    (video_codec_type_ s) (video_max_bitrate_ s) (sending_media_ s)
    (max_payload_length_ s) (packet_over_head_ s) (payload_type_ s)
    (payload_type_map_ s) (rtp_header_extension_map_ s)
    (transmission_time_offset_ s) (absolute_send_time_ s)
    (nack_byte_count_times_ s) (nack_byte_count_ s) (packet_history_ s)
    (start_timestamp_forced_ s) (start_timestamp_ s) (ssrc_db_ s)
    (sequence_number_forced_ s) (ssrc_forced_ s) (ssrc_ s) v
    (sequence_number_ s) (sequence_number_rtx_ s) (timestamp_ s)
    (capture_time_ms_ s) (last_timestamp_time_ms_ s)
    (media_has_been_sent_ s) (last_packet_marker_bit_ s) (num_csrcs_ s)
    (csrcs_ s) (include_csrcs_ s) (rtx_ s) (payload_type_rtx_ s)
    (target_bitrate_ s).

Definition set_sequence_number_ (v : Z) (s : RTPSender) : RTPSender :=
  Build_RTPSender (collab s) (audio_configured_ s) (clock_ s) (tick_ s)
    (transport_log s) (pacer_log s) (rand_calls s) (audio_red_ s)
    (video_codec_type_ s) (video_max_bitrate_ s) (sending_media_ s)
    (max_payload_length_ s) (packet_over_head_ s) (payload_type_ s)
    (payload_type_map_ s) (rtp_header_extension_map_ s)
    (transmission_time_offset_ s) (absolute_send_time_ s)
    (nack_byte_count_times_ s) (nack_byte_count_ s) (packet_history_ s)
    (start_timestamp_forced_ s) (start_timestamp_ s) (ssrc_db_ s)
    (sequence_number_forced_ s) (ssrc_forced_ s) (ssrc_ s) (ssrc_rtx_ s) v
    (sequence_number_rtx_ s) (timestamp_ s) (capture_time_ms_ s)
    (last_timestamp_time_ms_ s) (media_has_been_sent_ s)
    (last_packet_marker_bit_ s) (num_csrcs_ s) (csrcs_ s) (include_csrcs_ s)
    (rtx_ s) (payload_type_rtx_ s) (target_bitrate_ s).

Definition set_sequence_number_rtx_ (v : Z) (s : RTPSender) : RTPSender :=
  Build_RTPSender (collab s) (audio_configured_ s) (clock_ s) (tick_ s)
    (transport_log s) (pacer_log s) (rand_calls s) (audio_red_ s)
    (video_codec_type_ s) (video_max_bitrate_ s) (sending_media_ s)
    (max_payload_length_ s) (packet_over_head_ s) (payload_type_ s)
    (payload_type_map_ s) (rtp_header_extension_map_ s)
    (transmission_time_offset_ s) (absolute_send_time_ s)
    (nack_byte_count_times_ s) (nack_byte_count_ s) (packet_history_ s)
    (start_timestamp_forced_ s) (start_timestamp_ s) (ssrc_db_ s)
    (sequence_number_forced_ s) (ssrc_forced_ s) (ssrc_ s) (ssrc_rtx_ s)
    (sequence_number_ s) v (timestamp_ s) (capture_time_ms_ s)
    (last_timestamp_time_ms_ s) (media_has_been_sent_ s)
    (last_packet_marker_bit_ s) (num_csrcs_ s) (csrcs_ s) (include_csrcs_ s)
    (rtx_ s) (payload_type_rtx_ s) (target_bitrate_ s).

Definition set_timestamp_ (v : Z) (s : RTPSender) : RTPSender :=
  Build_RTPSender (collab s) (audio_configured_ s) (clock_ s) (tick_ s)
    (transport_log s) (pacer_log s) (rand_calls s) (audio_red_ s)
    (video_codec_type_ s) (video_max_bitrate_ s) (sending_media_ s)
    (max_payload_length_ s) (packet_over_head_ s) (payload_type_ s)
    (payload_type_map_ s) (rtp_header_extension_map_ s)
    (transmission_time_offset_ s) (absolute_send_time_ s)
    (nack_byte_count_times_ s) (nack_byte_count_ s) (packet_history_ s)
    (start_timestamp_forced_ s) (start_timestamp_ s) (ssrc_db_ s)
    (sequence_number_forced_ s) (ssrc_forced_ s) (ssrc_ s) (ssrc_rtx_ s)
    (sequence_number_ s) (sequence_number_rtx_ s) v (capture_time_ms_ s)
    (last_timestamp_time_ms_ s) (media_has_been_sent_ s)
    (last_packet_marker_bit_ s) (num_csrcs_ s) (csrcs_ s) (include_csrcs_ s)
    (rtx_ s) (payload_type_rtx_ s) (target_bitrate_ s).

Definition set_capture_time_ms_ (v : Z) (s : RTPSender) : RTPSender :=
  Build_RTPSender (collab s) (audio_configured_ s) (clock_ s) (tick_ s)
    (transport_log s) (pacer_log s) (rand_calls s) (audio_red_ s)
    (video_codec_type_ s) (video_max_bitrate_ s) (sending_media_ s)
    (max_payload_length_ s) (packet_over_head_ s) (payload_type_ s)
    (payload_type_map_ s) (rtp_header_extension_map_ s)
    (transmission_time_offset_ s) (absolute_send_time_ s)
    (nack_byte_count_times_ s) (nack_byte_count_ s) (packet_history_ s)
    (start_timestamp_forced_ s) (start_timestamp_ s) (ssrc_db_ s)
    (sequence_number_forced_ s) (ssrc_forced_ s) (ssrc_ s) (ssrc_rtx_ s)
    (sequence_number_ s) (sequence_number_rtx_ s) (timestamp_ s) v
    (last_timestamp_time_ms_ s) (media_has_been_sent_ s)
    (last_packet_marker_bit_ s) (num_csrcs_ s) (csrcs_ s) (include_csrcs_ s)
    (rtx_ s) (payload_type_rtx_ s) (target_bitrate_ s).

Definition set_last_timestamp_time_ms_ (v : Z) (s : RTPSender) : RTPSender :=
  Build_RTPSender (collab s) (audio_configured_ s) (clock_ s) (tick_ s)
    (transport_log s) (pacer_log s) (rand_calls s) (audio_red_ s)
    (video_codec_type_ s) (video_max_bitrate_ s) (sending_media_ s)
    (max_payload_length_ s) (packet_over_head_ s) (payload_type_ s)
    (payload_type_map_ s) (rtp_header_extension_map_ s)
    (transmission_time_offset_ s) (absolute_send_time_ s)
    (nack_byte_count_times_ s) (nack_byte_count_ s) (packet_history_ s)
    (start_timestamp_forced_ s) (start_timestamp_ s) (ssrc_db_ s)
    (sequence_number_forced_ s) (ssrc_forced_ s) (ssrc_ s) (ssrc_rtx_ s)
    (sequence_number_ s) (sequence_number_rtx_ s) (timestamp_ s)
    (capture_time_ms_ s) v (media_has_been_sent_ s)
    (last_packet_marker_bit_ s) (num_csrcs_ s) (csrcs_ s) (include_csrcs_ s)
    (rtx_ s) (payload_type_rtx_ s) (target_bitrate_ s).

Definition set_media_has_been_sent_ (v : bool) (s : RTPSender) : RTPSender :=
  Build_RTPSender (collab s) (audio_configured_ s) (clock_ s) (tick_ s)
    (transport_log s) (pacer_log s) (rand_calls s) (audio_red_ s)
    (video_codec_type_ s) (video_max_bitrate_ s) (sending_media_ s)
    (max_payload_length_ s) (packet_over_head_ s) (payload_type_ s)
    (payload_type_map_ s) (rtp_header_extension_map_ s)
    (transmission_time_offset_ s) (absolute_send_time_ s)
    (nack_byte_count_times_ s) (nack_byte_count_ s) (packet_history_ s)
    (start_timestamp_forced_ s) (start_timestamp_ s) (ssrc_db_ s)
    (sequence_number_forced_ s) (ssrc_forced_ s) (ssrc_ s) (ssrc_rtx_ s)
    (sequence_number_ s) (sequence_number_rtx_ s) (timestamp_ s)
    (capture_time_ms_ s) (last_timestamp_time_ms_ s) v
    (last_packet_marker_bit_ s) (num_csrcs_ s) (csrcs_ s) (include_csrcs_ s)
    (rtx_ s) (payload_type_rtx_ s) (target_bitrate_ s).

Definition set_last_packet_marker_bit_ (v : bool) (s : RTPSender) : RTPSender :=
  Build_RTPSender (collab s) (audio_configured_ s) (clock_ s) (tick_ s)
    (transport_log s) (pacer_log s) (rand_calls s) (audio_red_ s)
    (video_codec_type_ s) (video_max_bitrate_ s) (sending_media_ s)
    (max_payload_length_ s) (packet_over_head_ s) (payload_type_ s)
    (payload_type_map_ s) (rtp_header_extension_map_ s)
    (transmission_time_offset_ s) (absolute_send_time_ s)
    (nack_byte_count_times_ s) (nack_byte_count_ s) (packet_history_ s)
    (start_timestamp_forced_ s) (start_timestamp_ s) (ssrc_db_ s)
    (sequence_number_forced_ s) (ssrc_forced_ s) (ssrc_ s) (ssrc_rtx_ s)
    (sequence_number_ s) (sequence_number_rtx_ s) (timestamp_ s)
    (capture_time_ms_ s) (last_timestamp_time_ms_ s)
    (media_has_been_sent_ s) v (num_csrcs_ s) (csrcs_ s) (include_csrcs_ s)
    (rtx_ s) (payload_type_rtx_ s) (target_bitrate_ s).

Definition set_num_csrcs_ (v : Z) (s : RTPSender) : RTPSender :=
  Build_RTPSender (collab s) (audio_configured_ s) (clock_ s) (tick_ s)
    (transport_log s) (pacer_log s) (rand_calls s) (audio_red_ s)
    (video_codec_type_ s) (video_max_bitrate_ s) (sending_media_ s)
    (max_payload_length_ s) (packet_over_head_ s) (payload_type_ s)
    (payload_type_map_ s) (rtp_header_extension_map_ s)
    (transmission_time_offset_ s) (absolute_send_time_ s)
    (nack_byte_count_times_ s) (nack_byte_count_ s) (packet_history_ s)
    (start_timestamp_forced_ s) (start_timestamp_ s) (ssrc_db_ s)
    (sequence_number_forced_ s) (ssrc_forced_ s) (ssrc_ s) (ssrc_rtx_ s)
    (sequence_number_ s) (sequence_number_rtx_ s) (timestamp_ s)
    (capture_time_ms_ s) (last_timestamp_time_ms_ s)
    (media_has_been_sent_ s) (last_packet_marker_bit_ s) v (csrcs_ s)
    (include_csrcs_ s) (rtx_ s) (payload_type_rtx_ s) (target_bitrate_ s).

Definition set_csrcs_ (v : list Z) (s : RTPSender) : RTPSender :=
  Build_RTPSender (collab s) (audio_configured_ s) (clock_ s) (tick_ s)
    (transport_log s) (pacer_log s) (rand_calls s) (audio_red_ s)
    (video_codec_type_ s) (video_max_bitrate_ s) (sending_media_ s)
    (max_payload_length_ s) (packet_over_head_ s) (payload_type_ s)
    (payload_type_map_ s) (rtp_header_extension_map_ s)
    (transmission_time_offset_ s) (absolute_send_time_ s)
    (nack_byte_count_times_ s) (nack_byte_count_ s) (packet_history_ s)
    (start_timestamp_forced_ s) (start_timestamp_ s) (ssrc_db_ s)
    (sequence_number_forced_ s) (ssrc_forced_ s) (ssrc_ s) (ssrc_rtx_ s)
    (sequence_number_ s) (sequence_number_rtx_ s) (timestamp_ s)
    (capture_time_ms_ s) (last_timestamp_time_ms_ s)
    (media_has_been_sent_ s) (last_packet_marker_bit_ s) (num_csrcs_ s) v
    (include_csrcs_ s) (rtx_ s) (payload_type_rtx_ s) (target_bitrate_ s).

Definition set_include_csrcs_ (v : bool) (s : RTPSender) : RTPSender :=
  Build_RTPSender (collab s) (audio_configured_ s) (clock_ s) (tick_ s)
    (transport_log s) (pacer_log s) (rand_calls s) (audio_red_ s)
    (video_codec_type_ s) (video_max_bitrate_ s) (sending_media_ s)
    (max_payload_length_ s) (packet_over_head_ s) (payload_type_ s)
    (payload_type_map_ s) (rtp_header_extension_map_ s)
    (transmission_time_offset_ s) (absolute_send_time_ s)
    (nack_byte_count_times_ s) (nack_byte_count_ s) (packet_history_ s)
    (start_timestamp_forced_ s) (start_timestamp_ s) (ssrc_db_ s)
    (sequence_number_forced_ s) (ssrc_forced_ s) (ssrc_ s) (ssrc_rtx_ s)
    (sequence_number_ s) (sequence_number_rtx_ s) (timestamp_ s)
    (capture_time_ms_ s) (last_timestamp_time_ms_ s)
    (media_has_been_sent_ s) (last_packet_marker_bit_ s) (num_csrcs_ s)
    (csrcs_ s) v (rtx_ s) (payload_type_rtx_ s) (target_bitrate_ s).

Definition set_rtx_ (v : Z) (s : RTPSender) : RTPSender :=
  Build_RTPSender (collab s) (audio_configured_ s) (clock_ s) (tick_ s)
    (transport_log s) (pacer_log s) (rand_calls s) (audio_red_ s)
    (video_codec_type_ s) (video_max_bitrate_ s) (sending_media_ s)
    (max_payload_length_ s) (packet_over_head_ s) (payload_type_ s)
    (payload_type_map_ s) (rtp_header_extension_map_ s)
    (transmission_time_offset_ s) (absolute_send_time_ s)
    (nack_byte_count_times_ s) (nack_byte_count_ s) (packet_history_ s)
    (start_timestamp_forced_ s) (start_timestamp_ s) (ssrc_db_ s)
    (sequence_number_forced_ s) (ssrc_forced_ s) (ssrc_ s) (ssrc_rtx_ s)
    (sequence_number_ s) (sequence_number_rtx_ s) (timestamp_ s)
    (capture_time_ms_ s) (last_timestamp_time_ms_ s)
    (media_has_been_sent_ s) (last_packet_marker_bit_ s) (num_csrcs_ s)
    (csrcs_ s) (include_csrcs_ s) v (payload_type_rtx_ s)
    (target_bitrate_ s).

Definition set_payload_type_rtx_ (v : Z) (s : RTPSender) : RTPSender :=
  Build_RTPSender (collab s) (audio_configured_ s) (clock_ s) (tick_ s)
    (transport_log s) (pacer_log s) (rand_calls s) (audio_red_ s)
    (video_codec_type_ s) (video_max_bitrate_ s) (sending_media_ s)
    (max_payload_length_ s) (packet_over_head_ s) (payload_type_ s)
    (payload_type_map_ s) (rtp_header_extension_map_ s)
    (transmission_time_offset_ s) (absolute_send_time_ s)
    (nack_byte_count_times_ s) (nack_byte_count_ s) (packet_history_ s)
    (start_timestamp_forced_ s) (start_timestamp_ s) (ssrc_db_ s)
    (sequence_number_forced_ s) (ssrc_forced_ s) (ssrc_ s) (ssrc_rtx_ s)
    (sequence_number_ s) (sequence_number_rtx_ s) (timestamp_ s)
    (capture_time_ms_ s) (last_timestamp_time_ms_ s)
    (media_has_been_sent_ s) (last_packet_marker_bit_ s) (num_csrcs_ s)
    (csrcs_ s) (include_csrcs_ s) (rtx_ s) v (target_bitrate_ s).

Definition set_target_bitrate_ (v : Z) (s : RTPSender) : RTPSender :=
  Build_RTPSender (collab s) (audio_configured_ s) (clock_ s) (tick_ s)
    (transport_log s) (pacer_log s) (rand_calls s) (audio_red_ s)
    (video_codec_type_ s) (video_max_bitrate_ s) (sending_media_ s)
    (max_payload_length_ s) (packet_over_head_ s) (payload_type_ s)
    (payload_type_map_ s) (rtp_header_extension_map_ s)
    (transmission_time_offset_ s) (absolute_send_time_ s)
    (nack_byte_count_times_ s) (nack_byte_count_ s) (packet_history_ s)
    (start_timestamp_forced_ s) (start_timestamp_ s) (ssrc_db_ s)
    (sequence_number_forced_ s) (ssrc_forced_ s) (ssrc_ s) (ssrc_rtx_ s)
    (sequence_number_ s) (sequence_number_rtx_ s) (timestamp_ s)
    (capture_time_ms_ s) (last_timestamp_time_ms_ s)
    (media_has_been_sent_ s) (last_packet_marker_bit_ s) (num_csrcs_ s)
    (csrcs_ s) (include_csrcs_ s) (rtx_ s) (payload_type_rtx_ s) v.

(** ** Small helpers for the collaborators *)

(** [rand()]: the next value of the generator. *)
Definition rand (s : RTPSender) : RTPSender * Z :=
  (set_rand_calls (S (rand_calls s)) s, rand_ (collab s) (rand_calls s)).

(** [ssrc_db_.CreateSSRC()]: a fresh identifier, recorded as in use. *)
Definition ssrc_db_CreateSSRC (s : RTPSender) : RTPSender * Z :=
  let ssrc := CreateSSRC (collab s) (ssrc_db_ s) in
  (set_ssrc_db_ (SSRCDatabase.RegisterSSRC (ssrc_db_ s) ssrc) s, ssrc).

(** [paced_sender_->SendPacket(...)] on a non-NULL pacer [p]. *)
Definition paced_sender_SendPacket (p : nat -> PacerCall -> bool)
    (s : RTPSender) (c : PacerCall) : RTPSender * bool :=
  (set_pacer_log (pacer_log s ++ [c]) s, p (length (pacer_log s)) c).

(** Views of the payload union. *)
Definition Audio_frequency (p : Payload) : Z :=
  match typeSpecific p with Audio f _ _ => f | Video _ _ => 0 end.
Definition Audio_rate (p : Payload) : Z :=
  match typeSpecific p with Audio _ _ r => r | Video _ _ => 0 end.
Definition set_Audio_rate (rate : Z) (p : Payload) : Payload :=
  match typeSpecific p with
  | Audio f c _ => {| name := name p; typeSpecific := Audio f c rate |}
  | Video _ _ => p
  end.
Definition Video_videoCodecType (p : Payload) : RtpVideoCodecTypes :=
  match typeSpecific p with Audio _ _ _ => kRtpVideoNone | Video c _ => c end.
Definition Video_maxRate (p : Payload) : Z :=
  match typeSpecific p with Audio _ _ _ => 0 | Video _ m => m end.

(** ** Configuration *)

Definition SetTargetBitrate (s : RTPSender) (bitrate : Z) : RTPSender :=
  set_target_bitrate_ bitrate s.

Definition GetTargetBitrate (s : RTPSender) : Z := target_bitrate_ s.

Definition SetTransmissionTimeOffset (s : RTPSender)
    (transmission_time_offset : Z) : RTPSender * Z :=
  if (8388607 <? transmission_time_offset)
     || (transmission_time_offset <? -8388607)
  then (s, -1)
  else (set_transmission_time_offset_ transmission_time_offset s, 0).

Definition SetAbsoluteSendTime (s : RTPSender) (absolute_send_time : Z)
    : RTPSender * Z :=
  if 16777215 <? absolute_send_time then (s, -1)
  else (set_absolute_send_time_ absolute_send_time s, 0).

Definition RegisterRtpHeaderExtension (s : RTPSender)
    (type : RTPExtensionType) (id : Z) : RTPSender * Z :=
  let '(m, r) :=
    RtpHeaderExtensionMap.Register (rtp_header_extension_map_ s) type id in
  (set_rtp_header_extension_map_ m s, r).

Definition DeregisterRtpHeaderExtension (s : RTPSender)
    (type : RTPExtensionType) : RTPSender * Z :=
  let '(m, r) :=
    RtpHeaderExtensionMap.Deregister (rtp_header_extension_map_ s) type in
  (set_rtp_header_extension_map_ m s, r).

Definition RtpHeaderExtensionTotalLength (s : RTPSender) : Z :=
  RtpHeaderExtensionMap.GetTotalLengthInBytes (rtp_header_extension_map_ s).

(** ** Payload registry *)

Definition RegisterPayload (s : RTPSender) (payload_name : string)
    (payload_number frequency channels rate : Z) : RTPSender * Z :=
  match payload_type_map_ s !! payload_number with
  | Some payload =>
    (* We already use this payload type. *)
    if RtpUtility.StringCompare (name payload) payload_name
         (RTP_PAYLOAD_NAME_SIZE - 1)
    then
      if audio_configured_ s && audio payload
         && (Audio_frequency payload =? frequency)
         && ((Audio_rate payload =? rate) || (Audio_rate payload =? 0)
             || (rate =? 0))
      then
        (set_payload_type_map_
           (<[payload_number := set_Audio_rate rate payload]>
              (payload_type_map_ s)) s, 0)
      else if negb (audio_configured_ s) && negb (audio payload)
      then (s, 0)
      else (s, -1)
    else (s, -1)
  | None =>
    let '(ret_val, payload) :=
      if audio_configured_ s
      then RegisterAudioPayload (collab s) payload_name payload_number
             frequency channels rate
      else RegisterVideoPayload (collab s) payload_name payload_number rate
    in
    match payload with
    | Some p =>
      (set_payload_type_map_
         (<[payload_number := p]> (payload_type_map_ s)) s, ret_val)
    | None => (s, ret_val)
    end
  end.

Definition DeRegisterSendPayload (s : RTPSender) (payload_type : Z)
    : RTPSender * Z :=
  match payload_type_map_ s !! payload_type with
  | None => (s, -1)
  | Some _ =>
    (set_payload_type_map_ (delete payload_type (payload_type_map_ s)) s, 0)
  end.

Definition SendPayloadType (s : RTPSender) : Z := payload_type_ s.

Definition SetMaxPayloadLength (s : RTPSender)
    (max_payload_length packet_over_head : Z) : RTPSender * Z :=
  if (max_payload_length <? 100) || (IP_PACKET_SIZE <? max_payload_length)
  then (s, -1)
  else (set_packet_over_head_ packet_over_head
          (set_max_payload_length_ max_payload_length s), 0).

Definition SetRTXStatus (s : RTPSender) (mode : Z) : RTPSender :=
  set_rtx_ mode s.

Definition SetRtxSsrc (s : RTPSender) (ssrc : Z) : RTPSender :=
  set_ssrc_rtx_ ssrc s.

Definition SetRtxPayloadType (s : RTPSender) (payload_type : Z) : RTPSender :=
  set_payload_type_rtx_ payload_type s.

(** [CheckPayloadType]: the new state, the return value and the value
    stored through [video_type], if any. *)
Definition CheckPayloadType (s : RTPSender) (payload_type : Z)
    : RTPSender * Z * option RtpVideoCodecTypes :=
  if payload_type <? 0 then (s, -1, None)
  else if audio_configured_ s
          && match audio_red_ s with
             | Some red_pl_type => red_pl_type =? payload_type
             | None => false
             end
  then (s, 0, None)
  else if payload_type_ s =? payload_type then
    (s, 0, if negb (audio_configured_ s) then Some (video_codec_type_ s)
           else None)
  else
    match payload_type_map_ s !! payload_type with
    | None => (s, -1, None)
    | Some payload =>
      let s := set_payload_type_ payload_type s in
      if negb (audio payload) && negb (audio_configured_ s) then
        let s := set_video_codec_type_ (Video_videoCodecType payload) s in
        let s := set_video_max_bitrate_ (Video_maxRate payload) s in
        (s, 0, Some (Video_videoCodecType payload))
      else (s, 0, None)
    end.

(** ** Header construction *)

Definition BuildTransmissionTimeOffsetExtension (s : RTPSender)
    (data_buffer : list Z) (base : Z) : list Z * Z :=
  match RtpHeaderExtensionMap.GetId (rtp_header_extension_map_ s)
          kRtpExtensionTransmissionTimeOffset with
  | None => (data_buffer, 0)
  | Some id =>
    let data_buffer := set_byte data_buffer base (Z.shiftl id 4 + 2) in
    let data_buffer :=
      RtpUtility.AssignUWord24ToBuffer data_buffer (base + 1)
        (u32 (transmission_time_offset_ s)) in
    (data_buffer, kTransmissionTimeOffsetLength)
  end.

Definition BuildAudioLevelExtension (s : RTPSender)
    (data_buffer : list Z) (base : Z) : list Z * Z :=
  match RtpHeaderExtensionMap.GetId (rtp_header_extension_map_ s)
          kRtpExtensionAudioLevel with
  | None => (data_buffer, 0)
  | Some id =>
    let data_buffer := set_byte data_buffer base (Z.shiftl id 4 + 0) in
    let data_buffer := set_byte data_buffer (base + 1) (Z.shiftl 1 7 + 0) in
    let data_buffer := set_byte data_buffer (base + 2) 0 in
    let data_buffer := set_byte data_buffer (base + 3) 0 in
    (data_buffer, kAudioLevelLength)
  end.

Definition BuildAbsoluteSendTimeExtension (s : RTPSender)
    (data_buffer : list Z) (base : Z) : list Z * Z :=
  match RtpHeaderExtensionMap.GetId (rtp_header_extension_map_ s)
          kRtpExtensionAbsoluteSendTime with
  | None => (data_buffer, 0)
  | Some id =>
    let data_buffer := set_byte data_buffer base (Z.shiftl id 4 + 2) in
    let data_buffer :=
      RtpUtility.AssignUWord24ToBuffer data_buffer (base + 1)
        (absolute_send_time_ s) in
    (data_buffer, kAbsoluteSendTimeLength)
  end.

(** The [while (type != kRtpExtensionNone)] loop: [First()] and
    [Next(type)] walk the registered kinds in the map's order. *)
Fixpoint BuildRTPHeaderExtension_loop (s : RTPSender)
    (types : RtpHeaderExtensionMap.t) (data_buffer : list Z) (base : Z)
    (total_block_length : Z) : list Z * Z :=
  match types with
  | [] => (data_buffer, total_block_length)
  | (_, type) :: rest =>
    let '(data_buffer, block_length) :=
      match type with
      | kRtpExtensionTransmissionTimeOffset =>
        BuildTransmissionTimeOffsetExtension s data_buffer
          (base + kRtpOneByteHeaderLength + total_block_length)
      | kRtpExtensionAudioLevel =>
        BuildAudioLevelExtension s data_buffer
          (base + kRtpOneByteHeaderLength + total_block_length)
      | kRtpExtensionAbsoluteSendTime =>
        BuildAbsoluteSendTimeExtension s data_buffer
          (base + kRtpOneByteHeaderLength + total_block_length)
      | kRtpExtensionNone => (data_buffer, 0)
      end in
    BuildRTPHeaderExtension_loop s rest data_buffer base
      (u16 (total_block_length + block_length))
  end.

(** [BuildRTPHeaderExtension(data_buffer)] with [data_buffer] pointing at
    offset [base] of the packet: the packet and the number of bytes added. *)
Definition BuildRTPHeaderExtension (s : RTPSender) (data_buffer : list Z)
    (base : Z) : list Z * Z :=
  if RtpHeaderExtensionMap.Size (rtp_header_extension_map_ s) <=? 0
  then (data_buffer, 0)
  else
    let kPosLength := 2 in
    let data_buffer :=
      RtpUtility.AssignUWord16ToBuffer data_buffer base
        kRtpOneByteHeaderExtensionId in
    let '(data_buffer, total_block_length) :=
      BuildRTPHeaderExtension_loop s (rtp_header_extension_map_ s)
        data_buffer base 0 in
    if total_block_length =? 0 then (data_buffer, 0)
    else
      let data_buffer :=
        RtpUtility.AssignUWord16ToBuffer data_buffer (base + kPosLength)
          (total_block_length / 4) in
      (data_buffer, u16 (kRtpOneByteHeaderLength + total_block_length)).

Definition CreateRTPHeader (s : RTPSender) (header : list Z)
    (payload_type ssrc : Z) (marker_bit : bool)
    (timestamp sequence_number : Z) (csrcs : list Z) (num_csrcs : Z)
    : list Z * Z :=
  let header := set_byte header 0 128 in
  let header := set_byte header 1 payload_type in
  let header :=
    if marker_bit
    then set_byte header 1 (Z.lor (byte_at header 1) kRtpMarkerBitMask)
    else header in
  let header := RtpUtility.AssignUWord16ToBuffer header 2 sequence_number in
  let header := RtpUtility.AssignUWord32ToBuffer header 4 timestamp in
  let header := RtpUtility.AssignUWord32ToBuffer header 8 ssrc in
  let rtp_header_length := 12 in
  if (0 <? num_csrcs) && (kRtpCsrcSize <? num_csrcs) then (header, -1)
  else
    let '(header, rtp_header_length) :=
      if 0 <? num_csrcs then
        let header :=
          foldl (fun hd i =>
                   RtpUtility.AssignUWord32ToBuffer hd
                     (rtp_header_length + 4 * Z.of_nat i)
                     (default 0 (csrcs !! i)))
                header (seq 0 (Z.to_nat num_csrcs)) in
        let header :=
          set_byte header 0 (Z.lor (Z.land (byte_at header 0) 240) num_csrcs) in
        (header, rtp_header_length + 4 * num_csrcs)
      else (header, rtp_header_length) in
    let '(header, len) := BuildRTPHeaderExtension s header rtp_header_length in
    if 0 <? len
    then (set_byte header 0 (Z.lor (byte_at header 0) 16),
          rtp_header_length + len)
    else (header, rtp_header_length).

Definition BuildRTPheader (s : RTPSender) (data_buffer : list Z)
    (payload_type : Z) (marker_bit : bool) (capture_timestamp : Z)
    (capture_time_ms : Z) (timestamp_provided inc_sequence_number : bool)
    : RTPSender * list Z * Z :=
  let s :=
    if timestamp_provided
    then set_timestamp_ (u32 (start_timestamp_ s + capture_timestamp)) s
    else set_timestamp_ (u32 (timestamp_ s + 1)) s in
  let s := set_last_timestamp_time_ms_ (clock_ s) s in
  let sequence_number := sequence_number_ s in
  let s := set_sequence_number_ (u16 (sequence_number_ s + 1)) s in
  let s := set_capture_time_ms_ capture_time_ms s in
  let s := set_last_packet_marker_bit_ marker_bit s in
  let csrcs_length := if include_csrcs_ s then num_csrcs_ s else 0 in
  let '(data_buffer, len) :=
    CreateRTPHeader s data_buffer payload_type (ssrc_ s) marker_bit
      (timestamp_ s) sequence_number (csrcs_ s) csrcs_length in
  (s, data_buffer, len).

Definition RTPHeaderLength (s : RTPSender) : Z :=
  let rtp_header_length := 12 in
  let rtp_header_length :=
    if include_csrcs_ s then u16 (rtp_header_length + 4 * num_csrcs_ s)
    else rtp_header_length in
  u16 (rtp_header_length + RtpHeaderExtensionTotalLength s).

Definition IncrementSequenceNumber (s : RTPSender) : RTPSender * Z :=
  (set_sequence_number_ (u16 (sequence_number_ s + 1)) s, sequence_number_ s).

(** ** In-place header-extension updates *)

Definition UpdateTransmissionTimeOffset (s : RTPSender)
    (rtp_packet : list Z) (rtp_packet_length : Z)
    (rtp_header : RtpUtility.RTPHeader) (time_diff_ms : Z) : list Z :=
  match RtpHeaderExtensionMap.GetId (rtp_header_extension_map_ s)
          kRtpExtensionTransmissionTimeOffset with
  | None => rtp_packet                                  (* Not registered. *)
  | Some id =>
    let extension_block_pos :=
      RtpHeaderExtensionMap.GetLengthUntilBlockStartInBytes
        (rtp_header_extension_map_ s) kRtpExtensionTransmissionTimeOffset in
    if extension_block_pos <? 0 then rtp_packet
    else
      let block_pos :=
        12 + RtpUtility.numCSRCs rtp_header + extension_block_pos in
      if (rtp_packet_length <? block_pos + kTransmissionTimeOffsetLength)
         || (RtpUtility.headerLength rtp_header
             <? block_pos + kTransmissionTimeOffsetLength)
      then rtp_packet
      else if negb ((byte_at rtp_packet (12 + RtpUtility.numCSRCs rtp_header)
                     =? 190)
                    && (byte_at rtp_packet
                          (12 + RtpUtility.numCSRCs rtp_header + 1) =? 222))
      then rtp_packet
      else
        let first_block_byte := u8 (Z.shiftl id 4 + 2) in
        if negb (byte_at rtp_packet block_pos =? first_block_byte)
        then rtp_packet
        else
          RtpUtility.AssignUWord24ToBuffer rtp_packet (block_pos + 1)
            (u32 (i64 (time_diff_ms * 90)))
  end.

Definition UpdateAudioLevel (s : RTPSender)
    (rtp_packet : list Z) (rtp_packet_length : Z)
    (rtp_header : RtpUtility.RTPHeader) (is_voiced : bool) (dBov : Z)
    : list Z * bool :=
  match RtpHeaderExtensionMap.GetId (rtp_header_extension_map_ s)
          kRtpExtensionAudioLevel with
  | None => (rtp_packet, false)                         (* Not registered. *)
  | Some id =>
    let extension_block_pos :=
      RtpHeaderExtensionMap.GetLengthUntilBlockStartInBytes
        (rtp_header_extension_map_ s) kRtpExtensionAudioLevel in
    if extension_block_pos <? 0 then (rtp_packet, false)
    else
      let block_pos :=
        12 + RtpUtility.numCSRCs rtp_header + extension_block_pos in
      if (rtp_packet_length <? block_pos + kAudioLevelLength)
         || (RtpUtility.headerLength rtp_header
             <? block_pos + kAudioLevelLength)
      then (rtp_packet, false)
      else if negb ((byte_at rtp_packet (12 + RtpUtility.numCSRCs rtp_header)
                     =? 190)
                    && (byte_at rtp_packet
                          (12 + RtpUtility.numCSRCs rtp_header + 1) =? 222))
      then (rtp_packet, false)
      else
        let first_block_byte := u8 (Z.shiftl id 4 + 0) in
        if negb (byte_at rtp_packet block_pos =? first_block_byte)
        then (rtp_packet, false)
        else
          (set_byte rtp_packet (block_pos + 1)
             ((if is_voiced then 128 else 0) + Z.land dBov 127), true)
  end.

Definition UpdateAbsoluteSendTime (s : RTPSender)
    (rtp_packet : list Z) (rtp_packet_length : Z)
    (rtp_header : RtpUtility.RTPHeader) (now_ms : Z) : list Z :=
  match RtpHeaderExtensionMap.GetId (rtp_header_extension_map_ s)
          kRtpExtensionAbsoluteSendTime with
  | None => rtp_packet                                  (* Not registered. *)
  | Some id =>
    let extension_block_pos :=
      RtpHeaderExtensionMap.GetLengthUntilBlockStartInBytes
        (rtp_header_extension_map_ s) kRtpExtensionAbsoluteSendTime in
    if extension_block_pos <? 0 then rtp_packet
    else
      let block_pos :=
        12 + RtpUtility.numCSRCs rtp_header + extension_block_pos in
      if (rtp_packet_length <? block_pos + kAbsoluteSendTimeLength)
         || (RtpUtility.headerLength rtp_header
             <? block_pos + kAbsoluteSendTimeLength)
      then rtp_packet
      else if negb ((byte_at rtp_packet (12 + RtpUtility.numCSRCs rtp_header)
                     =? 190)
                    && (byte_at rtp_packet
                          (12 + RtpUtility.numCSRCs rtp_header + 1) =? 222))
      then rtp_packet
      else
        let first_block_byte := u8 (Z.shiftl id 4 + 2) in
        if negb (byte_at rtp_packet block_pos =? first_block_byte)
        then rtp_packet
        else
          RtpUtility.AssignUWord24ToBuffer rtp_packet (block_pos + 1)
            (u32 (Z.land (Z.quot (i64 (Z.shiftl now_ms 18)) 1000) 16777215))
  end.

(** ** Transmission *)

(** [SendPacketToNetwork(packet, size)]: the transport sees the first
    [size] bytes; without a transport [bytes_sent] stays -1. *)
Definition SendPacketToNetwork (s : RTPSender) (packet : list Z) (size : Z)
    : RTPSender * bool :=
  match transport_ (collab s) with
  | None => (s, false)
  | Some transport =>
    let data := take (Z.to_nat size) packet in
    let bytes_sent := transport (length (transport_log s)) data in
    (set_transport_log (transport_log s ++ [(data, bytes_sent)]) s,
     negb (bytes_sent <=? 0))
  end.

(** [BuildRtxPacket(buffer, &length, buffer_rtx)]: the state with the RTX
    sequence number advanced, the RTX buffer and the new length. The RTX
    buffer is the caller's scratch array of [IP_PACKET_SIZE] bytes. *)
Definition BuildRtxPacket (s : RTPSender) (buffer : list Z) (length : Z)
    (buffer_rtx : list Z) : RTPSender * list Z * Z :=
  let rtp_header := RtpUtility.ParseOrDefault buffer length in
  let headerLength := RtpUtility.headerLength rtp_header in
  (* Add original RTP header. *)
  let data_buffer_rtx :=
    memcpy buffer_rtx 0 buffer 0 (Z.to_nat headerLength) in
  (* Replace payload type, if a specific type is set for RTX. *)
  let data_buffer_rtx :=
    if negb (payload_type_rtx_ s =? -1) then
      let b := set_byte data_buffer_rtx 1 (payload_type_rtx_ s) in
      if RtpUtility.markerBit rtp_header
      then set_byte b 1 (Z.lor (byte_at b 1) kRtpMarkerBitMask)
      else b
    else data_buffer_rtx in
  (* Replace sequence number. *)
  let data_buffer_rtx :=
    RtpUtility.AssignUWord16ToBuffer data_buffer_rtx 2
      (sequence_number_rtx_ s) in
  let s := set_sequence_number_rtx_ (u16 (sequence_number_rtx_ s + 1)) s in
  (* Replace SSRC. *)
  let data_buffer_rtx :=
    RtpUtility.AssignUWord32ToBuffer data_buffer_rtx 8 (ssrc_rtx_ s) in
  (* Add OSN (original sequence number). *)
  let data_buffer_rtx :=
    RtpUtility.AssignUWord16ToBuffer data_buffer_rtx headerLength
      (RtpUtility.sequenceNumber rtp_header) in
  (* Add original payload data. *)
  let data_buffer_rtx :=
    memcpy data_buffer_rtx (Z.to_nat (headerLength + 2))
      buffer (Z.to_nat headerLength) (Z.to_nat (length - headerLength)) in
  (s, data_buffer_rtx, u16 (length + 2)).

Definition PrepareAndSendPacket (s : RTPSender) (buffer : list Z)
    (length : Z) (capture_time_ms : Z) (send_over_rtx is_retransmit : bool)
    : RTPSender * bool :=
  let rtp_header := RtpUtility.ParseOrDefault buffer length in
  let '(s, buffer_to_send, length) :=
    if send_over_rtx
    then BuildRtxPacket s buffer length (replicate (Z.to_nat IP_PACKET_SIZE) 0)
    else (s, buffer, length) in
  let now_ms := clock_ s in
  let diff_ms := now_ms - capture_time_ms in
  let buffer_to_send :=
    UpdateTransmissionTimeOffset s buffer_to_send length rtp_header diff_ms in
  let buffer_to_send :=
    UpdateAbsoluteSendTime s buffer_to_send length rtp_header now_ms in
  let '(s, ret) := SendPacketToNetwork s buffer_to_send length in
  let s := if ret then set_media_has_been_sent_ true s else s in
  (s, ret).

(** ** Padding *)

(** The filling loop of [BuildPaddingPacket]: word [j] of the body is the
    next [rand()], stored in host order (little-endian). *)
Fixpoint BuildPaddingPacket_fill (n : nat) (s : RTPSender)
    (packet : list Z) (pos : Z) : RTPSender * list Z :=
  match n with
  | O => (s, packet)
  | S n' =>
    let '(s, r) := rand s in
    let packet := set_byte packet pos r in
    let packet := set_byte packet (pos + 1) (Z.shiftr r 8) in
    let packet := set_byte packet (pos + 2) (Z.shiftr r 16) in
    let packet := set_byte packet (pos + 3) (Z.shiftr r 24) in
    BuildPaddingPacket_fill n' s packet (pos + 4)
  end.

Definition BuildPaddingPacket (s : RTPSender) (packet : list Z)
    (header_length bytes : Z) : RTPSender * list Z * Z :=
  let padding_bytes_in_packet :=
    if bytes <? kMaxPaddingLength then bytes else kMaxPaddingLength in
  let packet := set_byte packet 0 (Z.lor (byte_at packet 0) 32) in
  let '(s, packet) :=
    BuildPaddingPacket_fill (Z.to_nat (Z.shiftr padding_bytes_in_packet 2))
      s packet header_length in
  let packet :=
    set_byte packet (header_length + padding_bytes_in_packet - 1)
      padding_bytes_in_packet in
  (s, packet, padding_bytes_in_packet).

(** The locked block at the head of each round of [SendPadData]: [None]
    is the early [return bytes_sent], otherwise the state with the chosen
    sequence number advanced and [(ssrc, sequence_number, over_rtx)]. *)
Definition SendPadData_select (s : RTPSender)
    : option (RTPSender * Z * Z * bool) :=
  if rtx_ s =? kRtxOff then
    (* Without RTX we can't send padding in the middle of frames. *)
    if negb (last_packet_marker_bit_ s) then None
    else Some (set_sequence_number_ (u16 (sequence_number_ s + 1)) s,
               ssrc_ s, sequence_number_ s, false)
  else
    if negb (media_has_been_sent_ s)
       && negb (RtpHeaderExtensionMap.IsRegistered
                  (rtp_header_extension_map_ s) kRtpExtensionAbsoluteSendTime)
    then None
    else Some (set_sequence_number_rtx_ (u16 (sequence_number_rtx_ s + 1)) s,
               ssrc_rtx_ s, sequence_number_rtx_ s, true).

(** The [for (; bytes > 0; bytes -= padding_bytes_in_packet)] loop; [None]
    when [fuel] rounds were not enough. *)
Fixpoint SendPadData_loop (fuel : nat) (s : RTPSender)
    (payload_type timestamp capture_time_ms bytes bytes_sent : Z)
    : option (RTPSender * Z) :=
  if bytes <=? 0 then Some (s, bytes_sent)
  else
    match fuel with
    | O => None
    | S fuel' =>
      (* Always send full padding packets. *)
      let bytes :=
        if bytes <? kMaxPaddingLength then kMaxPaddingLength else bytes in
      match SendPadData_select s with
      | None => Some (s, bytes_sent)
      | Some (s, ssrc, sequence_number, over_rtx) =>
        let padding_packet := replicate (Z.to_nat IP_PACKET_SIZE) 0 in
        let '(padding_packet, header_length) :=
          CreateRTPHeader s padding_packet (i8 payload_type) ssrc false
            timestamp sequence_number [] 0 in
        let '(s, padding_packet, padding_bytes_in_packet) :=
          BuildPaddingPacket s padding_packet header_length bytes in
        let length := padding_bytes_in_packet + header_length in
        let now_ms := clock_ s in
        let rtp_header := RtpUtility.ParseOrDefault padding_packet length in
        let padding_packet :=
          if 0 <? capture_time_ms
          then UpdateTransmissionTimeOffset s padding_packet (u16 length)
                 rtp_header (now_ms - capture_time_ms)
          else padding_packet in
        let padding_packet :=
          UpdateAbsoluteSendTime s padding_packet (u16 length) rtp_header
            now_ms in
        let '(s, ok) := SendPacketToNetwork s padding_packet (u32 length) in
        if negb ok then Some (s, bytes_sent)
        else
          SendPadData_loop fuel' s payload_type timestamp capture_time_ms
            (bytes - padding_bytes_in_packet)
            (bytes_sent + padding_bytes_in_packet)
      end
    end.

(** Every round takes [kMaxPaddingLength] bytes off a budget of at least
    that much, so [bytes] rounds are always enough. *)
Definition SendPadData (s : RTPSender)
    (payload_type timestamp capture_time_ms bytes : Z)
    : option (RTPSender * Z) :=
  (* Drop this packet if we're not sending media packets. *)
  if negb (sending_media_ s) then Some (s, bytes)
  else
    SendPadData_loop (Z.to_nat bytes) s payload_type timestamp
      capture_time_ms bytes 0.

(** The [while (bytes_left > 0)] loop of [SendRedundantPayloads]; it need
    not terminate (a stored packet without payload makes no progress), so
    it runs on [fuel] and yields [None] when the fuel is used up. *)
Fixpoint SendRedundantPayloads_loop (fuel : nat) (s : RTPSender)
    (bytes_to_send bytes_left : Z) : option (RTPSender * Z) :=
  if bytes_left <=? 0 then Some (s, bytes_to_send - bytes_left)
  else
    match fuel with
    | O => None
    | S fuel' =>
      let length := u16 bytes_left in
      match GetBestFittingPacket (packet_history_ s) length with
      | None => Some (s, bytes_to_send - bytes_left)
      | Some (buffer, length, capture_time_ms) =>
        let '(s, ok) :=
          PrepareAndSendPacket s buffer length capture_time_ms true false in
        if negb ok then Some (s, -1)
        else
          let rtp_header := RtpUtility.ParseOrDefault buffer length in
          SendRedundantPayloads_loop fuel' s bytes_to_send
            (bytes_left - (length - RtpUtility.headerLength rtp_header))
      end
    end.

Definition SendRedundantPayloads (fuel : nat) (s : RTPSender)
    (payload_type bytes_to_send : Z) : option (RTPSender * Z) :=
  SendRedundantPayloads_loop fuel s bytes_to_send bytes_to_send.

Definition TimeToSendPadding (fuel : nat) (s : RTPSender) (bytes : Z)
    : option (RTPSender * Z) :=
  if negb (sending_media_ s) then Some (s, 0)
  else
    let payload_type :=
      if 0 <? Z.land (rtx_ s) kRtxRedundantPayloads
      then payload_type_rtx_ s else payload_type_ s in
    let timestamp := timestamp_ s in
    let capture_time_ms := capture_time_ms_ s in
    let '(timestamp, capture_time_ms) :=
      if 0 <? last_timestamp_time_ms_ s
      then (u32 (timestamp + (clock_ s - last_timestamp_time_ms_ s) * 90),
            capture_time_ms + (clock_ s - last_timestamp_time_ms_ s))
      else (timestamp, capture_time_ms) in
    let rtx := rtx_ s in
    match
      (if negb (Z.land rtx kRtxRedundantPayloads =? 0)
       then SendRedundantPayloads fuel s payload_type bytes
       else Some (s, 0))
    with
    | None => None
    | Some (s, bytes_sent) =>
      let bytes := bytes - bytes_sent in
      if 0 <? bytes then
        match SendPadData s payload_type timestamp capture_time_ms bytes with
        | None => None
        | Some (s, padding_sent) => Some (s, bytes_sent + padding_sent)
        end
      else Some (s, bytes_sent)
    end.

(** ** Retransmission *)

Definition ReSendPacket (s : RTPSender) (packet_id min_resend_time : Z)
    : RTPSender * Z :=
  match GetPacketAndSetSendTime (clock_ s) (packet_history_ s) packet_id
          min_resend_time true with
  | (h, None) => (set_packet_history_ h s, 0)          (* Packet not found. *)
  | (h, Some (data_buffer, length, capture_time_ms)) =>
    let s := set_packet_history_ h s in
    let send (s : RTPSender) : RTPSender * Z :=
      let rtx := rtx_ s in
      let '(s, ok) :=
        PrepareAndSendPacket s data_buffer length capture_time_ms
          (0 <? Z.land rtx kRtxRetransmitted) true in
      (s, if ok then length else -1) in
    match paced_sender_ (collab s) with
    | Some pacer =>
      match RtpUtility.Parse data_buffer length with
      | None => (s, -1)
      | Some header =>
        let clock_delta_ms := clock_ s - tick_ s in
        let '(s, accepted) :=
          paced_sender_SendPacket pacer s
            {| pc_priority := kHighPriority;
               pc_ssrc := RtpUtility.ssrc header;
               pc_sequence_number := RtpUtility.sequenceNumber header;
               pc_capture_time_ms := capture_time_ms + clock_delta_ms;
               pc_bytes := length - RtpUtility.headerLength header;
               pc_retransmission := true |} in
        if negb accepted
        then (s, length)    (* We will be called when it is time. *)
        else send s
      end
    | None => send s
    end
  end.

(** The loop of [OnReceivedNACK] over the sequence numbers, written over
    the resend operation it calls, so that the calls can be observed. *)
Fixpoint OnReceivedNACK_loop {S : Type} (resend : S -> Z -> Z -> S * Z)
    (s : S) (nack_sequence_numbers : list Z)
    (avg_rtt target_bitrate bytes_re_sent : Z) : S * Z :=
  match nack_sequence_numbers with
  | [] => (s, bytes_re_sent)
  | it :: rest =>
    let '(s, bytes_sent) := resend s it (u32 (5 + avg_rtt)) in
    if 0 <? bytes_sent then
      let bytes_re_sent := u32 (bytes_re_sent + bytes_sent) in
      (* Delay bandwidth estimate (RTT * BW). *)
      if negb (target_bitrate =? 0) && negb (avg_rtt =? 0) then
        (* kbits/s * ms = bits => bits/8 = bytes *)
        let target_bytes :=
          Z.shiftr (u32 (u32 (target_bitrate / 1000) * avg_rtt)) 3 in
        if target_bytes <? bytes_re_sent
        then (s, bytes_re_sent)  (* Ignore the rest of the packets. *)
        else OnReceivedNACK_loop resend s rest avg_rtt target_bitrate
               bytes_re_sent
      else OnReceivedNACK_loop resend s rest avg_rtt target_bitrate
             bytes_re_sent
    else if bytes_sent =? 0 then
      (* Try resending next packet in the list. *)
      OnReceivedNACK_loop resend s rest avg_rtt target_bitrate bytes_re_sent
    else
      (* Failed to send one Sequence number. Give up the rest. *)
      (s, bytes_re_sent)
  end.

(** The scan of [ProcessNACKBitRate]: [k] slots are still to be looked at
    from index [num] on. *)
Fixpoint ProcessNACKBitRate_loop (k : nat) (now : Z) (times counts : list Z)
    (num : nat) (byte_count : Z) : nat * Z :=
  match k with
  | O => (num, byte_count)
  | S k' =>
    if 1000 <? u32 (now - default 0 (times !! num))
    then (num, byte_count)             (* Don't use data older than 1sec. *)
    else ProcessNACKBitRate_loop k' now times counts (S num)
           (i32 (byte_count + default 0 (counts !! num)))
  end.

Definition ProcessNACKBitRate (s : RTPSender) (now : Z) : bool :=
  let kAvgIntervalMs := 1000 in
  let target_bitrate := GetTargetBitrate s in
  if target_bitrate =? 0 then true
  else
    let '(num, byte_count) :=
      ProcessNACKBitRate_loop NACK_BYTECOUNT_SIZE now
        (nack_byte_count_times_ s) (nack_byte_count_ s) 0%nat 0 in
    let time_interval :=
      if bool_decide (num = NACK_BYTECOUNT_SIZE) then
        if default 0 (nack_byte_count_times_ s !! (num - 1)%nat) <=? now
        then u32 (now - default 0 (nack_byte_count_times_ s !! (num - 1)%nat))
        else kAvgIntervalMs
      else kAvgIntervalMs in
    i32 (byte_count * 8) <? i32 (u32 (u32 (target_bitrate / 1000) * time_interval)).

(** The shift [for (i = k - 1; i >= 0; i--) a[i + 1] = a[i]]. *)
Fixpoint UpdateNACKBitRate_shift (k : nat) (a : list Z) : list Z :=
  match k with
  | O => a
  | S i => UpdateNACKBitRate_shift i (<[S i := default 0 (a !! i)]> a)
  end.

Definition UpdateNACKBitRate (s : RTPSender) (bytes now : Z) : RTPSender :=
  if 0 <? bytes then
    if now =? 0 then
      (* Add padding length. *)
      set_nack_byte_count_
        (<[0%nat := u32 (default 0 (nack_byte_count_ s !! 0%nat) + bytes)]>
           (nack_byte_count_ s)) s
    else
      let s :=
        if default 0 (nack_byte_count_times_ s !! 0%nat) =? 0 then s
        else
          set_nack_byte_count_times_
            (UpdateNACKBitRate_shift (NACK_BYTECOUNT_SIZE - 1)
               (nack_byte_count_times_ s))
            (set_nack_byte_count_
               (UpdateNACKBitRate_shift (NACK_BYTECOUNT_SIZE - 1)
                  (nack_byte_count_ s)) s) in
      set_nack_byte_count_times_ (<[0%nat := now]> (nack_byte_count_times_ s))
        (set_nack_byte_count_ (<[0%nat := bytes]> (nack_byte_count_ s)) s)
  else s.

Definition OnReceivedNACK (s : RTPSender) (nack_sequence_numbers : list Z)
    (avg_rtt : Z) : RTPSender :=
  let now := clock_ s in
  let target_bitrate := GetTargetBitrate s in
  (* Enough bandwidth to send NACK? *)
  if negb (ProcessNACKBitRate s (u32 now)) then s
  else
    let '(s, bytes_re_sent) :=
      OnReceivedNACK_loop ReSendPacket s nack_sequence_numbers avg_rtt
        target_bitrate 0 in
    if 0 <? bytes_re_sent then UpdateNACKBitRate s bytes_re_sent (u32 now)
    else s.

(** ** Pacer callback and the packetizers' emit primitive *)

Definition TimeToSendPacket (s : RTPSender)
    (sequence_number capture_time_ms : Z) (retransmission : bool)
    : RTPSender * bool :=
  match GetPacketAndSetSendTime (clock_ s) (packet_history_ s)
          sequence_number 0 retransmission with
  | (h, None) =>
    (* Packet cannot be found. Allow sending to continue. *)
    (set_packet_history_ h s, true)
  | (h, Some (data_buffer, length, stored_time_ms)) =>
    let s := set_packet_history_ h s in
    let rtx := rtx_ s in
    PrepareAndSendPacket s data_buffer length capture_time_ms
      (retransmission && (0 <? Z.land rtx kRtxRetransmitted)) retransmission
  end.

(** [SendToNetwork]: the state, the caller's buffer after the in-place
    updates, and the return value. *)
Definition SendToNetwork (s : RTPSender) (buffer : list Z)
    (payload_length rtp_header_length capture_time_ms : Z)
    (storage : StorageType) (priority : Priority)
    : RTPSender * list Z * Z :=
  let rtp_header :=
    RtpUtility.ParseOrDefault buffer (payload_length + rtp_header_length) in
  let now_ms := clock_ s in
  (* |capture_time_ms| <= 0 is considered invalid. *)
  let buffer :=
    if 0 <? capture_time_ms
    then UpdateTransmissionTimeOffset s buffer
           (u16 (payload_length + rtp_header_length)) rtp_header
           (now_ms - capture_time_ms)
    else buffer in
  let buffer :=
    UpdateAbsoluteSendTime s buffer
      (u16 (payload_length + rtp_header_length)) rtp_header now_ms in
  (* Used for NACK and to spread out the transmission of packets. *)
  let '(h, put) :=
    PutRTPPacket (clock_ s) (packet_history_ s) buffer
      (u16 (rtp_header_length + payload_length)) (max_payload_length_ s)
      capture_time_ms storage in
  let s := set_packet_history_ h s in
  if negb (put =? 0) then (s, buffer, -1)
  else
    let transmit (s : RTPSender) : RTPSender * list Z * Z :=
      let length := u32 (payload_length + rtp_header_length) in
      let '(s, ok) := SendPacketToNetwork s buffer length in
      if negb ok then (s, buffer, -1)
      else (set_media_has_been_sent_ true s, buffer, 0) in
    match paced_sender_ (collab s), storage with
    | Some _, kDontStore => transmit s
    | Some pacer, _ =>
      let clock_delta_ms := clock_ s - tick_ s in
      let '(s, accepted) :=
        paced_sender_SendPacket pacer s
          {| pc_priority := priority;
             pc_ssrc := RtpUtility.ssrc rtp_header;
             pc_sequence_number := RtpUtility.sequenceNumber rtp_header;
             pc_capture_time_ms := capture_time_ms + clock_delta_ms;
             pc_bytes := payload_length;
             pc_retransmission := false |} in
      if negb accepted
      then (s, buffer, 0)   (* We will be called when it is time. *)
      else transmit s
    | None, _ => transmit s
    end.

(** ** Protocol state *)

Definition SetStorePacketsStatus (s : RTPSender) (enable : bool)
    (number_to_store : Z) : RTPSender :=
  set_packet_history_
    (StorePacketsStatus (packet_history_ s) enable number_to_store) s.

Definition SetSendingMediaStatus (s : RTPSender) (enabled : bool) : RTPSender :=
  set_sending_media_ enabled s.

Definition SendingMedia (s : RTPSender) : bool := sending_media_ s.

Definition SetStartTimestamp (s : RTPSender) (timestamp : Z) (force : bool)
    : RTPSender :=
  if force
  then set_start_timestamp_ timestamp (set_start_timestamp_forced_ true s)
  else if negb (start_timestamp_forced_ s)
       then set_start_timestamp_ timestamp s
       else s.

(** [SetSendingStatus(enabled)]; [RTPtime] is the value of
    [RtpUtility::GetCurrentRTP(clock_, frequency_hz)], computed outside
    this file. *)
Definition SetSendingStatus (s : RTPSender) (enabled : bool) (RTPtime : Z)
    : RTPSender :=
  if enabled then
    (* Will be ignored if it's already configured via API. *)
    SetStartTimestamp s RTPtime false
  else
    let s :=
      if negb (ssrc_forced_ s) then
        (* Generate a new SSRC. *)
        let s :=
          set_ssrc_db_ (SSRCDatabase.ReturnSSRC (ssrc_db_ s) (ssrc_ s)) s in
        let '(s, ssrc) := ssrc_db_CreateSSRC s in
        set_ssrc_ ssrc s
      else s in
    (* Don't initialize seq number if SSRC passed externally. *)
    if negb (sequence_number_forced_ s) && negb (ssrc_forced_ s) then
      (* Generate a new sequence number. *)
      let '(s, r) := rand s in
      set_sequence_number_
        (u16 (Z.quot r (Z.quot RAND_MAX MAX_INIT_RTP_SEQ_NUMBER))) s
    else s.

Definition GenerateNewSSRC (s : RTPSender) : RTPSender * Z :=
  (* If configured via API, return 0. *)
  if ssrc_forced_ s then (s, 0)
  else
    let '(s, ssrc) := ssrc_db_CreateSSRC s in
    (set_ssrc_ ssrc s, ssrc).

Definition SetSSRC (s : RTPSender) (ssrc : Z) : RTPSender :=
  (* This is configured via the API. *)
  if (ssrc_ s =? ssrc) && ssrc_forced_ s then
    s  (* Since it's same ssrc, don't reset anything. *)
  else
    let s := set_ssrc_forced_ true s in
    let s := set_ssrc_db_ (SSRCDatabase.ReturnSSRC (ssrc_db_ s) (ssrc_ s)) s in
    let s := set_ssrc_db_ (SSRCDatabase.RegisterSSRC (ssrc_db_ s) ssrc) s in
    let s := set_ssrc_ ssrc s in
    if negb (sequence_number_forced_ s) then
      let '(s, r) := rand s in
      set_sequence_number_
        (u16 (Z.quot r (Z.quot RAND_MAX MAX_INIT_RTP_SEQ_NUMBER))) s
    else s.

Definition SSRC (s : RTPSender) : Z := ssrc_ s.

Definition SetCSRCStatus (s : RTPSender) (include : bool) : RTPSender :=
  set_include_csrcs_ include s.

(** [SetCSRCs(arr_of_csrc, arr_length)], for [arr_length <= kRtpCsrcSize]:
    the first [arr_length] slots of [csrcs_] are overwritten. *)
Definition SetCSRCs (s : RTPSender) (arr_of_csrc : list Z) (arr_length : Z)
    : RTPSender :=
  set_num_csrcs_ arr_length
    (set_csrcs_
       (take (Z.to_nat arr_length) arr_of_csrc
        ++ drop (Z.to_nat arr_length) (csrcs_ s)) s).

Definition SetSequenceNumber (s : RTPSender) (seq : Z) : RTPSender :=
  set_sequence_number_ seq (set_sequence_number_forced_ true s).

Definition SequenceNumber (s : RTPSender) : Z := sequence_number_ s.

Record RtpState := {
  rs_sequence_number : Z;
  rs_start_timestamp : Z;
  rs_timestamp : Z;
  rs_capture_time_ms : Z;
  rs_last_timestamp_time_ms : Z;
  rs_media_has_been_sent : bool
}.

Definition SetRtpState (s : RTPSender) (rtp_state : RtpState) : RTPSender :=
  let s := SetStartTimestamp s (rs_start_timestamp rtp_state) true in
  let s := set_sequence_number_ (rs_sequence_number rtp_state) s in
  let s := set_sequence_number_forced_ true s in
  let s := set_timestamp_ (rs_timestamp rtp_state) s in
  let s := set_capture_time_ms_ (rs_capture_time_ms rtp_state) s in
  let s :=
    set_last_timestamp_time_ms_ (rs_last_timestamp_time_ms rtp_state) s in
  set_media_has_been_sent_ (rs_media_has_been_sent rtp_state) s.

Definition GetRtpState (s : RTPSender) : RtpState :=
  {| rs_sequence_number := sequence_number_ s;
     rs_start_timestamp := start_timestamp_ s;
     rs_timestamp := timestamp_ s;
     rs_capture_time_ms := capture_time_ms_ s;
     rs_last_timestamp_time_ms := last_timestamp_time_ms_ s;
     rs_media_has_been_sent := media_has_been_sent_ s |}.

Definition SetRtxRtpState (s : RTPSender) (rtp_state : RtpState) : RTPSender :=
  set_sequence_number_rtx_ (rs_sequence_number rtp_state) s.

(** ** Construction *)

(** The constructor: [audio] selects the packetizer, [h] is the empty
    packet history, the two SSRCs come from the allocator and the two
    sequence numbers from [rand()]. *)
Definition new_RTPSender (c : Collaborators) (audio : bool)
    (clock tick : Z) (db : gset Z) (h : H) : RTPSender :=
  let s :=
    {| collab := c; audio_configured_ := audio; clock_ := clock;
       tick_ := tick; transport_log := []; pacer_log := [];
       rand_calls := 0%nat; audio_red_ := None;
       video_codec_type_ := kRtpVideoGeneric; video_max_bitrate_ := 0;
       sending_media_ := true; max_payload_length_ := IP_PACKET_SIZE - 28;
       packet_over_head_ := 28; payload_type_ := -1;
       payload_type_map_ := ∅; rtp_header_extension_map_ := [];
       transmission_time_offset_ := 0; absolute_send_time_ := 0;
       nack_byte_count_times_ := replicate NACK_BYTECOUNT_SIZE 0;
       nack_byte_count_ := replicate NACK_BYTECOUNT_SIZE 0;
       packet_history_ := h; start_timestamp_forced_ := false;
       start_timestamp_ := 0; ssrc_db_ := db;
       sequence_number_forced_ := false; ssrc_forced_ := false;
       ssrc_ := 0; ssrc_rtx_ := 0; sequence_number_ := 0;
       sequence_number_rtx_ := 0; timestamp_ := 0; capture_time_ms_ := 0;
       last_timestamp_time_ms_ := 0; media_has_been_sent_ := false;
       last_packet_marker_bit_ := false; num_csrcs_ := 0;
       csrcs_ := replicate (Z.to_nat kRtpCsrcSize) 0;
       include_csrcs_ := true; rtx_ := kRtxOff; payload_type_rtx_ := -1;
       target_bitrate_ := 0 |} in
  let '(s, ssrc) := ssrc_db_CreateSSRC s in
  let s := set_ssrc_ ssrc s in
  let '(s, ssrc_rtx) := ssrc_db_CreateSSRC s in
  let s := set_ssrc_rtx_ ssrc_rtx s in
  (* Random start, 16 bits. Can't be 0. *)
  let '(s, r) := rand s in
  let s := set_sequence_number_rtx_ (Z.land (u16 (r + 1)) 32767) s in
  let '(s, r) := rand s in
  set_sequence_number_ (Z.land (u16 (r + 1)) 32767) s.

(** ** The sender as a state machine

    One constructor per state-changing entry point; the arguments are the
    call's arguments. [OpClock] is the passing of time as the two clocks
    report it. *)
Inductive Op :=
| OpClock (clock tick : Z)
| OpSetTargetBitrate (bitrate : Z)
| OpSetTransmissionTimeOffset (transmission_time_offset : Z)
| OpSetAbsoluteSendTime (absolute_send_time : Z)
| OpRegisterRtpHeaderExtension (type : RTPExtensionType) (id : Z)
| OpDeregisterRtpHeaderExtension (type : RTPExtensionType)
| OpRegisterPayload (payload_name : string)
    (payload_number frequency channels rate : Z)
| OpDeRegisterSendPayload (payload_type : Z)
| OpSetMaxPayloadLength (max_payload_length packet_over_head : Z)
| OpSetRTXStatus (mode : Z)
| OpSetRtxSsrc (ssrc : Z)
| OpSetRtxPayloadType (payload_type : Z)
| OpCheckPayloadType (payload_type : Z)
| OpTimeToSendPadding (fuel : nat) (bytes : Z)
| OpSetStorePacketsStatus (enable : bool) (number_to_store : Z)
| OpReSendPacket (packet_id min_resend_time : Z)
| OpOnReceivedNACK (nack_sequence_numbers : list Z) (avg_rtt : Z)
| OpTimeToSendPacket (sequence_number capture_time_ms : Z)
    (retransmission : bool)
| OpSendToNetwork (buffer : list Z)
    (payload_length rtp_header_length capture_time_ms : Z)
    (storage : StorageType) (priority : Priority)
| OpIncrementSequenceNumber
| OpBuildRTPheader (data_buffer : list Z) (payload_type : Z)
    (marker_bit : bool) (capture_timestamp capture_time_ms : Z)
    (timestamp_provided inc_sequence_number : bool)
| OpSetSendingStatus (enabled : bool) (RTPtime : Z)
| OpSetSendingMediaStatus (enabled : bool)
| OpSetStartTimestamp (timestamp : Z) (force : bool)
| OpGenerateNewSSRC
| OpSetSSRC (ssrc : Z)
| OpSetCSRCStatus (include : bool)
| OpSetCSRCs (arr_of_csrc : list Z) (arr_length : Z)
| OpSetSequenceNumber (seq : Z)
| OpSetRtpState (rtp_state : RtpState)
| OpSetRtxRtpState (rtp_state : RtpState).

(** The state after the call; [None] when a loop ran out of fuel. *)
Definition step (op : Op) (s : RTPSender) : option RTPSender :=
  match op with
  | OpClock clock tick => Some (set_tick_ tick (set_clock_ clock s))
  | OpSetTargetBitrate bitrate => Some (SetTargetBitrate s bitrate)
  | OpSetTransmissionTimeOffset v => Some (SetTransmissionTimeOffset s v).1
  | OpSetAbsoluteSendTime v => Some (SetAbsoluteSendTime s v).1
  | OpRegisterRtpHeaderExtension type id =>
    Some (RegisterRtpHeaderExtension s type id).1
  | OpDeregisterRtpHeaderExtension type =>
    Some (DeregisterRtpHeaderExtension s type).1
  | OpRegisterPayload payload_name payload_number frequency channels rate =>
    Some (RegisterPayload s payload_name payload_number frequency channels
            rate).1
  | OpDeRegisterSendPayload payload_type =>
    Some (DeRegisterSendPayload s payload_type).1
  | OpSetMaxPayloadLength l o => Some (SetMaxPayloadLength s l o).1
  | OpSetRTXStatus mode => Some (SetRTXStatus s mode)
  | OpSetRtxSsrc ssrc => Some (SetRtxSsrc s ssrc)
  | OpSetRtxPayloadType payload_type => Some (SetRtxPayloadType s payload_type)
  | OpCheckPayloadType payload_type =>
    Some (CheckPayloadType s payload_type).1.1
  | OpTimeToSendPadding fuel bytes => fst <$> TimeToSendPadding fuel s bytes
  | OpSetStorePacketsStatus enable number_to_store =>
    Some (SetStorePacketsStatus s enable number_to_store)
  | OpReSendPacket packet_id min_resend_time =>
    Some (ReSendPacket s packet_id min_resend_time).1
  | OpOnReceivedNACK nack_sequence_numbers avg_rtt =>
    Some (OnReceivedNACK s nack_sequence_numbers avg_rtt)
  | OpTimeToSendPacket sequence_number capture_time_ms retransmission =>
    Some (TimeToSendPacket s sequence_number capture_time_ms retransmission).1
  | OpSendToNetwork buffer payload_length rtp_header_length capture_time_ms
      storage priority =>
    Some (SendToNetwork s buffer payload_length rtp_header_length
            capture_time_ms storage priority).1.1
  | OpIncrementSequenceNumber => Some (IncrementSequenceNumber s).1
  | OpBuildRTPheader data_buffer payload_type marker_bit capture_timestamp
      capture_time_ms timestamp_provided inc_sequence_number =>
    Some (BuildRTPheader s data_buffer payload_type marker_bit
            capture_timestamp capture_time_ms timestamp_provided
            inc_sequence_number).1.1
  | OpSetSendingStatus enabled RTPtime =>
    Some (SetSendingStatus s enabled RTPtime)
  | OpSetSendingMediaStatus enabled => Some (SetSendingMediaStatus s enabled)
  | OpSetStartTimestamp timestamp force =>
    Some (SetStartTimestamp s timestamp force)
  | OpGenerateNewSSRC => Some (GenerateNewSSRC s).1
  | OpSetSSRC ssrc => Some (SetSSRC s ssrc)
  | OpSetCSRCStatus include => Some (SetCSRCStatus s include)
  | OpSetCSRCs arr_of_csrc arr_length => Some (SetCSRCs s arr_of_csrc arr_length)
  | OpSetSequenceNumber seq => Some (SetSequenceNumber s seq)
  | OpSetRtpState rtp_state => Some (SetRtpState s rtp_state)
  | OpSetRtxRtpState rtp_state => Some (SetRtxRtpState s rtp_state)
  end.

Fixpoint run (ops : list Op) (s : RTPSender) : option RTPSender :=
  match ops with
  | [] => Some s
  | op :: rest =>
    match step op s with
    | None => None
    | Some s' => run rest s'
    end
  end.

Definition is_SetRtpState (op : Op) : bool :=
  match op with OpSetRtpState _ => true | _ => false end.

(** ** The specification's wording of three behaviours

    Stated here as predicates on the model, to be compared with what the
    methods above do. *)

(** "Rates match if equal OR either side is zero (in which case the
    existing rate is updated to the nonzero value)." *)
Definition nonzero_rate (stored new : Z) : Z :=
  if stored =? 0 then new else stored.

Definition RegisterPayload_keeps_nonzero_rate (s : RTPSender)
    (payload_name : string) (payload_number frequency channels rate : Z)
    : Prop :=
  forall payload,
    payload_type_map_ s !! payload_number = Some payload ->
    audio payload = true ->
    RtpUtility.StringCompare (name payload) payload_name
      (RTP_PAYLOAD_NAME_SIZE - 1) = true ->
    Audio_frequency payload = frequency ->
    Audio_rate payload = 0 \/ rate = 0 ->
    let '(s', ret) :=
      RegisterPayload s payload_name payload_number frequency channels rate in
    ret = 0
    /\ Audio_rate <$> (payload_type_map_ s' !! payload_number)
       = Some (nonzero_rate (Audio_rate payload) rate).

(** "[setSSRC(ssrc)] releases the previous media SSRC to the allocator,
    registers the new one, latches [ssrc_forced]. If the sequence number
    is not itself externally forced, regenerates it with
    [rand() / (RAND_MAX / MAX_INIT_SEQ)]", read as holding for every
    call; [rand()] is the generator's next value. *)
Definition SetSSRC_resets_on_every_call (s : RTPSender) (ssrc : Z) : Prop :=
  let s' := SetSSRC s ssrc in
  ssrc_db_ s'
  = SSRCDatabase.RegisterSSRC
      (SSRCDatabase.ReturnSSRC (ssrc_db_ s) (ssrc_ s)) ssrc
  /\ ssrc_ s' = ssrc
  /\ ssrc_forced_ s' = true
  /\ (sequence_number_forced_ s = false ->
      sequence_number_ s'
      = Z.quot (rand_ (collab s) (rand_calls s))
               (Z.quot RAND_MAX MAX_INIT_RTP_SEQ_NUMBER)).

(** "[media_has_been_sent] monotonically transitions false -> true",
    over every sequence of operations. *)
Definition media_has_been_sent_never_cleared : Prop :=
  forall (ops : list Op) (s s' : RTPSender),
    run ops s = Some s' ->
    media_has_been_sent_ s = true -> media_has_been_sent_ s' = true.

(** ** Observing the transport

    [sent_after s s']: going from [s] to [s'] the transport log only grew,
    [media_has_been_sent_] was not cleared, and if it became set then one
    of the new transport calls reported a positive number of bytes. *)
Definition sent_after (s s' : RTPSender) : Prop :=
  (media_has_been_sent_ s = true -> media_has_been_sent_ s' = true)
  /\ exists l,
       transport_log s' = transport_log s ++ l
       /\ (media_has_been_sent_ s = false ->
           media_has_been_sent_ s' = true ->
           exists packet n, (packet, n) ∈ l /\ 0 < n).

(** ** The NACK bandwidth gate as the specification words it

    "Compute sum of NACK bytes whose timestamps are within the past 1000
    ms; permit more NACK transmission iff [(bytes * 8) <
    target_bitrate_kbps * interval_ms]. If target_bitrate is zero, gate is
    open. If the last 1000 ms has been fully filled (N slots), use [now -
    oldest_slot_ms] as the interval." *)
Definition in_nack_window (now t : Z) : bool :=
  (now - 1000 <=? t) && (t <=? now).

Fixpoint nack_bytes_in_window (now : Z) (times counts : list Z) : Z :=
  match times, counts with
  | t :: times', c :: counts' =>
    (if in_nack_window now t then c else 0)
    + nack_bytes_in_window now times' counts'
  | _, _ => 0
  end.

Definition nack_interval (now : Z) (times : list Z) : Z :=
  if forallb (in_nack_window now) times
  then now - default 0 (last times)
  else 1000.

Definition nack_gate_open (target_bitrate now : Z) (times counts : list Z)
    : bool :=
  (target_bitrate =? 0)
  || (nack_bytes_in_window now times counts * 8
      <? target_bitrate / 1000 * nack_interval now times).

(** The ring as [UpdateNACKBitRate] keeps it under a clock that does not
    run backwards: [NACK_BYTECOUNT_SIZE] slots, newest first, no
    timestamp after [now]. *)
Definition nack_ring_ordered (now : Z) (times counts : list Z) : Prop :=
  length times = NACK_BYTECOUNT_SIZE
  /\ length counts = NACK_BYTECOUNT_SIZE
  /\ (forall i j ti tj,
        times !! i = Some ti -> times !! j = Some tj -> (i <= j)%nat ->
        tj <= ti)
  /\ Forall (fun t => 0 <= t <= now) times
  /\ Forall (fun c => 0 <= c) counts.

(** ** Accessors and derived sizes *)

(** [MaxDataPayloadLength()]; [FECPacketOverhead] is the value of
    [video_->FECPacketOverhead()]. *)
Definition MaxDataPayloadLength (s : RTPSender) (FECPacketOverhead : Z) : Z :=
  let rtx := rtx_ s in
  if audio_configured_ s then
    u16 (max_payload_length_ s - RTPHeaderLength s)
  else
    u16 (max_payload_length_ s - RTPHeaderLength s  (* RTP overhead. *)
         - FECPacketOverhead                        (* FEC/ULP/RED overhead. *)
         - (if negb (rtx =? 0) then 2 else 0)).     (* RTX overhead. *)

Definition MaxPayloadLength (s : RTPSender) : Z := max_payload_length_ s.

Definition PacketOverHead (s : RTPSender) : Z := packet_over_head_ s.

Definition RtxSsrc (s : RTPSender) : Z := ssrc_rtx_ s.

(** [RTXStatus(&mode, &ssrc, &payload_type)]. *)
Definition RTXStatus (s : RTPSender) : Z * Z * Z :=
  (rtx_ s, ssrc_rtx_ s, payload_type_rtx_ s).

Definition Timestamp (s : RTPSender) : Z := timestamp_ s.

Definition StartTimestamp (s : RTPSender) : Z := start_timestamp_ s.

(** [CSRCs(arr_of_csrc)]: the caller's array with the first
    [min(num_csrcs_, kRtpCsrcSize)] slots overwritten, and the count. *)
Definition CSRCs (s : RTPSender) (arr_of_csrc : list Z) : list Z * Z :=
  let n := Z.to_nat (Z.min (num_csrcs_ s) kRtpCsrcSize) in
  (take n (csrcs_ s) ++ drop n arr_of_csrc, num_csrcs_ s).

(** ** Configuration

    The members that only the configuration calls assign. *)
Definition Configuration (s : RTPSender) :=
  (collab s, audio_configured_ s, audio_red_ s, video_codec_type_ s,
   video_max_bitrate_ s, sending_media_ s, max_payload_length_ s,
   packet_over_head_ s, payload_type_ s, payload_type_map_ s,
   rtp_header_extension_map_ s, transmission_time_offset_ s,
   absolute_send_time_ s, start_timestamp_forced_ s, start_timestamp_ s,
   ssrc_db_ s, sequence_number_forced_ s, ssrc_forced_ s, ssrc_ s,
   ssrc_rtx_ s, num_csrcs_ s, csrcs_ s, include_csrcs_ s, rtx_ s,
   payload_type_rtx_ s, target_bitrate_ s).

(** The entry points that build or emit packets. *)
Definition is_sending_op (op : Op) : bool :=
  match op with
  | OpTimeToSendPadding _ _ | OpReSendPacket _ _ | OpOnReceivedNACK _ _
  | OpTimeToSendPacket _ _ _ | OpSendToNetwork _ _ _ _ _ _
  | OpIncrementSequenceNumber | OpBuildRTPheader _ _ _ _ _ _ _ => true
  | _ => false
  end.

Definition is_SetSSRC (op : Op) : bool :=
  match op with OpSetSSRC _ => true | _ => false end.

Definition is_SetSequenceNumber (op : Op) : bool :=
  match op with OpSetSequenceNumber _ => true | _ => false end.

(** [SetStartTimestamp(_, true)]. *)
Definition is_forced_SetStartTimestamp (op : Op) : bool :=
  match op with OpSetStartTimestamp _ force => force | _ => false end.

(** The ranges that [SetMaxPayloadLength], [SetTransmissionTimeOffset]
    and [SetAbsoluteSendTime] check before they assign. *)
Definition sanity_checked (s : RTPSender) : Prop :=
  100 <= max_payload_length_ s <= IP_PACKET_SIZE
  /\ -8388607 <= transmission_time_offset_ s <= 8388607
  /\ absolute_send_time_ s <= 16777215.

End Sender.

Arguments RTPSender H : clear implicits.

(** ** A packet history *)

Module RTPPacketHistory.

(** Modelled from the spec: [RTPPacketHistory] is defined outside this
    file. The spec describes a bounded store of recently sent packets
    keyed by sequence number: [put] does nothing under the "don't store"
    policy and otherwise inserts, evicting the oldest entry on overflow;
    [getAndMarkSent] returns the stored packet if it is present, if its
    last send time is zero or at least the minimum interval ago, and if
    retransmission is allowed, and then stamps it with the current time;
    [getBestFitting] returns the stored packet with the largest length not
    above the budget, the most recent one among equals. *)
Record Entry := {
  e_sequence_number : Z;
  e_capture_time_ms : Z;
  e_last_send_time_ms : Z;
  e_length : Z;
  e_bytes : list Z
}.

(** Newest entry first. *)
Record t := {
  capacity : nat;
  entries : list Entry
}.

Definition empty : t := {| capacity := 0; entries := [] |}.

Definition put (now : Z) (h : t) (packet : list Z)
    (packet_length max_packet_length capture_time_ms : Z)
    (type : StorageType) : t * Z :=
  match type with
  | kDontStore => (h, 0)
  | _ =>
    let e := {| e_sequence_number := RtpUtility.BufferToUWord16 packet 2;
                e_capture_time_ms := capture_time_ms;
                e_last_send_time_ms := 0;
                e_length := packet_length;
                e_bytes := take (Z.to_nat packet_length) packet |} in
    ({| capacity := capacity h;
        entries :=
          take (capacity h)
            (e :: filter (fun e' => e_sequence_number e'
                                    <> e_sequence_number e) (entries h)) |},
     0)
  end.

Fixpoint mark_sent (now seq min_resend_interval_ms : Z) (es : list Entry)
    : list Entry * option (list Z * Z * Z) :=
  match es with
  | [] => ([], None)
  | e :: rest =>
    if e_sequence_number e =? seq then
      if (e_last_send_time_ms e =? 0)
         || (min_resend_interval_ms <=? now - e_last_send_time_ms e)
      then ({| e_sequence_number := e_sequence_number e;
               e_capture_time_ms := e_capture_time_ms e;
               e_last_send_time_ms := now;
               e_length := e_length e;
               e_bytes := e_bytes e |} :: rest,
            Some (e_bytes e, e_length e, e_capture_time_ms e))
      else (es, None)
    else
      let '(rest', r) := mark_sent now seq min_resend_interval_ms rest in
      (e :: rest', r)
  end.

Definition getAndMarkSent (now : Z) (h : t)
    (seq min_resend_interval_ms : Z) (allow_retransmit : bool)
    : t * option (list Z * Z * Z) :=
  if allow_retransmit then
    let '(es, r) := mark_sent now seq min_resend_interval_ms (entries h) in
    ({| capacity := capacity h; entries := es |}, r)
  else (h, None).

Fixpoint best_fitting (budget : Z) (es : list Entry) : option Entry :=
  match es with
  | [] => None
  | e :: rest =>
    let r := best_fitting budget rest in
    if e_length e <=? budget then
      match r with
      | Some e' => if e_length e <? e_length e' then Some e' else Some e
      | None => Some e
      end
    else r
  end.

Definition getBestFitting (h : t) (budget_bytes : Z)
    : option (list Z * Z * Z) :=
  match best_fitting budget_bytes (entries h) with
  | Some e => Some (e_bytes e, e_length e, e_capture_time_ms e)
  | None => None
  end.

Definition setCapacity (h : t) (enable : bool) (n : Z) : t :=
  if enable
  then {| capacity := Z.to_nat n; entries := take (Z.to_nat n) (entries h) |}
  else empty.

End RTPPacketHistory.

#[global] Instance RTPPacketHistory_ops : PacketHistoryOps RTPPacketHistory.t := {
  PutRTPPacket := RTPPacketHistory.put;
  GetPacketAndSetSendTime := RTPPacketHistory.getAndMarkSent;
  GetBestFittingPacket := RTPPacketHistory.getBestFitting;
  StorePacketsStatus := RTPPacketHistory.setCapacity
}.

(** ** Sample collaborators and senders, used to run the model *)

(** A transport that takes every packet whole, no pacer, a linear
    congruential [rand()], an allocator that hands out one more than the
    largest identifier in use, and packetizers that accept every payload. *)
Definition sample_collab : Collaborators :=
  {| transport_ := Some (fun _ packet => Z.of_nat (length packet));
     paced_sender_ := None;
     rand_ := fun n => (1103515245 * Z.of_nat n + 12345) mod 2147483648;
     CreateSSRC := fun db => 1 + foldr Z.max 0 (elements db);
     RegisterAudioPayload := fun payload_name _ frequency channels rate =>
       (0, Some {| name := payload_name;
                   typeSpecific := Audio frequency channels rate |});
     RegisterVideoPayload := fun payload_name _ rate =>
       (0, Some {| name := payload_name;
                   typeSpecific := Video kRtpVideoGeneric rate |}) |}.

(** The same with a transport that fails. *)
Definition failing_collab : Collaborators :=
  {| transport_ := Some (fun _ _ => -1);
     paced_sender_ := paced_sender_ sample_collab;
     rand_ := rand_ sample_collab;
     CreateSSRC := CreateSSRC sample_collab;
     RegisterAudioPayload := RegisterAudioPayload sample_collab;
     RegisterVideoPayload := RegisterVideoPayload sample_collab |}.

Definition sample_audio_sender : RTPSender RTPPacketHistory.t :=
  new_RTPSender sample_collab true 1500 1500 ∅ RTPPacketHistory.empty.

Definition sample_video_sender : RTPSender RTPPacketHistory.t :=
  new_RTPSender sample_collab false 1500 1500 ∅ RTPPacketHistory.empty.

(** An audio sender with payload type 0 registered as PCMU at 64000 bit/s. *)
Definition sample_pcmu_sender : RTPSender RTPPacketHistory.t :=
  (RegisterPayload sample_audio_sender "PCMU" 0 8000 1 64000).1.

(** A video sender whose SSRC was set through the API. *)
Definition sample_forced_ssrc_sender : RTPSender RTPPacketHistory.t :=
  SetSSRC sample_video_sender 3735928559.

(** A media packet of 400 payload bytes with the marker bit set, built by
    the video sender, and the sender after the packet went out to the
    transport. *)
Definition sample_built : RTPSender RTPPacketHistory.t * list Z * Z :=
  BuildRTPheader sample_video_sender (replicate (Z.to_nat IP_PACKET_SIZE) 0)
    100 true 0 1000 true true.

Definition sample_sent_sender : RTPSender RTPPacketHistory.t :=
  (SendToNetwork sample_built.1.1 sample_built.1.2 400 12 1000 kDontStore
     kNormalPriority).1.1.

(** A video sender with AbsoluteSendTime registered under ID 2, a packet of
    400 payload bytes it builds, and the packet's parsed header. *)
Definition sample_abs_sender : RTPSender RTPPacketHistory.t :=
  (RegisterRtpHeaderExtension sample_video_sender
     kRtpExtensionAbsoluteSendTime 2).1.

Definition sample_abs_packet : list Z :=
  (BuildRTPheader sample_abs_sender (replicate (Z.to_nat IP_PACKET_SIZE) 0)
     100 true 0 1000 true true).1.2.

Definition sample_abs_header : RtpUtility.RTPHeader :=
  RtpUtility.ParseOrDefault sample_abs_packet 420.

(** A video sender with TransmissionTimeOffset (ID 1) and AbsoluteSendTime
    (ID 2) registered, one CSRC 0x00BEDE00 and a transmission time offset
    of 0x220000, and a packet of 400 payload bytes it builds. *)
Definition sample_csrc_sender : RTPSender RTPPacketHistory.t :=
  let s := (RegisterRtpHeaderExtension sample_video_sender
              kRtpExtensionTransmissionTimeOffset 1).1 in
  let s := (RegisterRtpHeaderExtension s kRtpExtensionAbsoluteSendTime 2).1 in
  let s := SetCSRCs s [12508672] 1 in
  (SetTransmissionTimeOffset s 2228224).1.

Definition sample_csrc_built : RTPSender RTPPacketHistory.t * list Z * Z :=
  BuildRTPheader sample_csrc_sender (replicate (Z.to_nat IP_PACKET_SIZE) 0)
    100 true 0 1000 true true.

Definition sample_csrc_header : RtpUtility.RTPHeader :=
  RtpUtility.ParseOrDefault sample_csrc_built.1.2 428.

(** A packet with one CSRC 0x00BEDE00 and a header extension of another
    profile (0x1022, one word long), followed by four payload bytes. *)
Definition sample_foreign_packet : list Z :=
  [145; 100; 0; 1; 0; 0; 0; 0; 0; 0; 0; 1;
   0; 190; 222; 0;
   16; 34; 0; 1; 170; 187; 204; 221;
   1; 2; 3; 4].

Definition sample_foreign_header : RtpUtility.RTPHeader :=
  RtpUtility.ParseOrDefault sample_foreign_packet 28.

(** The media packet of [sample_built] as it sits in the history, and a
    sender set up for retransmission over RTX. *)
Definition sample_stored_packet : list Z := take 412 sample_built.1.2.

Definition sample_rtx_sender : RTPSender RTPPacketHistory.t :=
  SetRtxPayloadType (SetRtxSsrc (SetRTXStatus sample_built.1.1 kRtxRetransmitted)
                       305419896) 96.

(** A video sender with a target of 100 kbit/s that resent 20000 bytes in
    answer to a NACK at 1400 ms. *)
Definition sample_nack_sender : RTPSender RTPPacketHistory.t :=
  UpdateNACKBitRate (SetTargetBitrate sample_video_sender 100000) 20000 1400.

(** A video sender that keeps up to ten packets and has sent and stored the
    media packet with sequence number 32423. *)
Definition sample_storing_built : RTPSender RTPPacketHistory.t * list Z * Z :=
  BuildRTPheader (SetStorePacketsStatus sample_video_sender true 10)
    (replicate (Z.to_nat IP_PACKET_SIZE) 0) 100 true 0 1000 true true.

Definition sample_storing_sender : RTPSender RTPPacketHistory.t :=
  (SendToNetwork sample_storing_built.1.1 sample_storing_built.1.2 400 12 1000
     kAllowRetransmission kNormalPriority).1.1.

(** ** Send-side delay statistics

    [send_delays_] is a [std::map<int64_t, int>]; it is kept here as the
    list of its entries in key order, which is the order of iteration. *)
Definition SendDelayMap := list (Z * Z).

(** [send_delays_[key] = value]. *)
Fixpoint SendDelayMap_assign (m : SendDelayMap) (key value : Z)
    : SendDelayMap :=
  match m with
  | [] => [(key, value)]
  | (k, v) :: rest =>
    if key <? k then (key, value) :: m
    else if key =? k then (key, value) :: rest
    else (k, v) :: SendDelayMap_assign rest key value
  end.

(** [lower_bound(key)]: from the first entry whose key is not below [key]. *)
Fixpoint lower_bound (m : SendDelayMap) (key : Z) : SendDelayMap :=
  match m with
  | [] => []
  | (k, v) :: rest => if k <? key then lower_bound rest key else m
  end.

(** [upper_bound(key)]: from the first entry whose key is above [key]. *)
Fixpoint upper_bound (m : SendDelayMap) (key : Z) : SendDelayMap :=
  match m with
  | [] => []
  | (k, v) :: rest => if k <=? key then upper_bound rest key else m
  end.

(** The loop of [GetSendSideDelay] from [it] to the end of the map. *)
Fixpoint GetSendSideDelay_loop (it : SendDelayMap)
    (avg_send_delay_ms max_send_delay_ms num_delays : Z) : Z * Z * Z :=
  match it with
  | [] => (avg_send_delay_ms, max_send_delay_ms, num_delays)
  | (_, second) :: it' =>
    GetSendSideDelay_loop it' (avg_send_delay_ms + second)
      (Z.max max_send_delay_ms second) (num_delays + 1)
  end.

(** [GetSendSideDelay(&avg_send_delay_ms, &max_send_delay_ms)] at clock time
    [now]: [None] is the return value [false], which leaves both outputs
    as they were. *)
Definition GetSendSideDelay (send_delays_ : SendDelayMap) (now : Z)
    (avg_send_delay_ms max_send_delay_ms : Z) : option (Z * Z) :=
  match upper_bound send_delays_ (now - kSendSideDelayWindowMs) with
  | [] => None
  | it =>
    let '(avg_send_delay_ms, max_send_delay_ms, num_delays) :=
      GetSendSideDelay_loop it avg_send_delay_ms max_send_delay_ms 0 in
    Some (Z.quot (avg_send_delay_ms + Z.quot num_delays 2) num_delays,
          max_send_delay_ms)
  end.

(** [UpdateDelayStatistics(capture_time_ms, now_ms)]: the map afterwards
    and, with an observer, what [SendSideDelayUpdated] is called with;
    [now] is the clock as [GetSendSideDelay] reads it. *)
Definition UpdateDelayStatistics (send_delays_ : SendDelayMap)
    (send_side_delay_observer_ : bool) (capture_time_ms now_ms now : Z)
    : SendDelayMap * option (Z * Z) :=
  let send_delays_ :=
    SendDelayMap_assign send_delays_ now_ms (i32 (now_ms - capture_time_ms)) in
  let send_delays_ :=
    lower_bound send_delays_ (now_ms - kSendSideDelayWindowMs) in
  (send_delays_,
   if send_side_delay_observer_ then GetSendSideDelay send_delays_ now 0 0
   else None).

(** The keys of a [std::map] are strictly increasing. *)
Fixpoint SendDelayMap_ordered (m : SendDelayMap) : Prop :=
  match m with
  | [] => True
  | (k, _) :: rest =>
    Forall (fun entry => k < entry.1) rest /\ SendDelayMap_ordered rest
  end.

(** Three samples, taken at 100, 600 and 1300 ms with delays of 30, 10 and
    20 ms. *)
Definition sample_send_delays : SendDelayMap :=
  (UpdateDelayStatistics
     (UpdateDelayStatistics
        (UpdateDelayStatistics [] false 70 100 100).1 false 590 600 600).1
     false 1280 1300 1300).1.

(** ** Further sample senders *)

(** A video sender with payload type 100 registered as VP8 at 2 Mbit/s. *)
Definition sample_vp8_sender : RTPSender RTPPacketHistory.t :=
  (RegisterPayload sample_video_sender "VP8" 100 90000 0 2000000).1.

(** A video sender with TransmissionTimeOffset registered under ID 1, a
    packet of 400 payload bytes it builds, and the packet's parsed header. *)
Definition sample_offset_sender : RTPSender RTPPacketHistory.t :=
  (RegisterRtpHeaderExtension sample_video_sender
     kRtpExtensionTransmissionTimeOffset 1).1.

Definition sample_offset_packet : list Z :=
  (BuildRTPheader sample_offset_sender (replicate (Z.to_nat IP_PACKET_SIZE) 0)
     100 true 0 1000 true true).1.2.

Definition sample_offset_header : RtpUtility.RTPHeader :=
  RtpUtility.ParseOrDefault sample_offset_packet 420.

(** An audio sender with AudioLevel registered under ID 3, a packet of 160
    payload bytes it builds, and the packet's parsed header. *)
Definition sample_level_sender : RTPSender RTPPacketHistory.t :=
  (RegisterRtpHeaderExtension sample_audio_sender kRtpExtensionAudioLevel 3).1.

Definition sample_level_packet : list Z :=
  (BuildRTPheader sample_level_sender (replicate (Z.to_nat IP_PACKET_SIZE) 0)
     0 true 0 1000 true true).1.2.

Definition sample_level_header : RtpUtility.RTPHeader :=
  RtpUtility.ParseOrDefault sample_level_packet 180.

(** A video sender whose transport fails, after it built a packet with the
    marker bit set. *)
Definition sample_refused_sender : RTPSender RTPPacketHistory.t :=
  (BuildRTPheader
     (new_RTPSender failing_collab false 1500 1500 ∅ RTPPacketHistory.empty)
     (replicate (Z.to_nat IP_PACKET_SIZE) 0) 100 true 0 1000 true true).1.1.

(** * Properties *)

(** ** Payload registry *)

Section PayloadRegistry.

Context {H : Type} `{PacketHistoryOps H}.
Implicit Types s : RTPSender H.

Lemma payload_type_map_set_payload_type_map_ m s :
  payload_type_map_ (set_payload_type_map_ m s) = m.
Proof. reflexivity. Qed.

(** C1 (as the code has it). On an audio sender, registering a payload-type
    number that already holds an audio descriptor succeeds exactly when
    the names match, the frequencies are equal and the rates are equal or
    one of them is zero; the stored rate is then the rate of the call
    (zero when the call passes zero), every other entry is untouched; in
    every other case the call returns -1 and changes nothing. The channel
    count plays no part. *)
Theorem RegisterPayload_registered_audio s payload_name payload_number
    frequency channels rate payload :
  audio_configured_ s = true ->
  payload_type_map_ s !! payload_number = Some payload ->
  audio payload = true ->
  let same :=
    RtpUtility.StringCompare (name payload) payload_name
      (RTP_PAYLOAD_NAME_SIZE - 1)
    && (Audio_frequency payload =? frequency) in
  let compatible :=
    (Audio_rate payload =? rate) || (Audio_rate payload =? 0) || (rate =? 0) in
  let '(s', ret) :=
    RegisterPayload s payload_name payload_number frequency channels rate in
  if same && compatible then
    ret = 0
    /\ payload_type_map_ s' !! payload_number
       = Some (set_Audio_rate rate payload)
    /\ Audio_rate (set_Audio_rate rate payload) = rate
    /\ (forall other, other <> payload_number ->
          payload_type_map_ s' !! other = payload_type_map_ s !! other)
  else ret = -1 /\ s' = s.
Proof.
  intros Hcfg Hmap Haudio. cbn zeta.
  unfold RegisterPayload. rewrite Hmap, Hcfg, Haudio. cbn [andb negb].
  destruct (RtpUtility.StringCompare _ _ _); cbn [andb]; [|done].
  destruct (Audio_frequency payload =? frequency); cbn [andb]; [|done].
  destruct ((Audio_rate payload =? rate) || (Audio_rate payload =? 0)
            || (rate =? 0)); [|done].
  rewrite payload_type_map_set_payload_type_map_.
  split; [done|]. split; [apply lookup_insert_eq|]. split.
  - unfold set_Audio_rate, Audio_rate, audio in *.
    destruct (typeSpecific payload); [done | discriminate].
  - intros other Hne. by apply lookup_insert_ne.
Qed.

(** C10. For the active payload type (a payload-type number, so not
    negative) [CheckPayloadType] returns 0 and leaves the sender as it
    was, whatever the registry holds; in particular after the type was
    removed with [DeRegisterSendPayload]. *)
Theorem CheckPayloadType_active_type s payload_type :
  0 <= payload_type ->
  payload_type_ s = payload_type ->
  exists video_type,
    CheckPayloadType s payload_type = (s, 0, video_type)
    /\ (forall m,
          CheckPayloadType (set_payload_type_map_ m s) payload_type
          = (set_payload_type_map_ m s, 0, video_type))
    /\ (let s' := (DeRegisterSendPayload s payload_type).1 in
        payload_type_map_ s' !! payload_type = None
        /\ CheckPayloadType s' payload_type = (s', 0, video_type)).
Proof.
  intros Hpos Hactive.
  assert (Hlt : (payload_type <? 0) = false) by lia.
  assert (Heq : (payload_type_ s =? payload_type) = true) by lia.
  assert (Hmap : forall m,
             CheckPayloadType (set_payload_type_map_ m s) payload_type
             = (set_payload_type_map_ m s, 0,
                (CheckPayloadType s payload_type).2)).
  { intros m. unfold CheckPayloadType. rewrite Hlt. cbn.
    rewrite Heq. by repeat case_match. }
  exists (CheckPayloadType s payload_type).2.
  split; [|split; [exact Hmap|]].
  - unfold CheckPayloadType. rewrite Hlt, Heq. by repeat case_match.
  - cbn zeta. unfold DeRegisterSendPayload.
    destruct (payload_type_map_ s !! payload_type) eqn:Hlook; cbn [fst].
    + split; [apply lookup_delete_eq | apply Hmap].
    + split; [exact Hlook|].
      unfold CheckPayloadType. rewrite Hlt, Heq. by repeat case_match.
Qed.

End PayloadRegistry.

Lemma RegisterPayload_registered_audio_witness :
  audio_configured_ sample_pcmu_sender = true
  /\ (RegisterPayload sample_pcmu_sender "PCMU" 0 8000 1 0).2 = 0
  /\ Audio_rate <$>
       payload_type_map_ (RegisterPayload sample_pcmu_sender "PCMU" 0 8000 1 0).1
       !! 0 = Some 0.
Proof.
  pose proof (RegisterPayload_registered_audio sample_pcmu_sender "PCMU" 0
                8000 1 0 {| name := "PCMU"; typeSpecific := Audio 8000 1 64000 |}
                eq_refl eq_refl eq_refl) as Hw.
  cbn zeta in Hw.
  destruct (RegisterPayload sample_pcmu_sender "PCMU" 0 8000 1 0) as [s' ret].
  change (RtpUtility.StringCompare _ _ _ && _ && _) with true in Hw.
  cbn iota in Hw. destruct Hw as (Hret & Hlook & _).
  split; [reflexivity|]. split; [exact Hret|].
  cbn [fst]. rewrite Hlook. reflexivity.
Defined.

(** C1 (as the specification words it) fails: PCMU is registered at 64000
    bit/s, the same payload is registered again with rate 0; the call
    succeeds and the stored rate is 0, not the nonzero 64000. *)
Lemma RegisterPayload_stores_zero_rate :
  ~ RegisterPayload_keeps_nonzero_rate sample_pcmu_sender "PCMU" 0 8000 1 0.
Proof.
  intros Hclaim.
  specialize (Hclaim {| name := "PCMU"; typeSpecific := Audio 8000 1 64000 |}
                eq_refl eq_refl eq_refl eq_refl (or_intror eq_refl)).
  vm_compute in Hclaim. destruct Hclaim as [_ Hrate]. discriminate Hrate.
Qed.

(** Payload type 0 is made the active type, then removed from the registry;
    it is still accepted. *)
Lemma CheckPayloadType_active_type_witness :
  let s := (CheckPayloadType sample_pcmu_sender 0).1.1 in
  let s' := (DeRegisterSendPayload s 0).1 in
  payload_type_ s = 0
  /\ payload_type_map_ s' !! 0 = None
  /\ (CheckPayloadType s' 0).1 = (s', 0).
Proof.
  cbn zeta.
  destruct (CheckPayloadType_active_type
              (CheckPayloadType sample_pcmu_sender 0).1.1 0
              ltac:(lia) eq_refl) as (video_type & _ & _ & Hnone & Hcheck).
  split; [reflexivity|]. split; [exact Hnone|].
  rewrite Hcheck. reflexivity.
Defined.

(** ** SSRC and sequence number *)

Section SSRCFacts.

Context {H : Type} `{PacketHistoryOps H}.
Implicit Types s : RTPSender H.

(** The regenerated sequence number fits the 16-bit member. *)
Lemma initial_sequence_number_range r :
  0 <= r <= RAND_MAX ->
  u16 (Z.quot r (Z.quot RAND_MAX MAX_INIT_RTP_SEQ_NUMBER))
  = Z.quot r (Z.quot RAND_MAX MAX_INIT_RTP_SEQ_NUMBER)
  /\ 0 <= Z.quot r (Z.quot RAND_MAX MAX_INIT_RTP_SEQ_NUMBER)
       <= MAX_INIT_RTP_SEQ_NUMBER.
Proof.
  intros Hr. unfold RAND_MAX, MAX_INIT_RTP_SEQ_NUMBER in *.
  change (Z.quot 2147483647 32767) with 65538.
  rewrite Z.quot_div_nonneg by lia.
  assert (0 <= r / 65538 < 32768).
  { split; [apply Z.div_pos; lia|].
    apply Z.div_lt_upper_bound; lia. }
  split; [|lia]. unfold u16. apply Z.mod_small. lia.
Qed.

Lemma SSRCDatabase_replace (db : gset Z) (old new : Z) :
  (old <> new ->
   old ∉ SSRCDatabase.RegisterSSRC (SSRCDatabase.ReturnSSRC db old) new)
  /\ new ∈ SSRCDatabase.RegisterSSRC (SSRCDatabase.ReturnSSRC db old) new.
Proof.
  unfold SSRCDatabase.RegisterSSRC, SSRCDatabase.ReturnSSRC. split.
  - intros Hne [Hin | Hin]%elem_of_union.
    + apply elem_of_singleton in Hin. congruence.
    + apply elem_of_difference in Hin as [_ Hin].
      apply Hin, elem_of_singleton. reflexivity.
  - apply elem_of_union_l, elem_of_singleton. reflexivity.
Qed.

(** C9 (as the code has it). [SetSSRC(ssrc)] does nothing at all when
    [ssrc] is already the media SSRC and [ssrc_forced_] is set. In every
    other call the previous media SSRC is returned to the allocator, the
    new one is registered and becomes the media SSRC, [ssrc_forced_] is
    set, and the sequence number is [rand() / (RAND_MAX /
    MAX_INIT_RTP_SEQ_NUMBER)] unless it was forced, in which case it is
    kept. *)
Theorem SetSSRC_new_or_unforced s ssrc :
  0 <= rand_ (collab s) (rand_calls s) <= RAND_MAX ->
  let s' := SetSSRC s ssrc in
  if (ssrc_ s =? ssrc) && ssrc_forced_ s then s' = s
  else
    ssrc_db_ s'
    = SSRCDatabase.RegisterSSRC
        (SSRCDatabase.ReturnSSRC (ssrc_db_ s) (ssrc_ s)) ssrc
    /\ (ssrc_ s <> ssrc -> ssrc_ s ∉ ssrc_db_ s')
    /\ ssrc ∈ ssrc_db_ s'
    /\ ssrc_ s' = ssrc
    /\ ssrc_forced_ s' = true
    /\ (if sequence_number_forced_ s
        then sequence_number_ s' = sequence_number_ s
             /\ rand_calls s' = rand_calls s
        else sequence_number_ s'
             = Z.quot (rand_ (collab s) (rand_calls s))
                      (Z.quot RAND_MAX MAX_INIT_RTP_SEQ_NUMBER)
             /\ rand_calls s' = S (rand_calls s)).
Proof.
  intros Hrand. cbn zeta. unfold SetSSRC.
  destruct ((ssrc_ s =? ssrc) && ssrc_forced_ s); [reflexivity|].
  pose proof (SSRCDatabase_replace (ssrc_db_ s) (ssrc_ s) ssrc) as [Hold Hnew].
  destruct (sequence_number_forced_ s) eqn:Hforced.
  - change (sequence_number_forced_ _) with (sequence_number_forced_ s).
    rewrite Hforced. cbn [negb].
    split; [reflexivity|]. split; [exact Hold|]. split; [exact Hnew|].
    repeat split.
  - change (sequence_number_forced_ _) with (sequence_number_forced_ s).
    rewrite Hforced. cbn [negb].
    split; [reflexivity|]. split; [exact Hold|]. split; [exact Hnew|].
    split; [reflexivity|]. split; [reflexivity|].
    split; [|reflexivity].
    apply (initial_sequence_number_range _ Hrand).
Qed.

End SSRCFacts.

Lemma SetSSRC_new_or_unforced_witness :
  ssrc_ (SetSSRC sample_video_sender 3735928559) = 3735928559
  /\ ssrc_forced_ (SetSSRC sample_video_sender 3735928559) = true
  /\ sequence_number_ (SetSSRC sample_video_sender 3735928559) = 908.
Proof.
  pose proof (SetSSRC_new_or_unforced sample_video_sender 3735928559) as Hw.
  cbn zeta in Hw.
  change ((ssrc_ sample_video_sender =? 3735928559)
          && ssrc_forced_ sample_video_sender) with false in Hw.
  change (sequence_number_forced_ sample_video_sender) with false in Hw.
  cbn iota in Hw.
  destruct Hw as (_ & _ & _ & Hssrc & Hforced & Hseq & _).
  { vm_compute. split; discriminate. }
  split; [exact Hssrc|]. split; [exact Hforced|].
  rewrite Hseq. vm_compute. reflexivity.
Defined.

(** C9 (as the specification words it) fails: the SSRC 0xDEADBEEF was set
    through the API and is set again; the call returns at once, no random
    number is drawn and the sequence number stays what it was. *)
Lemma SetSSRC_same_forced_ssrc_keeps_sequence_number :
  ~ SetSSRC_resets_on_every_call sample_forced_ssrc_sender 3735928559.
Proof.
  intros (_ & _ & _ & Hseq).
  specialize (Hseq eq_refl). vm_compute in Hseq. discriminate Hseq.
Qed.

(** ** The [media_has_been_sent_] latch *)

Section Monotone.
Context {H : Type} `{PacketHistoryOps H}.
Implicit Types s : RTPSender H.

Lemma sent_after_refl s : sent_after s s.
Proof.
  split; [done|]. exists []. rewrite app_nil_r. split; [done|]. congruence.
Qed.

Lemma sent_after_frame s s' :
  media_has_been_sent_ s' = media_has_been_sent_ s ->
  transport_log s' = transport_log s ->
  sent_after s s'.
Proof.
  intros Hflag Hlog. split; [congruence|].
  exists []. rewrite app_nil_r. split; [done|]. congruence.
Qed.

Lemma sent_after_trans s1 s2 s3 :
  sent_after s1 s2 -> sent_after s2 s3 -> sent_after s1 s3.
Proof.
  intros [Hk1 (l1 & Hl1 & Hw1)] [Hk2 (l2 & Hl2 & Hw2)].
  split; [auto|]. exists (l1 ++ l2).
  split; [by rewrite Hl2, Hl1, app_assoc|].
  intros Hoff Hon.
  destruct (media_has_been_sent_ s2) eqn:Hmid.
  - destruct (Hw1 Hoff eq_refl) as (p & n & Hin & Hn).
    exists p, n. split; [|done]. apply elem_of_app. by left.
  - destruct (Hw2 eq_refl Hon) as (p & n & Hin & Hn).
    exists p, n. split; [|done]. apply elem_of_app. by right.
Qed.

Lemma SendPacketToNetwork_log s packet size :
  let '(s', ok) := SendPacketToNetwork s packet size in
  media_has_been_sent_ s' = media_has_been_sent_ s
  /\ exists l, transport_log s' = transport_log s ++ l
       /\ (ok = true -> exists p n, (p, n) ∈ l /\ 0 < n).
Proof.
  unfold SendPacketToNetwork.
  destruct (transport_ (collab s)) as [transport|].
  - split; [done|]. eexists. split; [reflexivity|].
    intros Hok. do 2 eexists. split; [apply list_elem_of_singleton; reflexivity|].
    apply negb_true_iff in Hok. lia.
  - split; [done|]. exists []. by rewrite app_nil_r.
Qed.

Lemma BuildRtxPacket_frame s buffer length buffer_rtx :
  let '(s', _, _) := BuildRtxPacket s buffer length buffer_rtx in
  media_has_been_sent_ s' = media_has_been_sent_ s
  /\ transport_log s' = transport_log s.
Proof. unfold BuildRtxPacket. done. Qed.

Lemma PrepareAndSendPacket_sent_after s buffer length capture_time_ms
    send_over_rtx is_retransmit :
  sent_after s
    (PrepareAndSendPacket s buffer length capture_time_ms send_over_rtx
       is_retransmit).1.
Proof.
  unfold PrepareAndSendPacket.
  set (r := if send_over_rtx then _ else _).
  assert (Hr : media_has_been_sent_ r.1.1 = media_has_been_sent_ s
               /\ transport_log r.1.1 = transport_log s).
  { subst r. destruct send_over_rtx; [|done].
    pose proof (BuildRtxPacket_frame s buffer length
                  (replicate (Z.to_nat IP_PACKET_SIZE) 0)) as Hf.
    by destruct (BuildRtxPacket _ _ _ _) as [[? ?] ?]. }
  destruct r as [[s1 buffer_to_send] length1]. cbn [fst] in Hr.
  destruct Hr as [Hflag Hlog].
  match goal with
  | |- context [SendPacketToNetwork ?a ?b ?c] =>
    pose proof (SendPacketToNetwork_log a b c) as Hsend;
    destruct (SendPacketToNetwork a b c) as [s2 ok]
  end.
  destruct Hsend as (Hflag2 & l & Hl & Hok). cbn [fst].
  destruct ok.
  - split; [done|]. exists l. split; [by rewrite <- Hlog|].
    intros _ _. by apply Hok.
  - split; [congruence|]. exists l. split; [by rewrite <- Hlog|].
    intros Hoff Hon. congruence.
Qed.

Lemma BuildPaddingPacket_fill_frame n s packet pos :
  media_has_been_sent_ (BuildPaddingPacket_fill n s packet pos).1
  = media_has_been_sent_ s
  /\ transport_log (BuildPaddingPacket_fill n s packet pos).1
     = transport_log s.
Proof.
  revert s packet pos. induction n as [|n IH]; intros s packet pos; [done|].
  cbn [BuildPaddingPacket_fill]. unfold rand at 1. cbn zeta iota beta.
  match goal with
  | |- context [BuildPaddingPacket_fill n ?a ?b ?c] =>
    destruct (IH a b c) as [Hflag Hlog]
  end.
  split; [by etrans; [apply Hflag|] | by etrans; [apply Hlog|]].
Qed.

Lemma BuildPaddingPacket_frame s packet header_length bytes :
  media_has_been_sent_ (BuildPaddingPacket s packet header_length bytes).1.1
  = media_has_been_sent_ s
  /\ transport_log (BuildPaddingPacket s packet header_length bytes).1.1
     = transport_log s.
Proof.
  unfold BuildPaddingPacket.
  match goal with
  | |- context [BuildPaddingPacket_fill ?n ?a ?b ?c] =>
    pose proof (BuildPaddingPacket_fill_frame n a b c) as Hf;
    destruct (BuildPaddingPacket_fill n a b c) as [s1 packet1]
  end.
  exact Hf.
Qed.

Lemma SendPadData_select_frame s s1 ssrc sequence_number over_rtx :
  SendPadData_select s = Some (s1, ssrc, sequence_number, over_rtx) ->
  media_has_been_sent_ s1 = media_has_been_sent_ s
  /\ transport_log s1 = transport_log s.
Proof.
  unfold SendPadData_select. intros Hsel.
  repeat case_match; simplify_eq; done.
Qed.

Lemma SendPadData_loop_sent_after fuel s payload_type timestamp
    capture_time_ms bytes bytes_sent s' r :
  SendPadData_loop fuel s payload_type timestamp capture_time_ms bytes
    bytes_sent = Some (s', r) ->
  sent_after s s'.
Proof.
  revert s bytes bytes_sent.
  induction fuel as [|fuel IH]; intros s bytes bytes_sent; cbn [SendPadData_loop].
  - destruct (bytes <=? 0); [|done]. intros [= <- _]. apply sent_after_refl.
  - destruct (bytes <=? 0); [intros [= <- _]; apply sent_after_refl|].
    destruct (SendPadData_select s) as [[[[s1 ssrc] sequence_number] over_rtx]|]
      eqn:Hsel; [|intros [= <- _]; apply sent_after_refl].
    apply SendPadData_select_frame in Hsel as [Hflag1 Hlog1].
    destruct (CreateRTPHeader _ _ _ _ _ _ _ _ _) as [padding_packet header_length].
    match goal with
    | |- context [BuildPaddingPacket ?a ?b ?c ?d] =>
      pose proof (BuildPaddingPacket_frame a b c d) as Hpad;
      destruct (BuildPaddingPacket a b c d) as [[s2 packet2] padding]
    end.
    cbn [fst] in Hpad. destruct Hpad as [Hflag2 Hlog2].
    match goal with
    | |- context [SendPacketToNetwork ?a ?b ?c] =>
      pose proof (SendPacketToNetwork_log a b c) as Hsend;
      destruct (SendPacketToNetwork a b c) as [s3 ok]
    end.
    destruct Hsend as (Hflag3 & l & Hl & Hok).
    assert (Hstep : sent_after s s3).
    { split; [congruence|]. exists l. split; [congruence|]. congruence. }
    destruct ok; cbn [negb].
    + intros Hloop. eapply sent_after_trans; [exact Hstep|]. eapply IH, Hloop.
    + by intros [= <- _].
Qed.

Lemma SendRedundantPayloads_loop_sent_after fuel s bytes_to_send bytes_left
    s' r :
  SendRedundantPayloads_loop fuel s bytes_to_send bytes_left = Some (s', r) ->
  sent_after s s'.
Proof.
  revert s bytes_left.
  induction fuel as [|fuel IH]; intros s bytes_left;
    cbn [SendRedundantPayloads_loop].
  - destruct (bytes_left <=? 0); [|done]. intros [= <- _]. apply sent_after_refl.
  - destruct (bytes_left <=? 0); [intros [= <- _]; apply sent_after_refl|].
    destruct (GetBestFittingPacket _ _) as [[[buffer length] capture_time_ms]|];
      [|intros [= <- _]; apply sent_after_refl].
    pose proof (PrepareAndSendPacket_sent_after s buffer length
                  capture_time_ms true false) as Hsend.
    destruct (PrepareAndSendPacket _ _ _ _ _ _) as [s1 ok]. cbn [fst] in Hsend.
    destruct ok; cbn [negb].
    + intros Hloop. eapply sent_after_trans; [exact Hsend|]. eapply IH, Hloop.
    + by intros [= <- _].
Qed.

Lemma TimeToSendPadding_sent_after fuel s bytes s' r :
  TimeToSendPadding fuel s bytes = Some (s', r) -> sent_after s s'.
Proof.
  unfold TimeToSendPadding.
  destruct (sending_media_ s) eqn:Hmedia; cbn [negb];
    [|intros [= <- _]; apply sent_after_refl].
  destruct (if 0 <? last_timestamp_time_ms_ s then _ else _)
    as [timestamp capture_time_ms].
  set (first := if negb _ then _ else _).
  assert (Hfirst : forall s1 n, first = Some (s1, n) -> sent_after s s1).
  { subst first. unfold SendRedundantPayloads.
    destruct (negb _).
    - intros s1 n. apply SendRedundantPayloads_loop_sent_after.
    - intros s1 n [= <- _]. apply sent_after_refl. }
  destruct first as [[s1 bytes_sent]|]; [|done].
  specialize (Hfirst _ _ eq_refl).
  destruct (0 <? bytes - bytes_sent); [|by intros [= <- _]].
  unfold SendPadData.
  destruct (sending_media_ s1); cbn [negb]; [|by intros [= <- _]].
  destruct (SendPadData_loop _ _ _ _ _ _ _) as [[s2 padding_sent]|] eqn:Hloop;
    [|done].
  intros [= <- _]. eapply sent_after_trans; [exact Hfirst|].
  eapply SendPadData_loop_sent_after, Hloop.
Qed.

Lemma paced_sender_SendPacket_frame pacer s c :
  media_has_been_sent_ (paced_sender_SendPacket pacer s c).1
  = media_has_been_sent_ s
  /\ transport_log (paced_sender_SendPacket pacer s c).1 = transport_log s.
Proof. done. Qed.

Lemma ReSendPacket_sent_after s packet_id min_resend_time :
  sent_after s (ReSendPacket s packet_id min_resend_time).1.
Proof.
  unfold ReSendPacket.
  destruct (GetPacketAndSetSendTime _ _ _ _ _)
    as [h [[[data_buffer length] capture_time_ms]|]];
    [|by apply sent_after_frame].
  assert (Hsend : forall s1,
             media_has_been_sent_ s1 = media_has_been_sent_ s ->
             transport_log s1 = transport_log s ->
             sent_after s
               (let '(s2, ok) :=
                  PrepareAndSendPacket s1 data_buffer length capture_time_ms
                    (0 <? Z.land (rtx_ s1) kRtxRetransmitted) true in
                (s2, if ok then length else -1)).1).
  { intros s1 Hflag Hlog.
    pose proof (PrepareAndSendPacket_sent_after s1 data_buffer length
                  capture_time_ms (0 <? Z.land (rtx_ s1) kRtxRetransmitted)
                  true) as Hp.
    destruct (PrepareAndSendPacket _ _ _ _ _ _) as [s2 ok]. cbn [fst] in *.
    eapply sent_after_trans; [|exact Hp]. by apply sent_after_frame. }
  destruct (paced_sender_ _) as [pacer|]; [|by apply Hsend].
  destruct (RtpUtility.Parse data_buffer length) as [header|];
    [|by apply sent_after_frame].
  match goal with
  | |- context [paced_sender_SendPacket ?p ?a ?c] =>
    pose proof (paced_sender_SendPacket_frame p a c) as [Hflag Hlog];
    destruct (paced_sender_SendPacket p a c) as [s1 accepted]
  end.
  cbn [fst] in Hflag, Hlog.
  destruct accepted; cbn [negb]; [by apply Hsend | by apply sent_after_frame].
Qed.

Lemma OnReceivedNACK_loop_sent_after nack s avg_rtt target_bitrate
    bytes_re_sent :
  sent_after s
    (OnReceivedNACK_loop ReSendPacket s nack avg_rtt target_bitrate
       bytes_re_sent).1.
Proof.
  revert s bytes_re_sent.
  induction nack as [|it rest IH]; intros s bytes_re_sent;
    cbn [OnReceivedNACK_loop]; [apply sent_after_refl|].
  pose proof (ReSendPacket_sent_after s it (u32 (5 + avg_rtt))) as Hre.
  destruct (ReSendPacket s it (u32 (5 + avg_rtt))) as [s1 bytes_sent].
  cbn [fst] in Hre.
  repeat case_match; try exact Hre;
    (eapply sent_after_trans; [exact Hre | apply IH]).
Qed.

Lemma UpdateNACKBitRate_frame s bytes now :
  media_has_been_sent_ (UpdateNACKBitRate s bytes now)
  = media_has_been_sent_ s
  /\ transport_log (UpdateNACKBitRate s bytes now) = transport_log s.
Proof. unfold UpdateNACKBitRate. by repeat case_match. Qed.

Lemma OnReceivedNACK_sent_after s nack avg_rtt :
  sent_after s (OnReceivedNACK s nack avg_rtt).
Proof.
  unfold OnReceivedNACK.
  destruct (ProcessNACKBitRate _ _); cbn [negb]; [|apply sent_after_refl].
  pose proof (OnReceivedNACK_loop_sent_after nack s avg_rtt
                (GetTargetBitrate s) 0) as Hloop.
  destruct (OnReceivedNACK_loop _ _ _ _ _ _) as [s1 bytes_re_sent].
  cbn [fst] in Hloop.
  destruct (0 <? bytes_re_sent); [|exact Hloop].
  eapply sent_after_trans; [exact Hloop|].
  apply sent_after_frame; apply UpdateNACKBitRate_frame.
Qed.

Lemma TimeToSendPacket_sent_after s sequence_number capture_time_ms
    retransmission :
  sent_after s
    (TimeToSendPacket s sequence_number capture_time_ms retransmission).1.
Proof.
  unfold TimeToSendPacket.
  destruct (GetPacketAndSetSendTime _ _ _ _ _)
    as [h [[[data_buffer length] stored_time_ms]|]];
    [|by apply sent_after_frame].
  eapply sent_after_trans; [|apply PrepareAndSendPacket_sent_after].
  by apply sent_after_frame.
Qed.

Lemma SendToNetwork_sent_after s buffer payload_length rtp_header_length
    capture_time_ms storage priority :
  sent_after s
    (SendToNetwork s buffer payload_length rtp_header_length capture_time_ms
       storage priority).1.1.
Proof.
  unfold SendToNetwork.
  destruct (PutRTPPacket _ _ _ _ _ _ _) as [h put].
  destruct (put =? 0); cbn [negb]; [|by apply sent_after_frame].
  set (buffer1 := UpdateAbsoluteSendTime _ _ _ _ _).
  assert (Htransmit : forall s1,
             media_has_been_sent_ s1 = media_has_been_sent_ s ->
             transport_log s1 = transport_log s ->
             sent_after s
               (let '(s2, ok) :=
                  SendPacketToNetwork s1 buffer1
                    (u32 (payload_length + rtp_header_length)) in
                if negb ok then (s2, buffer1, -1)
                else (set_media_has_been_sent_ true s2, buffer1, 0)).1.1).
  { intros s1 Hflag Hlog.
    pose proof (SendPacketToNetwork_log s1 buffer1
                  (u32 (payload_length + rtp_header_length))) as Hsend.
    destruct (SendPacketToNetwork _ _ _) as [s2 ok].
    destruct Hsend as (Hflag2 & l & Hl & Hok).
    destruct ok; cbn [negb fst].
    - split; [done|]. exists l. split; [by rewrite <- Hlog|].
      intros _ _. by apply Hok.
    - split; [congruence|]. exists l. split; [by rewrite <- Hlog|].
      congruence. }
  destruct (paced_sender_ _) as [pacer|]; [|by apply Htransmit].
  destruct storage; try by apply Htransmit.
  all: match goal with
       | |- context [paced_sender_SendPacket ?p ?a ?c] =>
         pose proof (paced_sender_SendPacket_frame p a c) as [Hflag Hlog];
         destruct (paced_sender_SendPacket p a c) as [s1 accepted]
       end;
       cbn [fst] in Hflag, Hlog;
       destruct accepted; cbn [negb];
       [by apply Htransmit | by apply sent_after_frame].
Qed.

Lemma step_sent_after op s s' :
  is_SetRtpState op = false -> step op s = Some s' -> sent_after s s'.
Proof.
  intros Hop Hstep.
  destruct op; try discriminate Hop; cbn [step] in Hstep;
    try (injection Hstep as <-).
  all: try (apply sent_after_frame;
            first [ reflexivity
                  | unfold SetTransmissionTimeOffset, SetAbsoluteSendTime,
                      RegisterRtpHeaderExtension,
                      DeregisterRtpHeaderExtension, RegisterPayload,
                      DeRegisterSendPayload, SetMaxPayloadLength,
                      CheckPayloadType, SetStartTimestamp, SetSendingStatus,
                      GenerateNewSSRC, SetSSRC, BuildRTPheader,
                      SetStartTimestamp, ssrc_db_CreateSSRC, rand;
                    cbn beta iota zeta;
                    by repeat case_match ]).
  - destruct (TimeToSendPadding fuel s bytes) as [[s1 r]|] eqn:Hpad;
      [|discriminate Hstep].
    injection Hstep as <-. by eapply TimeToSendPadding_sent_after.
  - apply ReSendPacket_sent_after.
  - apply OnReceivedNACK_sent_after.
  - apply TimeToSendPacket_sent_after.
  - apply SendToNetwork_sent_after.
Qed.

Lemma run_sent_after ops s s' :
  forallb (fun op => negb (is_SetRtpState op)) ops = true ->
  run ops s = Some s' ->
  sent_after s s'.
Proof.
  revert s. induction ops as [|op rest IH]; intros s Hops Hrun.
  - injection Hrun as <-. apply sent_after_refl.
  - cbn [forallb] in Hops. apply andb_true_iff in Hops as [Hop Hrest].
    apply negb_true_iff in Hop. cbn [run] in Hrun.
    destruct (step op s) as [s1|] eqn:Hstep; [|discriminate Hrun].
    eapply sent_after_trans; [by eapply step_sent_after | by apply IH].
Qed.

(** C8 (as the code has it). Over every sequence of operations that does
    not contain [SetRtpState], [media_has_been_sent_] is never cleared,
    and when it becomes set one of the transport calls made meanwhile
    reported a positive number of bytes. [SetRtpState] overwrites the flag
    with the snapshot's value, whatever it was. *)
Theorem media_has_been_sent_latched ops s s' :
  forallb (fun op => negb (is_SetRtpState op)) ops = true ->
  run ops s = Some s' ->
  (media_has_been_sent_ s = true -> media_has_been_sent_ s' = true)
  /\ (exists l,
        transport_log s' = transport_log s ++ l
        /\ (media_has_been_sent_ s = false ->
            media_has_been_sent_ s' = true ->
            exists packet n, (packet, n) ∈ l /\ 0 < n))
  /\ (forall rtp_state,
        media_has_been_sent_ (SetRtpState s' rtp_state)
        = rs_media_has_been_sent rtp_state).
Proof.
  intros Hops Hrun.
  destruct (run_sent_after ops s s' Hops Hrun) as [Hkeep Hlog].
  split; [exact Hkeep|]. split; [exact Hlog|]. reflexivity.
Qed.

End Monotone.

(** C8 (as the specification words it) fails: a media packet went out, so
    the flag is set; [SetRtpState] with a snapshot taken before any media was
    sent clears it. *)
Lemma SetRtpState_clears_media_has_been_sent :
  ~ @media_has_been_sent_never_cleared RTPPacketHistory.t _.
Proof.
  intros Hclaim.
  specialize (Hclaim
                [OpSetRtpState
                   {| rs_sequence_number := 1000; rs_start_timestamp := 0;
                      rs_timestamp := 0; rs_capture_time_ms := 0;
                      rs_last_timestamp_time_ms := 0;
                      rs_media_has_been_sent := false |}]
                sample_sent_sender _ eq_refl).
  assert (Hon : media_has_been_sent_ sample_sent_sender = true)
    by (vm_compute; reflexivity).
  specialize (Hclaim Hon). cbn in Hclaim. discriminate Hclaim.
Qed.

Lemma media_has_been_sent_latched_witness :
  media_has_been_sent_ sample_video_sender = false
  /\ media_has_been_sent_ sample_sent_sender = true
  /\ exists l,
       transport_log sample_sent_sender = transport_log sample_video_sender ++ l
       /\ exists packet n, (packet, n) ∈ l /\ 0 < n.
Proof.
  assert (Hoff : media_has_been_sent_ sample_video_sender = false)
    by (vm_compute; reflexivity).
  assert (Hon : media_has_been_sent_ sample_sent_sender = true)
    by (vm_compute; reflexivity).
  split; [exact Hoff|]. split; [exact Hon|].
  destruct (media_has_been_sent_latched
              [OpBuildRTPheader (replicate (Z.to_nat IP_PACKET_SIZE) 0) 100
                 true 0 1000 true true;
               OpSendToNetwork sample_built.1.2 400 12 1000 kDontStore
                 kNormalPriority]
              sample_video_sender sample_sent_sender)
    as (_ & (l & Hl & Hsent) & _).
  - reflexivity.
  - unfold sample_sent_sender, sample_built. cbn [run step]. reflexivity.
  - exists l. split; [exact Hl|]. exact (Hsent Hoff Hon).
Defined.

(** ** Packet bytes *)

(** Boolean comparisons in the hypotheses, as propositions. *)
Ltac zbool :=
  repeat match goal with
         | H : (_ <? _) = true |- _ => apply Z.ltb_lt in H
         | H : (_ <? _) = false |- _ => apply Z.ltb_ge in H
         | H : (_ <=? _) = true |- _ => apply Z.leb_le in H
         | H : (_ <=? _) = false |- _ => apply Z.leb_gt in H
         | H : (_ =? _) = true |- _ => apply Z.eqb_eq in H
         | H : (_ =? _) = false |- _ => apply Z.eqb_neq in H
         | H : negb _ = true |- _ => apply negb_true_iff in H
         | H : negb _ = false |- _ => apply negb_false_iff in H
         end.

#[local] Arguments byte_at : simpl never.
#[local] Arguments set_byte : simpl never.
#[local] Arguments memcpy : simpl never.

Section Bytes.

(** *** Reading and writing buffers *)

Lemma length_set_byte b i v : length (set_byte b i v) = length b.
Proof. unfold set_byte. destruct (i <? 0); [done|apply length_insert]. Qed.

Lemma byte_at_set_byte_eq b i v :
  0 <= i < Z.of_nat (length b) -> byte_at (set_byte b i v) i = u8 v.
Proof.
  intros Hi. unfold byte_at, set_byte.
  assert (Hneg : (i <? 0) = false) by lia. rewrite Hneg.
  rewrite list_lookup_insert_eq by lia. done.
Qed.

Lemma byte_at_set_byte_ne b i j v :
  i <> j -> byte_at (set_byte b i v) j = byte_at b j.
Proof.
  intros Hne. unfold byte_at, set_byte.
  destruct (j <? 0) eqn:Hj; [done|].
  destruct (i <? 0) eqn:Hi; [done|].
  rewrite list_lookup_insert_ne by lia. done.
Qed.

Lemma u24_bytes v :
  0 <= v < 16777216 ->
  u8 (Z.shiftr v 16) * 65536 + u8 (Z.shiftr v 8) * 256 + u8 v = v.
Proof.
  intros Hv. unfold u8. rewrite !Z.shiftr_div_pow2 by lia.
  change (2 ^ 16) with 65536. change (2 ^ 8) with 256.
  Z.to_euclidean_division_equations. lia.
Qed.

Lemma BufferToUWord24_AssignUWord24ToBuffer b p v :
  0 <= p -> p + 2 < Z.of_nat (length b) -> 0 <= v < 16777216 ->
  RtpUtility.BufferToUWord24 (RtpUtility.AssignUWord24ToBuffer b p v) p = v.
Proof.
  intros Hp Hlen Hv.
  unfold RtpUtility.BufferToUWord24, RtpUtility.AssignUWord24ToBuffer.
  rewrite (byte_at_set_byte_ne _ (p + 2) p) by lia.
  rewrite (byte_at_set_byte_ne _ (p + 1) p) by lia.
  rewrite (byte_at_set_byte_eq _ p) by lia.
  rewrite (byte_at_set_byte_ne _ (p + 2) (p + 1)) by lia.
  rewrite (byte_at_set_byte_eq _ (p + 1)) by (rewrite length_set_byte; lia).
  rewrite (byte_at_set_byte_eq _ (p + 2)) by (rewrite !length_set_byte; lia).
  by apply u24_bytes.
Qed.

Lemma length_before_nonneg m type :
  0 <= RtpHeaderExtensionMap.length_before m type.
Proof.
  induction m as [|[id type'] rest IH];
    cbn [RtpHeaderExtensionMap.length_before]; [done|].
  destruct (decide (type' = type)); [done|].
  destruct type'; unfold RtpHeaderExtensionMap.extension_length,
    kTransmissionTimeOffsetLength, kAudioLevelLength,
    kAbsoluteSendTimeLength; lia.
Qed.



Lemma byte_at_range b i : is_bytes b -> 0 <= byte_at b i < 256.
Proof.
  intros Hb. unfold byte_at. destruct (i <? 0); [lia|].
  destruct (b !! Z.to_nat i) as [x|] eqn:Hx; cbn; [|lia].
  eapply (Forall_lookup_1 _ _ _ _ Hb Hx).
Qed.

Lemma length_memcpy dst d src s n :
  (d + n <= length dst)%nat -> (s + n <= length src)%nat ->
  length (memcpy dst d src s n) = length dst.
Proof.
  intros Hd Hs. unfold memcpy.
  rewrite !length_app, !length_take, !length_drop. lia.
Qed.

Lemma byte_at_memcpy dst d src s n i :
  (d + n <= length dst)%nat -> (s + n <= length src)%nat ->
  byte_at (memcpy dst d src s n) i
  = if (Z.of_nat d <=? i) && (i <? Z.of_nat (d + n))
    then byte_at src (Z.of_nat s + (i - Z.of_nat d))
    else byte_at dst i.
Proof.
  intros Hd Hs. unfold byte_at, memcpy.
  destruct (Z.ltb_spec i 0) as [Hi|Hi].
  { destruct (Z.leb_spec (Z.of_nat d) i); [lia|done]. }
  destruct (Z.leb_spec (Z.of_nat d) i) as [Hlo|Hlo]; cbn [andb].
  - destruct (Z.ltb_spec i (Z.of_nat (d + n))) as [Hhi|Hhi].
    + destruct (Z.ltb_spec (Z.of_nat s + (i - Z.of_nat d)) 0); [lia|].
      rewrite lookup_app_r by (rewrite length_take; lia).
      rewrite length_take, Nat.min_l by lia.
      rewrite lookup_app_l
        by (rewrite length_take, length_drop, Nat.min_l; lia).
      rewrite lookup_take_lt by lia. rewrite lookup_drop.
      do 2 f_equal. lia.
    + rewrite lookup_app_r by (rewrite length_take; lia).
      rewrite length_take, Nat.min_l by lia.
      rewrite lookup_app_r
        by (rewrite length_take, length_drop, Nat.min_l; lia).
      rewrite length_take, length_drop, Nat.min_l by lia.
      rewrite lookup_drop. do 2 f_equal. lia.
  - rewrite lookup_app_l by (rewrite length_take; lia).
    rewrite lookup_take_lt by lia. done.
Qed.

Lemma u16_bytes v :
  0 <= v < 65536 -> u8 (Z.shiftr v 8) * 256 + u8 v = v.
Proof.
  intros Hv. unfold u8. rewrite !Z.shiftr_div_pow2 by lia.
  change (2 ^ 8) with 256. Z.to_euclidean_division_equations. lia.
Qed.

Lemma u32_bytes v :
  0 <= v < 4294967296 ->
  u8 (Z.shiftr v 24) * 16777216 + u8 (Z.shiftr v 16) * 65536
  + u8 (Z.shiftr v 8) * 256 + u8 v = v.
Proof.
  intros Hv. unfold u8. rewrite !Z.shiftr_div_pow2 by lia.
  change (2 ^ 24) with 16777216. change (2 ^ 16) with 65536.
  change (2 ^ 8) with 256. Z.to_euclidean_division_equations. lia.
Qed.

Lemma marker_bit_table :
  forallb (fun x => (Z.lor x 128 =? x + 128)
                    && (Z.land x 128 =? 0)
                    && (Z.land x 127 =? x)
                    && (Z.land (x + 128) 127 =? x)
                    && (Z.land (x + 128) 128 =? 128))
          (map Z.of_nat (seq 0 128)) = true.
Proof. vm_compute. reflexivity. Qed.

Lemma marker_bit x :
  0 <= x < 128 ->
  Z.lor x 128 = x + 128 /\ Z.land x 128 = 0 /\ Z.land x 127 = x
  /\ Z.land (x + 128) 127 = x /\ Z.land (x + 128) 128 = 128.
Proof.
  intros Hx. pose proof marker_bit_table as Ht.
  rewrite forallb_forall in Ht. specialize (Ht x).
  assert (Hin : In x (map Z.of_nat (seq 0 128))).
  { apply in_map_iff. exists (Z.to_nat x). split; [lia|].
    apply in_seq. lia. }
  specialize (Ht Hin). rewrite !andb_true_iff in Ht. lia.
Qed.

Lemma byte_bit7_table :
  forallb (fun x => (Z.land x 128 =? 0) || (Z.land x 128 =? 128))
          (map Z.of_nat (seq 0 256)) = true.
Proof. vm_compute. reflexivity. Qed.

Lemma byte_bit7 x :
  0 <= x < 256 -> Z.land x 128 = 0 \/ Z.land x 128 = 128.
Proof.
  intros Hx. pose proof byte_bit7_table as Ht.
  rewrite forallb_forall in Ht. specialize (Ht x).
  assert (Hin : In x (map Z.of_nat (seq 0 256))).
  { apply in_map_iff. exists (Z.to_nat x). split; [lia|].
    apply in_seq. lia. }
  specialize (Ht Hin). rewrite orb_true_iff in Ht. lia.
Qed.

Lemma byte_at_take b n i :
  i < Z.of_nat n -> byte_at (take n b) i = byte_at b i.
Proof.
  intros Hi. unfold byte_at. destruct (Z.ltb_spec i 0); [done|].
  rewrite lookup_take_lt by lia. done.
Qed.

Lemma byte_at_drop b n i :
  0 <= i -> byte_at (drop n b) i = byte_at b (Z.of_nat n + i).
Proof.
  intros Hi. unfold byte_at.
  destruct (Z.ltb_spec i 0); [lia|].
  destruct (Z.ltb_spec (Z.of_nat n + i) 0); [lia|].
  rewrite lookup_drop. do 2 f_equal. lia.
Qed.

Lemma list_eq_byte_at (l1 l2 : list Z) :
  length l1 = length l2 ->
  (forall i, 0 <= i < Z.of_nat (length l1) -> byte_at l1 i = byte_at l2 i) ->
  l1 = l2.
Proof.
  intros Hlen Hbytes. apply list_eq. intros k.
  destruct (decide (k < length l1)%nat) as [Hk|Hk].
  - specialize (Hbytes (Z.of_nat k) ltac:(lia)). unfold byte_at in Hbytes.
    destruct (Z.ltb_spec (Z.of_nat k) 0); [lia|].
    rewrite Nat2Z.id in Hbytes.
    destruct (lookup_lt_is_Some_2 l1 k Hk) as [x1 Hx1].
    destruct (lookup_lt_is_Some_2 l2 k ltac:(lia)) as [x2 Hx2].
    rewrite Hx1, Hx2 in *. cbn in Hbytes. congruence.
  - rewrite !lookup_ge_None_2 by lia. done.
Qed.

Lemma BufferToUWord16_range b p :
  is_bytes b -> 0 <= RtpUtility.BufferToUWord16 b p < 65536.
Proof.
  intros Hb. unfold RtpUtility.BufferToUWord16.
  pose proof (byte_at_range b p Hb). pose proof (byte_at_range b (p + 1) Hb).
  lia.
Qed.

Lemma Parse_Some b length h :
  is_bytes b ->
  RtpUtility.Parse b length = Some h ->
  12 <= RtpUtility.headerLength h <= length
  /\ RtpUtility.markerBit h = negb (Z.land (byte_at b 1) 128 =? 0)
  /\ RtpUtility.payloadType h = Z.land (byte_at b 1) 127
  /\ RtpUtility.sequenceNumber h = RtpUtility.BufferToUWord16 b 2
  /\ RtpUtility.ssrc h = RtpUtility.BufferToUWord32 b 8
  /\ RtpUtility.numCSRCs h = Z.land (byte_at b 0) 15.
Proof.
  intros Hb. unfold RtpUtility.Parse.
  assert (Hcc : 0 <= Z.land (byte_at b 0) 15) by (apply Z.land_nonneg; lia).
  pose proof (BufferToUWord16_range b (12 + 4 * Z.land (byte_at b 0) 15 + 2) Hb)
    as Hx.
  repeat match goal with
         | |- context [if ?c then _ else _] => destruct c eqn:?
         end; intros [= <-];
    cbn [RtpUtility.headerLength RtpUtility.markerBit RtpUtility.payloadType
         RtpUtility.sequenceNumber RtpUtility.ssrc RtpUtility.numCSRCs];
    zbool; repeat split; lia.
Qed.
End Bytes.

(** ** In-place header-extension updates *)

Section Patch.
Context {H : Type} `{PacketHistoryOps H}.
Implicit Types s : RTPSender H.

(** C7. When every check of [UpdateAbsoluteSendTime] passes, the three
    bytes after the extension's ID byte, read as a big-endian number, are
    [((now_ms << 18) / 1000) & 0x00FFFFFF]; at [now_ms = 1500] that is
    393216. The clock is taken in the range where [now_ms << 18] does not
    overflow 64 bits. *)
Theorem UpdateAbsoluteSendTime_value s rtp_packet rtp_packet_length
    rtp_header now_ms id :
  RtpHeaderExtensionMap.GetId (rtp_header_extension_map_ s)
    kRtpExtensionAbsoluteSendTime = Some id ->
  let block_pos :=
    12 + RtpUtility.numCSRCs rtp_header
    + RtpHeaderExtensionMap.GetLengthUntilBlockStartInBytes
        (rtp_header_extension_map_ s) kRtpExtensionAbsoluteSendTime in
  0 <= RtpUtility.numCSRCs rtp_header ->
  rtp_packet_length <= Z.of_nat (length rtp_packet) ->
  block_pos + kAbsoluteSendTimeLength <= rtp_packet_length ->
  block_pos + kAbsoluteSendTimeLength <= RtpUtility.headerLength rtp_header ->
  byte_at rtp_packet (12 + RtpUtility.numCSRCs rtp_header) = 190 ->
  byte_at rtp_packet (12 + RtpUtility.numCSRCs rtp_header + 1) = 222 ->
  byte_at rtp_packet block_pos = u8 (Z.shiftl id 4 + 2) ->
  - 2 ^ 45 <= now_ms < 2 ^ 45 ->
  let patched :=
    UpdateAbsoluteSendTime s rtp_packet rtp_packet_length rtp_header now_ms in
  RtpUtility.BufferToUWord24 patched (block_pos + 1)
  = Z.land (Z.quot (Z.shiftl now_ms 18) 1000) 16777215
  /\ (now_ms = 1500 ->
      RtpUtility.BufferToUWord24 patched (block_pos + 1) = 393216).
Proof.
  intros Hid block_pos Hcsrc Hbuf Hlen Hhdr Hbe Hde Hfirst Hnow patched.
  assert (Hval : RtpUtility.BufferToUWord24 patched (block_pos + 1)
                 = Z.land (Z.quot (Z.shiftl now_ms 18) 1000) 16777215).
  { subst patched. unfold UpdateAbsoluteSendTime. rewrite Hid.
    fold block_pos.
    assert (Hpos : 4 <= RtpHeaderExtensionMap.GetLengthUntilBlockStartInBytes
                          (rtp_header_extension_map_ s)
                          kRtpExtensionAbsoluteSendTime).
    { unfold RtpHeaderExtensionMap.GetLengthUntilBlockStartInBytes.
      rewrite Hid. unfold kRtpOneByteHeaderLength.
      pose proof (length_before_nonneg (rtp_header_extension_map_ s)
                    kRtpExtensionAbsoluteSendTime). lia. }
    unfold kAbsoluteSendTimeLength in *.
    repeat match goal with
           | |- context [if ?c then _ else _] =>
             let Hc := fresh in
             assert (Hc : c = false)
               by (rewrite ?Hbe, ?Hde, ?Hfirst; cbn; lia);
             rewrite Hc; clear Hc
           end.
    assert (Hi64 : i64 (Z.shiftl now_ms 18) = Z.shiftl now_ms 18).
    { rewrite Z.shiftl_mul_pow2 by lia. unfold i64, to_signed.
      change (2 ^ 18) with 262144. change (2 ^ 64) with 18446744073709551616.
      change (2 ^ (64 - 1)) with 9223372036854775808.
      change (2 ^ 45) with 35184372088832 in Hnow.
      destruct (Z_lt_dec now_ms 0).
      - rewrite <- (Z.mod_add _ 1) by lia. rewrite Z.mod_small by lia.
        assert ((now_ms * 262144 + 1 * 18446744073709551616
                 <? 9223372036854775808) = false) as -> by lia. lia.
      - rewrite Z.mod_small by lia.
        assert ((now_ms * 262144 <? 9223372036854775808) = true) as -> by lia.
        done. }
    rewrite Hi64.
    assert (Hrange : 0 <= Z.land (Z.quot (Z.shiftl now_ms 18) 1000) 16777215
                     < 16777216).
    { change 16777215 with (Z.ones 24). rewrite Z.land_ones by lia.
      apply Z.mod_pos_bound. lia. }
    unfold u32. rewrite (Z.mod_small _ 4294967296) by lia.
    apply BufferToUWord24_AssignUWord24ToBuffer; lia. }
  split; [exact Hval|]. intros ->. rewrite Hval. reflexivity.
Qed.
End Patch.

Lemma UpdateAbsoluteSendTime_value_witness :
  RtpUtility.BufferToUWord24
    (UpdateAbsoluteSendTime sample_abs_sender sample_abs_packet 420
       sample_abs_header 1500) 17 = 393216.
Proof.
  refine (proj2 (UpdateAbsoluteSendTime_value sample_abs_sender
                   sample_abs_packet 420 sample_abs_header 1500 2
                   eq_refl _ _ _ _ _ _ _ _) eq_refl).
  all: vm_compute; try reflexivity; try (split; congruence); congruence.
Defined.

(** C6 fails on the code. The patchers locate the extension block at
    [12 + numCSRCs + offset], counting one byte per CSRC, while
    [CreateRTPHeader] puts it at [12 + 4 * num_csrcs + offset].

    First input: the sender's own packet with one CSRC 0x00BEDE00,
    TransmissionTimeOffset (ID 1, value 0x220000) and AbsoluteSendTime
    (ID 2). The profile bytes are in place at offset 16 and the
    AbsoluteSendTime block at offset 24 starts with 0x22, yet the update
    at 1500 ms writes bytes 22..24: two bytes of the other extension's value
    and the ID byte of its own block, not its value bytes 25..27.

    Second input: a packet with the same CSRC whose header extension has
    another profile (0x1022 at offset 16); no 0xBEDE at [12 + 4 * 1], yet
    bytes 18..20 are overwritten. *)
Theorem UpdateAbsoluteSendTime_counts_one_byte_per_csrc :
  (let packet := sample_csrc_built.1.2 in
   let patched :=
     UpdateAbsoluteSendTime sample_csrc_built.1.1 packet 428
       sample_csrc_header 1500 in
   RtpUtility.numCSRCs sample_csrc_header = 1
   /\ map (byte_at packet) [16; 17] = [190; 222]
   /\ map (byte_at packet) [20; 21; 22; 23; 24; 25; 26; 27]
      = [18; 34; 0; 0; 34; 0; 0; 0]
   /\ map (byte_at patched) [20; 21; 22; 23; 24; 25; 26; 27]
      = [18; 34; 6; 0; 0; 0; 0; 0])
  /\ (let packet := sample_foreign_packet in
      let patched :=
        UpdateAbsoluteSendTime sample_abs_sender packet 28
          sample_foreign_header 1500 in
      RtpUtility.numCSRCs sample_foreign_header = 1
      /\ map (byte_at packet) [16; 17] = [16; 34]
      /\ map (byte_at packet) [18; 19; 20] = [0; 1; 170]
      /\ map (byte_at patched) [18; 19; 20] = [6; 0; 0]).
Proof. vm_compute. repeat split; reflexivity. Qed.

(** ** RTX framing *)

Section Rtx.
Context {H : Type} `{PacketHistoryOps H}.
Implicit Types s : RTPSender H.

Ltac read_bytes :=
  unfold RtpUtility.AssignUWord16ToBuffer, RtpUtility.AssignUWord32ToBuffer;
  repeat first
    [ rewrite byte_at_set_byte_ne by lia
    | rewrite byte_at_set_byte_eq by (rewrite ?length_set_byte; lia) ].

(** C5. For a stored packet that parses, [BuildRtxPacket] yields a packet
    two bytes longer: the header bytes are the original ones except the
    payload-type byte (the RTX payload type with the original marker bit,
    or untouched when [payload_type_rtx_] is -1), the sequence number (the
    RTX sequence number before its increment) and the SSRC ([ssrc_rtx_]);
    the two bytes after the header are the original sequence number; and
    what follows them is the original payload. *)
Theorem BuildRtxPacket_framing s buffer length buffer_rtx hdr :
  is_bytes buffer ->
  RtpUtility.Parse buffer length = Some hdr ->
  length <= Z.of_nat (List.length buffer) ->
  length + 2 <= Z.of_nat (List.length buffer_rtx) ->
  length + 2 < 65536 ->
  payload_type_rtx_ s = -1 \/ 0 <= payload_type_rtx_ s < 128 ->
  0 <= sequence_number_rtx_ s < 65536 ->
  0 <= ssrc_rtx_ s < 4294967296 ->
  let hl := RtpUtility.headerLength hdr in
  let '(s', rtx, length') := BuildRtxPacket s buffer length buffer_rtx in
  length' = length + 2
  /\ sequence_number_rtx_ s' = u16 (sequence_number_rtx_ s + 1)
  /\ (forall i, 0 <= i < hl -> i = 0 \/ 4 <= i < 8 \/ 12 <= i ->
        byte_at rtx i = byte_at buffer i)
  /\ Z.land (byte_at rtx 1) 128 = Z.land (byte_at buffer 1) 128
  /\ Z.land (byte_at rtx 1) 127
     = (if payload_type_rtx_ s =? -1 then Z.land (byte_at buffer 1) 127
        else payload_type_rtx_ s)
  /\ RtpUtility.BufferToUWord16 rtx 2 = sequence_number_rtx_ s
  /\ RtpUtility.BufferToUWord32 rtx 8 = ssrc_rtx_ s
  /\ RtpUtility.BufferToUWord16 rtx hl = RtpUtility.BufferToUWord16 buffer 2
  /\ drop (Z.to_nat (hl + 2)) (take (Z.to_nat length') rtx)
     = drop (Z.to_nat hl) (take (Z.to_nat length) buffer).
Proof.
  intros Hbytes Hparse Hbuf Hrtx Hlen Hpt Hseq Hssrc hl.
  destruct (Parse_Some _ _ _ Hbytes Hparse)
    as (Hhl & Hmarker & _ & Hosn & _ & _).
  fold hl in Hhl.
  unfold BuildRtxPacket, RtpUtility.ParseOrDefault. rewrite Hparse.
  cbn [default from_option id]. fold hl. rewrite Hmarker, Hosn.
  (* the header copy *)
  set (b0 := memcpy buffer_rtx 0 buffer 0 (Z.to_nat hl)).
  assert (Hlen0 : List.length b0 = List.length buffer_rtx)
    by (apply length_memcpy; lia).
  assert (Hb0 : forall i, 0 <= i < hl -> byte_at b0 i = byte_at buffer i).
  { intros i Hi. subst b0. rewrite byte_at_memcpy by lia.
    destruct (Z.leb_spec (Z.of_nat 0) i); [|lia].
    destruct (Z.ltb_spec i (Z.of_nat (0 + Z.to_nat hl))); [|lia].
    cbn [andb]. f_equal. lia. }
  (* the payload-type byte *)
  set (b1 := if negb (payload_type_rtx_ s =? -1) then _ else b0).
  assert (Hlen1 : List.length b1 = List.length buffer_rtx).
  { subst b1. repeat case_match; rewrite ?length_set_byte; done. }
  assert (Hb1 : forall i, i <> 1 -> byte_at b1 i = byte_at b0 i).
  { intros i Hi. subst b1. repeat case_match; read_bytes; done. }
  pose proof (byte_at_range buffer 1 Hbytes) as Hr1.
  pose proof (byte_bit7 _ Hr1) as Hbit7.
  assert (Hb1_1 : Z.land (byte_at b1 1) 128 = Z.land (byte_at buffer 1) 128
                  /\ Z.land (byte_at b1 1) 127
                     = (if payload_type_rtx_ s =? -1
                        then Z.land (byte_at buffer 1) 127
                        else payload_type_rtx_ s)).
  { subst b1. destruct (Z.eqb_spec (payload_type_rtx_ s) (-1)) as [Heq|Hne];
      cbn [negb].
    - rewrite Hb0 by lia. done.
    - destruct Hpt as [?|Hpt]; [done|].
      destruct (marker_bit _ Hpt) as (Hlor & Hl128 & Hl127 & Hm127 & Hm128).
      assert (Hu : u8 (payload_type_rtx_ s) = payload_type_rtx_ s)
        by (apply Z.mod_small; lia).
      destruct (Z.eqb_spec (Z.land (byte_at buffer 1) 128) 0) as [Hz|Hnz];
        cbn [negb].
      + rewrite byte_at_set_byte_eq by lia. rewrite Hu, Hz. done.
      + rewrite byte_at_set_byte_eq by (rewrite length_set_byte; lia).
        rewrite byte_at_set_byte_eq by lia.
        unfold kRtpMarkerBitMask. rewrite Hu, Hlor.
        assert (Hu' : u8 (payload_type_rtx_ s + 128)
                      = payload_type_rtx_ s + 128)
          by (apply Z.mod_small; lia).
        rewrite Hu'. split; [lia|done]. }
  destruct Hb1_1 as [Hmark Hpt7].
  clearbody b1.
  (* sequence number, SSRC, OSN *)
  set (osn := RtpUtility.BufferToUWord16 buffer 2).
  pose proof (BufferToUWord16_range buffer 2 Hbytes) as Hosn_range.
  fold osn in Hosn_range.
  set (b4 := RtpUtility.AssignUWord16ToBuffer
               (RtpUtility.AssignUWord32ToBuffer
                  (RtpUtility.AssignUWord16ToBuffer b1 2
                     (sequence_number_rtx_ s)) 8 _) hl osn).
  assert (Hlen4 : List.length b4 = List.length buffer_rtx).
  { subst b4. unfold RtpUtility.AssignUWord16ToBuffer,
      RtpUtility.AssignUWord32ToBuffer.
    rewrite !length_set_byte. done. }
  assert (Hb4 : forall i, i < 2 \/ 4 <= i < 8 \/ 12 <= i -> i <> hl ->
                          i <> hl + 1 -> byte_at b4 i = byte_at b1 i).
  { intros i Hi Hi1 Hi2. subst b4.
    cbn [sequence_number_rtx_ set_sequence_number_rtx_ ssrc_rtx_].
    read_bytes. done. }
  assert (Hseq4 : RtpUtility.BufferToUWord16 b4 2 = sequence_number_rtx_ s).
  { subst b4. unfold RtpUtility.BufferToUWord16. read_bytes.
    by apply u16_bytes. }
  assert (Hssrc4 : RtpUtility.BufferToUWord32 b4 8 = ssrc_rtx_ s).
  { subst b4. unfold RtpUtility.BufferToUWord32.
    cbn [sequence_number_rtx_ set_sequence_number_rtx_ ssrc_rtx_].
    read_bytes. by apply u32_bytes. }
  assert (Hosn4 : RtpUtility.BufferToUWord16 b4 hl = osn).
  { subst b4. unfold RtpUtility.BufferToUWord16. read_bytes.
    by apply u16_bytes. }
  clearbody b4.
  (* the payload copy *)
  set (b5 := memcpy b4 _ buffer _ _).
  assert (Hb5 : forall i,
             byte_at b5 i
             = if (hl + 2 <=? i) && (i <? length + 2)
               then byte_at buffer (i - 2) else byte_at b4 i).
  { intros i. subst b5. rewrite byte_at_memcpy by lia.
    replace (Z.of_nat (Z.to_nat (hl + 2))) with (hl + 2) by lia.
    replace (Z.of_nat (Z.to_nat (hl + 2) + Z.to_nat (length - hl)))
      with (length + 2) by lia.
    destruct ((hl + 2 <=? i) && (i <? length + 2)) eqn:Hin; [|done].
    f_equal. apply andb_true_iff in Hin as [Hin1 Hin2]. zbool. lia. }
  assert (Hlen5 : List.length b5 = List.length buffer_rtx).
  { subst b5. rewrite length_memcpy by lia. done. }
  clearbody b5.
  assert (Hlow : forall i, i < hl + 2 -> byte_at b5 i = byte_at b4 i).
  { intros i Hi. rewrite Hb5.
    destruct (Z.leb_spec (hl + 2) i); [lia|done]. }
  split; [unfold u16; apply Z.mod_small; lia|].
  split; [reflexivity|].
  split.
  { intros i Hi Hfree. rewrite Hlow by lia.
    rewrite Hb4, Hb1, Hb0 by lia. done. }
  split; [by rewrite Hlow, Hb4 by lia|].
  split; [by rewrite Hlow, Hb4 by lia|].
  split; [unfold RtpUtility.BufferToUWord16 in *; by rewrite !Hlow by lia|].
  split; [unfold RtpUtility.BufferToUWord32 in *; by rewrite !Hlow by lia|].
  split; [unfold RtpUtility.BufferToUWord16 in *; by rewrite !Hlow by lia|].
  apply list_eq_byte_at.
  - rewrite !length_drop, !length_take. unfold u16.
    rewrite Z.mod_small by lia. lia.
  - intros i Hi. rewrite !length_drop, !length_take in Hi.
    unfold u16 in *. rewrite Z.mod_small in * by lia.
    rewrite !byte_at_drop by lia. rewrite !byte_at_take by lia.
    rewrite Hb5.
    destruct (Z.leb_spec (hl + 2) (Z.of_nat (Z.to_nat (hl + 2)) + i)); [|lia].
    destruct (Z.ltb_spec (Z.of_nat (Z.to_nat (hl + 2)) + i) (length + 2));
      [|lia].
    cbn [andb]. f_equal. lia.
Qed.
End Rtx.

Lemma sample_stored_packet_is_bytes : is_bytes sample_stored_packet.
Proof.
  unfold is_bytes. refine (bool_decide_unpack _ _). vm_compute. reflexivity.
Qed.

(** The stored media packet (sequence number 32423, marker bit set) as an
    RTX packet: payload type 96 with the marker bit, RTX sequence number
    12346, SSRC 0x12345678, then the original sequence number. *)
Lemma BuildRtxPacket_framing_witness :
  let '(s', rtx, length') :=
    BuildRtxPacket sample_rtx_sender sample_stored_packet 412
      (replicate (Z.to_nat IP_PACKET_SIZE) 0) in
  length' = 414
  /\ RtpUtility.BufferToUWord16 rtx 2 = 12346
  /\ RtpUtility.BufferToUWord32 rtx 8 = 305419896
  /\ RtpUtility.BufferToUWord16 rtx 12 = 32423
  /\ drop 14 (take (Z.to_nat length') rtx) = drop 12 sample_stored_packet.
Proof.
  pose proof (BuildRtxPacket_framing sample_rtx_sender sample_stored_packet
                412 (replicate (Z.to_nat IP_PACKET_SIZE) 0)
                (RtpUtility.ParseOrDefault sample_stored_packet 412)
                sample_stored_packet_is_bytes) as Hw.
  cbn zeta in Hw.
  assert (Hhl : RtpUtility.headerLength
                  (RtpUtility.ParseOrDefault sample_stored_packet 412) = 12)
    by (vm_compute; reflexivity).
  assert (Hseq0 : sequence_number_rtx_ sample_rtx_sender = 12346)
    by (vm_compute; reflexivity).
  assert (Hssrc0 : ssrc_rtx_ sample_rtx_sender = 305419896)
    by (vm_compute; reflexivity).
  assert (Hosn0 : RtpUtility.BufferToUWord16 sample_stored_packet 2 = 32423)
    by (vm_compute; reflexivity).
  assert (Htake : take (Z.to_nat 412) sample_stored_packet
                  = sample_stored_packet)
    by (vm_compute; reflexivity).
  rewrite Hhl, Hseq0, Hssrc0, Hosn0, Htake in Hw.
  destruct (BuildRtxPacket _ _ _ _) as [[s' rtx] length'].
  destruct Hw as (Hlen & _ & _ & _ & _ & Hseq & Hssrc & Hosn & Hpayload).
  - vm_compute. reflexivity.
  - vm_compute. discriminate.
  - vm_compute. discriminate.
  - vm_compute. reflexivity.
  - right. vm_compute. split; [discriminate | reflexivity].
  - vm_compute. split; [discriminate | reflexivity].
  - vm_compute. split; [discriminate | reflexivity].
  - split; [exact Hlen|]. split; [exact Hseq|]. split; [exact Hssrc|].
    split; [exact Hosn|]. exact Hpayload.
Defined.

(** ** The NACK bandwidth gate *)

Section Nack.
Context {H : Type} `{PacketHistoryOps H}.
Implicit Types s : RTPSender H.

Lemma i32_small x : 0 <= x < 2147483648 -> i32 x = x.
Proof.
  intros Hx. unfold i32, to_signed.
  change (2 ^ 32) with 4294967296. change (2 ^ (32 - 1)) with 2147483648.
  rewrite Z.mod_small by lia.
  destruct (Z.ltb_spec x 2147483648); [done|lia].
Qed.

Lemma u32_small x : 0 <= x < 4294967296 -> u32 x = x.
Proof. intros Hx. unfold u32. apply Z.mod_small. lia. Qed.

Lemma nack_bytes_out_of_window now times counts :
  Forall (fun t => t < now - 1000) times ->
  nack_bytes_in_window now times counts = 0.
Proof.
  intros Hold. revert counts.
  induction Hold as [|t times Ht Hold IH]; intros [|c counts];
    cbn [nack_bytes_in_window]; try done.
  rewrite IH. unfold in_nack_window.
  destruct (Z.leb_spec (now - 1000) t); [lia|]. done.
Qed.

Lemma foldr_add_nonneg (counts : list Z) :
  Forall (fun c => 0 <= c) counts -> 0 <= foldr Z.add 0 counts.
Proof. induction 1; cbn [foldr]; lia. Qed.

Lemma nack_bytes_in_window_bounds now times counts :
  Forall (fun c => 0 <= c) counts ->
  0 <= nack_bytes_in_window now times counts <= foldr Z.add 0 counts.
Proof.
  intros Hcounts. revert times.
  induction Hcounts as [|c counts Hc Hcounts IH]; intros [|t times];
    cbn [nack_bytes_in_window foldr]; try lia.
  - pose proof (foldr_add_nonneg counts Hcounts). lia.
  - specialize (IH times). destruct (in_nack_window now t); lia.
Qed.

Lemma ProcessNACKBitRate_loop_scan now times counts :
  length counts = length times ->
  (forall i j ti tj,
      times !! i = Some ti -> times !! j = Some tj -> (i <= j)%nat ->
      tj <= ti) ->
  Forall (fun t => 0 <= t <= now) times ->
  Forall (fun c => 0 <= c) counts ->
  now < 4294967296 ->
  forall k num acc,
    (num + k = length times)%nat ->
    0 <= acc ->
    acc + foldr Z.add 0 (drop num counts) < 2147483648 ->
    let r := ProcessNACKBitRate_loop k now times counts num acc in
    r.2 = acc + nack_bytes_in_window now (drop num times) (drop num counts)
    /\ (r.1 <= length times)%nat
    /\ (r.1 = length times
        <-> forallb (in_nack_window now) (drop num times) = true).
Proof.
  intros Hlen Hsorted Htimes Hcounts Hnow.
  induction k as [|k IH]; intros num acc Hk Hacc Hsum;
    cbn [ProcessNACKBitRate_loop].
  - rewrite !drop_ge by lia. cbn. split; [lia|]. split; [lia|]. split; [done|lia].
  - destruct (lookup_lt_is_Some_2 times num ltac:(lia)) as [t Ht].
    destruct (lookup_lt_is_Some_2 counts num ltac:(lia)) as [c Hc].
    rewrite Ht, Hc. cbn [default from_option id].
    rewrite (drop_S _ _ _ Ht), (drop_S _ _ _ Hc) in *.
    cbn [nack_bytes_in_window forallb foldr] in *.
    pose proof (Forall_lookup_1 _ _ _ _ Htimes Ht) as Ht_range.
    pose proof (Forall_lookup_1 _ _ _ _ Hcounts Hc) as Hc_range.
    cbn beta in Ht_range, Hc_range.
    assert (Hrest : 0 <= foldr Z.add 0 (drop (S num) counts))
      by (apply foldr_add_nonneg; by apply Forall_drop).
    rewrite u32_small by lia.
    destruct (Z.ltb_spec 1000 (now - t)) as [Hold|Hin]; cbn [fst snd].
    + assert (in_nack_window now t = false) as ->.
      { unfold in_nack_window.
        destruct (Z.leb_spec (now - 1000) t); [lia|done]. }
      cbn [andb].
      rewrite nack_bytes_out_of_window.
      * split; [lia|]. split; [lia|]. split; [lia|done].
      * apply Forall_lookup_2. intros j tj Hj. rewrite lookup_drop in Hj.
        specialize (Hsorted num (S num + j)%nat t tj Ht Hj ltac:(lia)). lia.
    + assert (in_nack_window now t = true) as ->.
      { unfold in_nack_window.
        destruct (Z.leb_spec (now - 1000) t); [|lia].
        destruct (Z.leb_spec t now); [done|lia]. }
      cbn [andb].
      rewrite i32_small by lia.
      destruct (IH (S num) (acc + c) ltac:(lia) ltac:(lia) ltac:(lia))
        as (Hbytes & Hle & Hall).
      split; [lia|]. split; [exact Hle | exact Hall].
Qed.

(** C3. On a ring kept by [UpdateNACKBitRate] and within the range of the
    32-bit counters, [ProcessNACKBitRate(now)] is the gate of the
    specification: open when the target bitrate is zero, and otherwise
    open exactly when eight times the bytes recorded within the past
    1000 ms is below the target in kbit/s times the interval, the interval
    being [now] minus the oldest slot's timestamp when all slots lie in
    the window and 1000 ms otherwise. *)
Theorem ProcessNACKBitRate_gate s now :
  nack_ring_ordered now (nack_byte_count_times_ s) (nack_byte_count_ s) ->
  0 <= now < 4294967296 ->
  0 <= target_bitrate_ s < 4294967296 ->
  foldr Z.add 0 (nack_byte_count_ s) * 8 < 2147483648 ->
  target_bitrate_ s / 1000 * 1000 < 2147483648 ->
  ProcessNACKBitRate s now
  = nack_gate_open (target_bitrate_ s) now (nack_byte_count_times_ s)
      (nack_byte_count_ s)
  /\ (target_bitrate_ s = 0 -> ProcessNACKBitRate s now = true)
  /\ (forallb (in_nack_window now) (nack_byte_count_times_ s) = true ->
      nack_interval now (nack_byte_count_times_ s)
      = now - default 0 (nack_byte_count_times_ s
                         !! (NACK_BYTECOUNT_SIZE - 1)%nat)).
Proof.
  intros (Hlt & Hlc & Hsorted & Htimes & Hcounts) Hnow Htarget Hsum Hrate.
  set (times := nack_byte_count_times_ s) in *.
  set (counts := nack_byte_count_ s) in *.
  assert (Hlast : default 0 (last times)
                  = default 0 (times !! (NACK_BYTECOUNT_SIZE - 1)%nat)).
  { rewrite last_lookup, Hlt. done. }
  assert (Hgate : ProcessNACKBitRate s now
                  = nack_gate_open (target_bitrate_ s) now times counts).
  { unfold ProcessNACKBitRate, nack_gate_open, GetTargetBitrate.
    destruct (Z.eqb_spec (target_bitrate_ s) 0) as [Hzero|Hnz]; [done|].
    cbn [orb]. fold times counts.
    pose proof (ProcessNACKBitRate_loop_scan now times counts
                  ltac:(congruence) Hsorted Htimes Hcounts ltac:(lia)
                  NACK_BYTECOUNT_SIZE 0%nat 0 ltac:(lia) ltac:(lia)
                  ltac:(rewrite drop_0; lia)) as Hscan.
    cbn zeta in Hscan. rewrite !drop_0 in Hscan.
    destruct (ProcessNACKBitRate_loop _ _ _ _ _ _) as [num byte_count].
    cbn [fst snd] in Hscan. destruct Hscan as (Hbytes & Hle & Hall).
    rewrite Z.add_0_l in Hbytes. rewrite Hbytes.
    pose proof (nack_bytes_in_window_bounds now times counts Hcounts)
      as Hwin.
    assert (Hkbps : 0 <= target_bitrate_ s / 1000)
      by (apply Z.div_pos; lia).
    assert (Hinterval :
              (if bool_decide (num = NACK_BYTECOUNT_SIZE)
               then if default 0 (times !! (num - 1)%nat) <=? now
                    then u32 (now - default 0 (times !! (num - 1)%nat))
                    else 1000
               else 1000) = nack_interval now times
              /\ 0 <= nack_interval now times <= 1000).
    { unfold nack_interval. rewrite Hlast.
      destruct (forallb (in_nack_window now) times) eqn:Hforall.
      - rewrite bool_decide_eq_true_2 by (rewrite <- Hlt; by apply Hall).
        destruct (lookup_lt_is_Some_2 times (NACK_BYTECOUNT_SIZE - 1)%nat
                    ltac:(rewrite Hlt; unfold NACK_BYTECOUNT_SIZE; lia))
          as [t Ht].
        destruct Hall as [_ Hall]. specialize (Hall eq_refl). subst num.
        rewrite Hlt, Ht. cbn [default from_option id].
        rewrite forallb_forall in Hforall.
        specialize (Hforall t ltac:(apply list_elem_of_In;
                                    by eapply list_elem_of_lookup_2)).
        unfold in_nack_window in Hforall.
        apply andb_true_iff in Hforall as [Hlo Hhi]. zbool.
        destruct (Z.leb_spec t now); [|lia].
        rewrite u32_small by lia. lia.
      - rewrite bool_decide_eq_false_2; [lia|].
        intros Heq. rewrite <- Hlt in Heq. apply Hall in Heq. congruence. }
    destruct Hinterval as [-> Hiv].
    rewrite (u32_small (target_bitrate_ s / 1000)).
    2:{ split; [lia|]. apply Z.div_lt_upper_bound; lia. }
    rewrite u32_small by nia. rewrite !i32_small by nia. done. }
  split; [exact Hgate|]. split.
  - intros Hzero. rewrite Hgate. unfold nack_gate_open. rewrite Hzero. done.
  - intros Hall. unfold nack_interval. fold times. rewrite Hall, Hlast. done.
Qed.

Lemma UpdateNACKBitRate_shift_take k (a : list Z) :
  (k < length a)%nat ->
  UpdateNACKBitRate_shift k a = take 1 a ++ take k a ++ drop (S k) a.
Proof.
  revert a. induction k as [|i IH]; intros a Hk;
    cbn [UpdateNACKBitRate_shift].
  - rewrite take_0. cbn [app]. by rewrite take_drop.
  - destruct (lookup_lt_is_Some_2 a i ltac:(lia)) as [x Hx].
    rewrite Hx. cbn [default from_option id].
    rewrite IH by (rewrite length_insert; lia).
    rewrite !take_insert_ge by lia.
    rewrite drop_insert_ge by lia.
    replace (S i - S i)%nat with 0%nat by lia.
    destruct (lookup_lt_is_Some_2 a (S i) ltac:(lia)) as [y Hy].
    rewrite (drop_S _ _ _ Hy). cbn [insert list_insert].
    rewrite (take_S_r _ _ _ Hx). by rewrite <- !app_assoc.
Qed.

Lemma UpdateNACKBitRate_shift_ring (a : list Z) x :
  length a = NACK_BYTECOUNT_SIZE ->
  <[0%nat := x]> (UpdateNACKBitRate_shift (NACK_BYTECOUNT_SIZE - 1) a)
  = x :: take (NACK_BYTECOUNT_SIZE - 1) a.
Proof.
  intros Hlen.
  rewrite UpdateNACKBitRate_shift_take
    by (rewrite Hlen; unfold NACK_BYTECOUNT_SIZE; lia).
  destruct a as [|y a]; [discriminate Hlen|].
  cbn [take app insert list_insert]. f_equal.
  rewrite drop_ge; [by rewrite app_nil_r|].
  rewrite Hlen. unfold NACK_BYTECOUNT_SIZE. lia.
Qed.

(** The ring order is an invariant of [UpdateNACKBitRate] under a clock
    that does not run backwards. *)
Lemma UpdateNACKBitRate_keeps_order s bytes now0 now :
  nack_ring_ordered now0 (nack_byte_count_times_ s) (nack_byte_count_ s) ->
  now0 <= now -> 0 <= now ->
  let s' := UpdateNACKBitRate s bytes now in
  nack_ring_ordered now (nack_byte_count_times_ s') (nack_byte_count_ s').
Proof.
  intros (Hlt & Hlc & Hsorted & Htimes & Hcounts) Hmono Hnow. cbn zeta.
  assert (Htimes' : Forall (fun t => 0 <= t <= now) (nack_byte_count_times_ s)).
  { eapply Forall_impl; [exact Htimes|]. cbn. intros; lia. }
  unfold UpdateNACKBitRate.
  destruct (Z.ltb_spec 0 bytes) as [Hbytes|Hbytes]; [|done].
  destruct (Z.eqb_spec now 0) as [Hzero|Hnz].
  { cbn. split; [done|]. split; [by rewrite length_insert|].
    split; [done|]. split; [done|].
    apply Forall_insert; [done|]. unfold u32. apply Z.mod_pos_bound. lia. }
  destruct (nack_byte_count_times_ s) as [|t0 times] eqn:Ets;
    [discriminate Hlt|].
  destruct (nack_byte_count_ s) as [|c0 counts] eqn:Ecs;
    [discriminate Hlc|].
  cbn [lookup list_lookup default from_option id].
  assert (Hnew : forall (times' counts' : list Z),
             length times' = NACK_BYTECOUNT_SIZE ->
             length counts' = NACK_BYTECOUNT_SIZE ->
             (exists rest, times' = now :: rest
                /\ Forall (fun t => 0 <= t <= now0) rest
                /\ (forall i j ti tj,
                       rest !! i = Some ti -> rest !! j = Some tj ->
                       (i <= j)%nat -> tj <= ti)) ->
             Forall (fun c => 0 <= c) counts' ->
             nack_ring_ordered now times' counts').
  { intros times' counts' Hl1 Hl2 (rest & -> & Hrest & Hrs) Hc'.
    split; [done|]. split; [done|]. split; [|split; [|done]].
    - intros [|i] [|j] ti tj Hi Hj Hij; cbn in Hi, Hj; simplify_eq; try lia.
      + pose proof (Forall_lookup_1 _ _ _ _ Hrest Hj) as Hr. cbn in Hr. lia.
      + eapply Hrs; [exact Hi | exact Hj | lia].
    - constructor; [lia|]. eapply Forall_impl; [exact Hrest|].
      cbn. intros; lia. }
  destruct (Z.eqb_spec t0 0) as [Ht0|Ht0].
  - cbn [nack_byte_count_times_ nack_byte_count_
         set_nack_byte_count_times_ set_nack_byte_count_].
    rewrite ?Ets, ?Ecs. cbn [insert list_insert].
    apply Hnew; [done|done| |].
    + exists times. inversion Htimes; subst. split; [done|]. split; [done|].
      intros i j ti tj Hi Hj Hij.
      apply (Hsorted (S i) (S j) ti tj Hi Hj ltac:(lia)).
    + inversion Hcounts; subst. constructor; [lia|done].
  - cbn [nack_byte_count_times_ nack_byte_count_
         set_nack_byte_count_times_ set_nack_byte_count_].
    rewrite ?Ets, ?Ecs.
    rewrite !UpdateNACKBitRate_shift_ring by done.
    apply Hnew.
    + cbn [length]. rewrite length_take, Hlt. unfold NACK_BYTECOUNT_SIZE. lia.
    + cbn [length]. rewrite length_take, Hlc. unfold NACK_BYTECOUNT_SIZE. lia.
    + eexists. split; [reflexivity|]. split; [by apply Forall_take|].
      intros i j ti tj Hi Hj Hij.
      apply lookup_take_Some in Hi as [Hi _].
      apply lookup_take_Some in Hj as [Hj _].
      by eapply Hsorted.
    + constructor; [lia|]. by apply Forall_take.
Qed.

Lemma nack_ring_ordered_later now0 now times counts :
  nack_ring_ordered now0 times counts -> now0 <= now ->
  nack_ring_ordered now times counts.
Proof.
  intros (Hlt & Hlc & Hsorted & Htimes & Hcounts) Hmono.
  repeat split; try done.
  eapply Forall_impl; [exact Htimes|]. cbn. intros; lia.
Qed.

Lemma new_RTPSender_ring_ordered c audio clock tick db (h : H) now :
  0 <= now ->
  let s := new_RTPSender c audio clock tick db h in
  nack_ring_ordered now (nack_byte_count_times_ s) (nack_byte_count_ s).
Proof.
  intros Hnow. cbn -[replicate NACK_BYTECOUNT_SIZE].
  split; [apply length_replicate|]. split; [apply length_replicate|].
  split; [|split].
  - intros i j ti tj [-> _]%lookup_replicate [-> _]%lookup_replicate _. done.
  - apply Forall_replicate. lia.
  - by apply Forall_replicate.
Qed.
End Nack.

(** With a target of 100 kbit/s and 20000 bytes resent 100 ms ago the gate
    is closed. *)
Lemma ProcessNACKBitRate_gate_witness :
  ProcessNACKBitRate sample_nack_sender 1500 = false.
Proof.
  destruct (ProcessNACKBitRate_gate sample_nack_sender 1500) as (Hgate & _).
  - apply (nack_ring_ordered_later 1400); [|lia].
    apply (UpdateNACKBitRate_keeps_order
             (SetTargetBitrate sample_video_sender 100000) 20000 0 1400);
      [|lia|lia].
    pose proof (new_RTPSender_ring_ordered sample_collab false 1500 1500 ∅
                  RTPPacketHistory.empty 0 ltac:(lia)) as Hnew.
    cbn zeta in Hnew. fold sample_video_sender in Hnew.
    revert Hnew. generalize sample_video_sender. intros s Hnew. exact Hnew.
  - lia.
  - vm_compute. split; [discriminate | reflexivity].
  - vm_compute. reflexivity.
  - vm_compute. reflexivity.
  - rewrite Hgate. vm_compute. reflexivity.
Defined.

(** ** The NACK response loop *)

Section NackLoop.
Context {St : Type} (resend : St -> Z -> Z -> St * Z).
Variables (avg_rtt target_bitrate : Z).

Let min_resend_time := u32 (5 + avg_rtt).
Let target_bytes := Z.shiftr (u32 (u32 (target_bitrate / 1000) * avg_rtt)) 3.
Let stops (c : ResendCall St) (acc : Z) : bool :=
  (rc_result c <? 0)
  || ((0 <? rc_result c) && negb (target_bitrate =? 0)
      && negb (avg_rtt =? 0) && (target_bytes <? acc)).

(** The logged loop makes the same calls as the loop itself, and the log
    obeys the loop's rules; stated for a run that starts anywhere. *)
Lemma OnReceivedNACK_loop_logged nack :
  forall s log acc,
    let run :=
      OnReceivedNACK_loop (logged resend) (s, log) nack avg_rtt
        target_bitrate acc in
    exists calls,
      run.1.2 = log ++ calls
      /\ OnReceivedNACK_loop resend s nack avg_rtt target_bitrate acc
         = (run.1.1, run.2)
      /\ run.2 = bytes_re_sent_after acc calls
      /\ (calls = [] -> run.1.1 = s /\ nack = [])
      /\ (forall c, calls !! 0%nat = Some c -> rc_state c = s)
      /\ (forall i c,
            calls !! i = Some c ->
            nack !! i = Some (rc_packet_id c)
            /\ rc_min_resend_time c = min_resend_time
            /\ resend (rc_state c) (rc_packet_id c) min_resend_time
               = (default run.1.1 (rc_state <$> calls !! S i), rc_result c)
            /\ (if stops c (bytes_re_sent_after acc (take (S i) calls))
                then length calls = S i
                else (S i < length nack)%nat -> (S i < length calls)%nat)).
Proof.
  induction nack as [|it rest IH]; intros s log acc; cbn zeta.
  - exists []. cbn. rewrite app_nil_r. repeat split; try done.
  - cbn [OnReceivedNACK_loop]. fold min_resend_time target_bytes.
    destruct (resend s it min_resend_time) as [s1 r] eqn:Hresend.
    set (c := {| rc_state := s; rc_packet_id := it;
                 rc_min_resend_time := min_resend_time; rc_result := r |}).
    assert (Hlogged : logged resend (s, log) it min_resend_time
                      = (s1, log ++ [c], r))
      by (unfold logged; cbn [fst snd]; by rewrite Hresend).
    rewrite !Hlogged.
    (* the two ways the loop goes on or ends after this call *)
    assert (Hstop : forall acc1,
               acc1 = (if 0 <? r then u32 (acc + r) else acc) ->
               stops c acc1 = true ->
               exists calls,
                 log ++ [c] = log ++ calls
                 /\ (s1, acc1) = (s1, acc1)
                 /\ acc1 = bytes_re_sent_after acc calls
                 /\ (calls = [] -> s1 = s /\ it :: rest = [])
                 /\ (forall c', calls !! 0%nat = Some c' -> rc_state c' = s)
                 /\ (forall i c',
                       calls !! i = Some c' ->
                       (it :: rest) !! i = Some (rc_packet_id c')
                       /\ rc_min_resend_time c' = min_resend_time
                       /\ resend (rc_state c') (rc_packet_id c')
                            min_resend_time
                          = (default s1 (rc_state <$> calls !! S i),
                             rc_result c')
                       /\ (if stops c' (bytes_re_sent_after acc
                                          (take (S i) calls))
                           then length calls = S i
                           else (S i < length (it :: rest))%nat ->
                                (S i < length calls)%nat))).
    { intros acc1 Hacc1 Hst. exists [c]. split; [done|]. split; [done|].
      split; [by subst acc1|]. split; [done|].
      split; [by intros c' [= <-]|].
      intros [|i] c' Hc'; [|done]. injection Hc' as <-.
      split; [done|]. split; [done|]. split; [done|].
      cbn [take bytes_re_sent_after foldl rc_result c].
      fold c. rewrite <- Hacc1, ?take_0. cbn [foldl]. rewrite Hst. done. }
    assert (Hgo : forall acc1,
               acc1 = (if 0 <? r then u32 (acc + r) else acc) ->
               stops c acc1 = false ->
               let run :=
                 OnReceivedNACK_loop (logged resend) (s1, log ++ [c]) rest
                   avg_rtt target_bitrate acc1 in
               exists calls,
                 run.1.2 = log ++ calls
                 /\ OnReceivedNACK_loop resend s1 rest avg_rtt
                      target_bitrate acc1 = (run.1.1, run.2)
                 /\ run.2 = bytes_re_sent_after acc calls
                 /\ (calls = [] -> run.1.1 = s /\ it :: rest = [])
                 /\ (forall c', calls !! 0%nat = Some c' -> rc_state c' = s)
                 /\ (forall i c',
                       calls !! i = Some c' ->
                       (it :: rest) !! i = Some (rc_packet_id c')
                       /\ rc_min_resend_time c' = min_resend_time
                       /\ resend (rc_state c') (rc_packet_id c')
                            min_resend_time
                          = (default run.1.1 (rc_state <$> calls !! S i),
                             rc_result c')
                       /\ (if stops c' (bytes_re_sent_after acc
                                          (take (S i) calls))
                           then length calls = S i
                           else (S i < length (it :: rest))%nat ->
                                (S i < length calls)%nat))).
    { intros acc1 Hacc1 Hst. cbn zeta.
      destruct (IH s1 (log ++ [c]) acc1)
        as (calls & Hlog & Hplain & Hbytes & Hnil & Hhead & Hcalls).
      exists (c :: calls).
      split; [by rewrite Hlog, <- app_assoc|]. split; [done|].
      split; [cbn [bytes_re_sent_after foldl rc_result c]; fold c;
              by rewrite <- Hacc1|].
      split; [done|]. split; [by intros c' [= <-]|].
      intros [|i] c' Hc'.
      - injection Hc' as <-. split; [done|]. split; [done|].
        split.
        + cbn [rc_state rc_packet_id rc_result c]. rewrite Hresend.
          f_equal. destruct calls as [|c1 calls1]; cbn.
          * by destruct (Hnil eq_refl) as [-> _].
          * symmetry. by apply Hhead.
        + cbn [take bytes_re_sent_after foldl rc_result c]. fold c.
          rewrite <- Hacc1, take_0. cbn [foldl]. rewrite Hst.
          cbn [length]. intros Hlt.
          destruct calls as [|c1 calls1]; cbn [length]; [|lia].
          destruct (Hnil eq_refl) as [_ ->]. cbn in Hlt. lia.
      - cbn [lookup list_lookup] in Hc' |- *.
        destruct (Hcalls i c' Hc') as (Hn & Hmin & Hres & Hrule).
        split; [done|]. split; [done|]. split; [done|].
        cbn [take bytes_re_sent_after foldl rc_result c]. fold c.
        rewrite <- Hacc1. fold (bytes_re_sent_after acc1 (take (S i) calls)).
        cbn [length]. destruct (stops c' _); [lia|]. lia. }
    (* case analysis as in the loop *)
    unfold stops in Hstop, Hgo. cbn [rc_result c] in Hstop, Hgo.
    destruct (Z.ltb_spec 0 r) as [Hpos|Hnpos]; cbn [fst snd].
    + destruct (negb (target_bitrate =? 0) && negb (avg_rtt =? 0)) eqn:Hbw.
      * destruct (Z.ltb_spec target_bytes (u32 (acc + r))) as [Hover|Hunder];
          cbn [fst snd].
        -- apply (Hstop (u32 (acc + r)) eq_refl).
           destruct (Z.ltb_spec r 0); [lia|]. cbn [orb andb].
           apply andb_true_iff in Hbw as [-> ->]. cbn [andb].
           destruct (Z.ltb_spec target_bytes (u32 (acc + r))); [done|lia].
        -- apply (Hgo (u32 (acc + r)) eq_refl).
           destruct (Z.ltb_spec r 0); [lia|]. cbn [orb andb].
           apply andb_true_iff in Hbw as [-> ->]. cbn [andb].
           destruct (Z.ltb_spec target_bytes (u32 (acc + r))); [lia|done].
      * apply (Hgo (u32 (acc + r)) eq_refl).
        destruct (Z.ltb_spec r 0); [lia|]. cbn [orb andb].
        apply andb_false_iff in Hbw as [-> | ->]; cbn [andb]; [done|].
        by rewrite andb_false_r.
    + destruct (Z.eqb_spec r 0) as [Hzero|Hneg]; cbn [fst snd].
      * apply (Hgo acc eq_refl).
        destruct (Z.ltb_spec r 0); [lia|]. done.
      * apply (Hstop acc eq_refl).
        destruct (Z.ltb_spec r 0); [done|lia].
Qed.
End NackLoop.

Section NackCalls.
Context {H : Type} `{PacketHistoryOps H}.
Implicit Types s : RTPSender H.

End NackCalls.



(** * Further properties of the sender *)

(** Reads the members of a sender written as a chain of assignments. *)
Ltac sender_simpl :=
  cbn [collab audio_configured_ clock_ tick_ transport_log pacer_log
       rand_calls audio_red_ video_codec_type_ video_max_bitrate_
       sending_media_ max_payload_length_ packet_over_head_ payload_type_
       payload_type_map_ rtp_header_extension_map_
       transmission_time_offset_ absolute_send_time_ nack_byte_count_times_
       nack_byte_count_ packet_history_ start_timestamp_forced_
       start_timestamp_ ssrc_db_ sequence_number_forced_ ssrc_forced_ ssrc_
       ssrc_rtx_ sequence_number_ sequence_number_rtx_ timestamp_
       capture_time_ms_ last_timestamp_time_ms_ media_has_been_sent_
       last_packet_marker_bit_ num_csrcs_ csrcs_ include_csrcs_ rtx_
       payload_type_rtx_ target_bitrate_ set_clock_ set_tick_
       set_transport_log set_pacer_log set_rand_calls set_audio_red_
       set_video_codec_type_ set_video_max_bitrate_ set_sending_media_
       set_max_payload_length_ set_packet_over_head_ set_payload_type_
       set_payload_type_map_ set_rtp_header_extension_map_
       set_transmission_time_offset_ set_absolute_send_time_
       set_nack_byte_count_times_ set_nack_byte_count_ set_packet_history_
       set_start_timestamp_forced_ set_start_timestamp_ set_ssrc_db_
       set_sequence_number_forced_ set_ssrc_forced_ set_ssrc_ set_ssrc_rtx_
       set_sequence_number_ set_sequence_number_rtx_ set_timestamp_
       set_capture_time_ms_ set_last_timestamp_time_ms_
       set_media_has_been_sent_ set_last_packet_marker_bit_ set_num_csrcs_
       set_csrcs_ set_include_csrcs_ set_rtx_ set_payload_type_rtx_
       set_target_bitrate_ fst snd].

Ltac sender_simpl_in Hx :=
  cbn [collab audio_configured_ clock_ tick_ transport_log pacer_log
       rand_calls audio_red_ video_codec_type_ video_max_bitrate_
       sending_media_ max_payload_length_ packet_over_head_ payload_type_
       payload_type_map_ rtp_header_extension_map_
       transmission_time_offset_ absolute_send_time_ nack_byte_count_times_
       nack_byte_count_ packet_history_ start_timestamp_forced_
       start_timestamp_ ssrc_db_ sequence_number_forced_ ssrc_forced_ ssrc_
       ssrc_rtx_ sequence_number_ sequence_number_rtx_ timestamp_
       capture_time_ms_ last_timestamp_time_ms_ media_has_been_sent_
       last_packet_marker_bit_ num_csrcs_ csrcs_ include_csrcs_ rtx_
       payload_type_rtx_ target_bitrate_ set_clock_ set_tick_
       set_transport_log set_pacer_log set_rand_calls set_audio_red_
       set_video_codec_type_ set_video_max_bitrate_ set_sending_media_
       set_max_payload_length_ set_packet_over_head_ set_payload_type_
       set_payload_type_map_ set_rtp_header_extension_map_
       set_transmission_time_offset_ set_absolute_send_time_
       set_nack_byte_count_times_ set_nack_byte_count_ set_packet_history_
       set_start_timestamp_forced_ set_start_timestamp_ set_ssrc_db_
       set_sequence_number_forced_ set_ssrc_forced_ set_ssrc_ set_ssrc_rtx_
       set_sequence_number_ set_sequence_number_rtx_ set_timestamp_
       set_capture_time_ms_ set_last_timestamp_time_ms_
       set_media_has_been_sent_ set_last_packet_marker_bit_ set_num_csrcs_
       set_csrcs_ set_include_csrcs_ set_rtx_ set_payload_type_rtx_
       set_target_bitrate_ fst snd] in Hx.

(** Case analysis on the conditions of a configuration call, reading the
    members as it goes. *)
Ltac sender_cases :=
  repeat (case_match; sender_simpl;
          repeat match goal with
                 | Hx : _ = _ |- _ => progress (sender_simpl_in Hx)
                 end).

(** * Further properties of the sender *)

(** ** The payload registry as a map *)

Section Registry.
Context {H : Type} `{PacketHistoryOps H}.
Implicit Types s : RTPSender H.

(** Registering a payload-type number that is free and deregistering it
    again gives back the registry as it was, whether or not the
    packetizer created an entry; the second call returns 0 exactly when
    an entry had been created. *)
Theorem RegisterPayload_DeRegisterSendPayload s payload_name payload_number
    frequency channels rate :
  payload_type_map_ s !! payload_number = None ->
  let s1 :=
    (RegisterPayload s payload_name payload_number frequency channels
       rate).1 in
  let '(s2, ret) := DeRegisterSendPayload s1 payload_number in
  payload_type_map_ s2 = payload_type_map_ s
  /\ (ret = 0 \/ ret = -1)
  /\ (ret = 0 <-> is_Some (payload_type_map_ s1 !! payload_number)).
Proof.
  intros Hfree. cbn zeta. unfold RegisterPayload. rewrite Hfree.
  destruct (if audio_configured_ s then _ else _) as [ret_val [p|]];
    cbn [fst]; unfold DeRegisterSendPayload.
  - rewrite payload_type_map_set_payload_type_map_, lookup_insert_eq.
    rewrite !payload_type_map_set_payload_type_map_.
    rewrite delete_insert_eq, delete_id by done.
    split; [done|]. split; [by left|]. split; [by eexists|done].
  - rewrite Hfree. split; [done|]. split; [by right|].
    split; [done|]. intros [? ?]; done.
Qed.

(** A payload type can be deregistered once: whatever the first call did,
    a second call for the same number returns -1 and changes nothing. *)
Theorem DeRegisterSendPayload_twice s payload_type :
  let s1 := (DeRegisterSendPayload s payload_type).1 in
  DeRegisterSendPayload s1 payload_type = (s1, -1).
Proof.
  cbn zeta. unfold DeRegisterSendPayload.
  destruct (payload_type_map_ s !! payload_type) eqn:Hlookup; cbn [fst].
  - by rewrite payload_type_map_set_payload_type_map_, lookup_delete_eq.
  - by rewrite Hlookup.
Qed.

(** [CheckPayloadType] returns 0 or -1. It returns 0 exactly for a
    non-negative type that is the RED type of an audio sender, the type
    in use, or a registered type; on -1 the sender is unchanged, and
    after 0 the type is the one in use unless it was accepted as RED. *)
Theorem CheckPayloadType_result s payload_type :
  let '(s', ret, _) := CheckPayloadType s payload_type in
  let red :=
    audio_configured_ s = true /\ audio_red_ s = Some payload_type in
  (ret = 0 \/ ret = -1)
  /\ (ret = 0 <->
      0 <= payload_type
      /\ (red \/ payload_type_ s = payload_type
          \/ is_Some (payload_type_map_ s !! payload_type)))
  /\ (ret = -1 -> s' = s)
  /\ (ret = 0 -> red \/ payload_type_ s' = payload_type).
Proof.
  unfold CheckPayloadType.
  destruct (Z.ltb_spec payload_type 0) as [Hneg|Hpos];
    [cbn zeta; intuition (try done; lia)|].
  destruct (audio_configured_ s) eqn:Haudio; cbn [andb negb].
  - destruct (audio_red_ s) as [red_pl_type|] eqn:Hred;
      [destruct (Z.eqb_spec red_pl_type payload_type) as [->|Hne];
         [cbn zeta; intuition (try done; lia)|]|];
      (destruct (Z.eqb_spec (payload_type_ s) payload_type) as [Hact|Hact];
         [cbn zeta; intuition (try done; lia)|]);
      (destruct (payload_type_map_ s !! payload_type) as [payload|] eqn:Hl;
         [cbn [audio_configured_ set_payload_type_];
          rewrite Haudio, andb_false_r|]; cbn zeta;
         unfold is_Some;
         intuition (try done; try lia; try congruence; eauto);
         try (by destruct_and?; destruct_or?; simplify_eq;
             repeat match goal with
                    | Hx : exists _, _ |- _ => destruct Hx
                    end)).
  - destruct (Z.eqb_spec (payload_type_ s) payload_type) as [Hact|Hact];
      [cbn zeta; intuition (try done; lia)|].
    destruct (payload_type_map_ s !! payload_type) as [payload|] eqn:Hl.
    + cbn [negb andb audio_configured_ set_payload_type_]. rewrite Haudio.
      destruct (audio payload); cbn [negb andb]; cbn zeta;
        unfold is_Some; intuition (try done; try lia; eauto).
    + cbn zeta. unfold is_Some.
      intuition (try done; try lia; try congruence; eauto);
        try (by destruct_and?; destruct_or?; simplify_eq;
             repeat match goal with
                    | Hx : exists _, _ |- _ => destruct Hx
                    end).
Qed.

(** On a video sender, [CheckPayloadType] for a registered video type
    that is not yet in use returns 0, makes it the type in use, and takes
    the codec and the maximum bit rate from the registry entry; asking
    again for the same type returns 0 with the same codec and changes
    nothing. *)
Theorem CheckPayloadType_selects_video_codec s payload_type payload :
  audio_configured_ s = false ->
  0 <= payload_type ->
  payload_type_ s <> payload_type ->
  payload_type_map_ s !! payload_type = Some payload ->
  audio payload = false ->
  let '(s1, ret, video_type) := CheckPayloadType s payload_type in
  ret = 0
  /\ video_type = Some (Video_videoCodecType payload)
  /\ SendPayloadType s1 = payload_type
  /\ video_codec_type_ s1 = Video_videoCodecType payload
  /\ video_max_bitrate_ s1 = Video_maxRate payload
  /\ CheckPayloadType s1 payload_type
     = (s1, 0, Some (Video_videoCodecType payload)).
Proof.
  intros Haudio Hpos Hact Hl Hvideo. unfold CheckPayloadType at 1.
  destruct (Z.ltb_spec payload_type 0); [lia|].
  rewrite Haudio. cbn [andb negb].
  destruct (Z.eqb_spec (payload_type_ s) payload_type); [done|].
  rewrite Hl. cbn zeta. cbn [audio_configured_ set_payload_type_].
  rewrite Hvideo, Haudio. cbn [andb negb].
  repeat (split; [done|]).
  unfold CheckPayloadType.
  destruct (Z.ltb_spec payload_type 0); [lia|].
  cbn [audio_configured_ payload_type_ video_codec_type_
       set_video_max_bitrate_ set_video_codec_type_ set_payload_type_].
  rewrite Haudio, Z.eqb_refl. done.
Qed.
End Registry.

Lemma RegisterPayload_DeRegisterSendPayload_witness :
  let s1 := (RegisterPayload sample_audio_sender "PCMU" 0 8000 1 64000).1 in
  let '(s2, ret) := DeRegisterSendPayload s1 0 in
  payload_type_map_ s2 = payload_type_map_ sample_audio_sender
  /\ (ret = 0 \/ ret = -1)
  /\ (ret = 0 <-> is_Some (payload_type_map_ s1 !! 0)).
Proof.
  apply (RegisterPayload_DeRegisterSendPayload sample_audio_sender "PCMU" 0
           8000 1 64000).
  vm_compute. reflexivity.
Defined.

Lemma CheckPayloadType_selects_video_codec_witness :
  let '(s1, ret, video_type) := CheckPayloadType sample_vp8_sender 100 in
  ret = 0
  /\ video_type = Some kRtpVideoGeneric
  /\ SendPayloadType s1 = 100
  /\ video_codec_type_ s1 = kRtpVideoGeneric
  /\ video_max_bitrate_ s1 = 2000000
  /\ CheckPayloadType s1 100 = (s1, 0, Some kRtpVideoGeneric).
Proof.
  apply (CheckPayloadType_selects_video_codec sample_vp8_sender 100
           {| name := "VP8"; typeSpecific := Video kRtpVideoGeneric 2000000 |}).
  - vm_compute. reflexivity.
  - lia.
  - vm_compute. discriminate.
  - vm_compute. reflexivity.
  - reflexivity.
Defined.

(** ** Snapshots and contributing sources *)

Section Snapshots.
Context {H : Type} `{PacketHistoryOps H}.
Implicit Types s : RTPSender H.

(** [GetRtpState] reads back exactly what [SetRtpState] stored, and
    restoring a sender's own snapshot changes nothing but the two flags
    that mark the sequence number and the start timestamp as set from
    outside. *)
Theorem GetRtpState_SetRtpState s rtp_state :
  GetRtpState (SetRtpState s rtp_state) = rtp_state
  /\ SetRtpState s (GetRtpState s)
     = set_sequence_number_forced_ true (set_start_timestamp_forced_ true s).
Proof.
  split.
  - by destruct rtp_state.
  - by destruct s.
Qed.

(** [CSRCs] gives back the count and the identifiers that [SetCSRCs]
    stored, and leaves the rest of the caller's array alone. *)
Theorem CSRCs_SetCSRCs s arr_of_csrc arr_length out :
  0 <= arr_length <= kRtpCsrcSize ->
  (Z.to_nat arr_length <= length arr_of_csrc)%nat ->
  let '(out', n) := CSRCs (SetCSRCs s arr_of_csrc arr_length) out in
  n = arr_length
  /\ take (Z.to_nat arr_length) out' = take (Z.to_nat arr_length) arr_of_csrc
  /\ drop (Z.to_nat arr_length) out' = drop (Z.to_nat arr_length) out.
Proof.
  intros Hlen Harr. unfold CSRCs, SetCSRCs.
  cbn [num_csrcs_ csrcs_ set_num_csrcs_ set_csrcs_].
  rewrite Z.min_l by lia.
  set (k := Z.to_nat arr_length) in *.
  assert (Hk : k = length (take k arr_of_csrc)) by (rewrite length_take; lia).
  rewrite (take_app_length' (take k arr_of_csrc)) by done.
  split; [done|]. split.
  - by rewrite take_app_length'.
  - by rewrite drop_app_length'.
Qed.
End Snapshots.

Lemma CSRCs_SetCSRCs_witness :
  let '(out', n) :=
    CSRCs (SetCSRCs sample_video_sender [11; 22; 33] 2) (replicate 15 0) in
  n = 2 /\ take 2 out' = [11; 22] /\ drop 2 out' = replicate 13 0.
Proof.
  apply (CSRCs_SetCSRCs sample_video_sender [11; 22; 33] 2 (replicate 15 0)).
  - unfold kRtpCsrcSize. lia.
  - cbn. lia.
Defined.

(** ** Sending leaves the configuration alone *)

Section Sending.
Context {H : Type} `{PacketHistoryOps H}.
Implicit Types s : RTPSender H.

(** Runs the frame lemma [lem] on the call of [f] in the goal and names
    the call's result. *)
Ltac frame_call f lem Hf :=
  match goal with
  | |- context [f ?a ?b ?c ?d ?e ?g] =>
    pose proof (lem a b c d e g) as Hf; destruct (f a b c d e g)
  | |- context [f ?a ?b ?c ?d] =>
    pose proof (lem a b c d) as Hf; destruct (f a b c d)
  | |- context [f ?a ?b ?c] =>
    pose proof (lem a b c) as Hf; destruct (f a b c)
  end.

Lemma SendPacketToNetwork_Configuration s packet size :
  Configuration (SendPacketToNetwork s packet size).1 = Configuration s.
Proof. unfold SendPacketToNetwork. by destruct (transport_ (collab s)). Qed.

Lemma BuildRtxPacket_Configuration s buffer length buffer_rtx :
  Configuration (BuildRtxPacket s buffer length buffer_rtx).1.1
  = Configuration s.
Proof. reflexivity. Qed.

Lemma PrepareAndSendPacket_Configuration s buffer length capture_time_ms
    send_over_rtx is_retransmit :
  Configuration
    (PrepareAndSendPacket s buffer length capture_time_ms send_over_rtx
       is_retransmit).1
  = Configuration s.
Proof.
  unfold PrepareAndSendPacket.
  set (r := if send_over_rtx then _ else _).
  assert (Hr : Configuration r.1.1 = Configuration s)
    by (subst r; by destruct send_over_rtx).
  destruct r as [[s1 buffer_to_send] length1]. cbn [fst] in Hr.
  assert (Hext : rtp_header_extension_map_ s1 = rtp_header_extension_map_ s)
    by (unfold Configuration in Hr; congruence).
  frame_call (@SendPacketToNetwork H) SendPacketToNetwork_Configuration Hsend.
  cbn [fst] in Hsend |- *. rewrite <- Hr, <- Hsend. by case_match.
Qed.

Lemma BuildPaddingPacket_fill_Configuration n s packet pos :
  Configuration (BuildPaddingPacket_fill n s packet pos).1 = Configuration s.
Proof.
  revert s packet pos. induction n as [|n IH]; intros s packet pos; [done|].
  cbn [BuildPaddingPacket_fill]. unfold rand at 1. cbn zeta iota beta.
  by rewrite IH.
Qed.

Lemma BuildPaddingPacket_Configuration s packet header_length bytes :
  Configuration (BuildPaddingPacket s packet header_length bytes).1.1
  = Configuration s.
Proof.
  unfold BuildPaddingPacket.
  frame_call (@BuildPaddingPacket_fill H)
    BuildPaddingPacket_fill_Configuration Hfill.
  exact Hfill.
Qed.

Lemma SendPadData_select_Configuration s s1 ssrc sequence_number over_rtx :
  SendPadData_select s = Some (s1, ssrc, sequence_number, over_rtx) ->
  Configuration s1 = Configuration s.
Proof.
  unfold SendPadData_select. intros Hsel.
  repeat case_match; simplify_eq; done.
Qed.

Lemma SendPadData_loop_Configuration fuel s payload_type timestamp
    capture_time_ms bytes bytes_sent s' r :
  SendPadData_loop fuel s payload_type timestamp capture_time_ms bytes
    bytes_sent = Some (s', r) ->
  Configuration s' = Configuration s.
Proof.
  revert s bytes bytes_sent.
  induction fuel as [|fuel IH]; intros s bytes bytes_sent;
    cbn [SendPadData_loop].
  - destruct (bytes <=? 0); [|done]. by intros [= <- _].
  - destruct (bytes <=? 0); [by intros [= <- _]|].
    destruct (SendPadData_select s)
      as [[[[s1 ssrc] sequence_number] over_rtx]|] eqn:Hsel;
      [|by intros [= <- _]].
    apply SendPadData_select_Configuration in Hsel.
    destruct (CreateRTPHeader _ _ _ _ _ _ _ _ _)
      as [padding_packet header_length].
    frame_call (@BuildPaddingPacket H) BuildPaddingPacket_Configuration Hpad.
    destruct p as [s2 packet2]. cbn [fst] in Hpad.
    frame_call (@SendPacketToNetwork H) SendPacketToNetwork_Configuration
      Hsend.
    cbn [fst] in Hsend.
    destruct b; cbn [negb].
    + intros Hloop. apply IH in Hloop. congruence.
    + intros [= <- _]. congruence.
Qed.

Lemma SendRedundantPayloads_loop_Configuration fuel s bytes_to_send
    bytes_left s' r :
  SendRedundantPayloads_loop fuel s bytes_to_send bytes_left = Some (s', r) ->
  Configuration s' = Configuration s.
Proof.
  revert s bytes_left.
  induction fuel as [|fuel IH]; intros s bytes_left;
    cbn [SendRedundantPayloads_loop].
  - destruct (bytes_left <=? 0); [|done]. by intros [= <- _].
  - destruct (bytes_left <=? 0); [by intros [= <- _]|].
    destruct (GetBestFittingPacket _ _)
      as [[[buffer length] capture_time_ms]|]; [|by intros [= <- _]].
    pose proof (PrepareAndSendPacket_Configuration s buffer length
                  capture_time_ms true false) as Hsend.
    destruct (PrepareAndSendPacket _ _ _ _ _ _) as [s1 ok].
    cbn [fst] in Hsend.
    destruct ok; cbn [negb].
    + intros Hloop. apply IH in Hloop. congruence.
    + intros [= <- _]. congruence.
Qed.

Lemma TimeToSendPadding_Configuration fuel s bytes s' r :
  TimeToSendPadding fuel s bytes = Some (s', r) ->
  Configuration s' = Configuration s.
Proof.
  unfold TimeToSendPadding, SendRedundantPayloads, SendPadData.
  destruct (sending_media_ s) eqn:Hmedia; cbn [negb];
    [|by intros [= <- _]].
  destruct (if 0 <? last_timestamp_time_ms_ s then _ else _)
    as [timestamp capture_time_ms].
  set (first := if negb (Z.land (rtx_ s) kRtxRedundantPayloads =? 0)
                then _ else _).
  destruct first as [[s1 bytes_sent]|] eqn:Hfirst; [|done].
  assert (H1 : Configuration s1 = Configuration s).
  { subst first. case_match; [|by simplify_eq].
    by eapply SendRedundantPayloads_loop_Configuration. }
  destruct (0 <? bytes - bytes_sent); [|intros [= <- _]; done].
  assert (Hmedia1 : sending_media_ s1 = true)
    by (unfold Configuration in H1; congruence).
  rewrite Hmedia1. cbn [negb].
  destruct (SendPadData_loop _ _ _ _ _ _ _) as [[s2 padding_sent]|] eqn:Hloop;
    [|done].
  intros [= <- _]. apply SendPadData_loop_Configuration in Hloop. congruence.
Qed.

Lemma ReSendPacket_Configuration s packet_id min_resend_time :
  Configuration (ReSendPacket s packet_id min_resend_time).1
  = Configuration s.
Proof.
  unfold ReSendPacket.
  destruct (GetPacketAndSetSendTime _ _ _ _ _)
    as [h [[[data_buffer length] capture_time_ms]|]]; [|done].
  assert (Hsend : forall s0,
             Configuration
               (let '(s1, ok) :=
                  PrepareAndSendPacket s0 data_buffer length capture_time_ms
                    (0 <? Z.land (rtx_ s0) kRtxRetransmitted) true in
                (s1, if ok then length else -1)).1
             = Configuration s0).
  { intros s0.
    pose proof (PrepareAndSendPacket_Configuration s0 data_buffer length
                  capture_time_ms (0 <? Z.land (rtx_ s0) kRtxRetransmitted)
                  true) as Hp.
    by destruct (PrepareAndSendPacket _ _ _ _ _ _). }
  cbn zeta.
  cbn [collab set_packet_history_].
  destruct (paced_sender_ (collab s)) as [pacer|]; [|by rewrite Hsend].
  destruct (RtpUtility.Parse data_buffer length) as [header|]; [|done].
  unfold paced_sender_SendPacket.
  destruct (pacer _ _); cbn [negb]; [by rewrite Hsend|done].
Qed.

Lemma OnReceivedNACK_loop_Configuration s nack avg_rtt target_bitrate
    bytes_re_sent :
  Configuration
    (OnReceivedNACK_loop ReSendPacket s nack avg_rtt target_bitrate
       bytes_re_sent).1
  = Configuration s.
Proof.
  revert s bytes_re_sent.
  induction nack as [|it rest IH]; intros s bytes_re_sent; [done|].
  cbn [OnReceivedNACK_loop].
  pose proof (ReSendPacket_Configuration s it (u32 (5 + avg_rtt))) as Hre.
  destruct (ReSendPacket _ _ _) as [s1 bytes_sent]. cbn [fst] in Hre.
  repeat case_match; rewrite ?IH; done.
Qed.

Lemma UpdateNACKBitRate_Configuration s bytes now :
  Configuration (UpdateNACKBitRate s bytes now) = Configuration s.
Proof. unfold UpdateNACKBitRate. by repeat case_match. Qed.

Lemma OnReceivedNACK_Configuration s nack avg_rtt :
  Configuration (OnReceivedNACK s nack avg_rtt) = Configuration s.
Proof.
  unfold OnReceivedNACK.
  destruct (ProcessNACKBitRate _ _); cbn [negb]; [|done].
  pose proof (OnReceivedNACK_loop_Configuration s nack avg_rtt
                (GetTargetBitrate s) 0) as Hloop.
  destruct (OnReceivedNACK_loop _ _ _ _ _ _) as [s1 bytes_re_sent].
  cbn [fst] in Hloop.
  case_match; [|done]. by rewrite UpdateNACKBitRate_Configuration.
Qed.

Lemma TimeToSendPacket_Configuration s sequence_number capture_time_ms
    retransmission :
  Configuration
    (TimeToSendPacket s sequence_number capture_time_ms retransmission).1
  = Configuration s.
Proof.
  unfold TimeToSendPacket.
  destruct (GetPacketAndSetSendTime _ _ _ _ _)
    as [h [[[data_buffer length] stored_time_ms]|]]; [|done].
  by rewrite PrepareAndSendPacket_Configuration.
Qed.

Lemma SendToNetwork_Configuration s buffer payload_length rtp_header_length
    capture_time_ms storage priority :
  Configuration
    (SendToNetwork s buffer payload_length rtp_header_length capture_time_ms
       storage priority).1.1
  = Configuration s.
Proof.
  unfold SendToNetwork.
  destruct (PutRTPPacket _ _ _ _ _ _ _) as [h put].
  destruct (put =? 0); cbn [negb]; [|done].
  set (packet := UpdateAbsoluteSendTime _ _ _ _ _).
  assert (Htransmit : forall s0,
             Configuration
               (let '(s1, ok) :=
                  SendPacketToNetwork s0 packet
                    (u32 (payload_length + rtp_header_length)) in
                if negb ok then (s1, packet, -1)
                else (set_media_has_been_sent_ true s1, packet, 0)).1.1
             = Configuration s0).
  { intros s0.
    pose proof (SendPacketToNetwork_Configuration s0 packet
                  (u32 (payload_length + rtp_header_length))) as Hp.
    destruct (SendPacketToNetwork _ _ _) as [s1 []]; cbn [negb fst];
      by rewrite <- Hp. }
  cbn zeta. cbn [collab set_packet_history_].
  destruct (paced_sender_ (collab s)) as [pacer|];
    [|by rewrite Htransmit].
  unfold paced_sender_SendPacket.
  destruct storage; try (by rewrite Htransmit);
    (destruct (pacer _ _); cbn [negb]; [by rewrite Htransmit|done]).
Qed.

Lemma BuildRTPheader_Configuration s data_buffer payload_type marker_bit
    capture_timestamp capture_time_ms timestamp_provided inc_sequence_number :
  Configuration
    (BuildRTPheader s data_buffer payload_type marker_bit capture_timestamp
       capture_time_ms timestamp_provided inc_sequence_number).1.1
  = Configuration s.
Proof.
  unfold BuildRTPheader.
  destruct (CreateRTPHeader _ _ _ _ _ _ _ _ _). by destruct timestamp_provided.
Qed.

Lemma step_sending_Configuration op s s' :
  is_sending_op op = true -> step op s = Some s' ->
  Configuration s' = Configuration s.
Proof.
  destruct op; try discriminate; intros _; cbn [step].
  - destruct (TimeToSendPadding _ _ _) as [[s1 r]|] eqn:Hpad; [|done].
    intros [= <-]. by eapply TimeToSendPadding_Configuration.
  - intros [= <-]. apply ReSendPacket_Configuration.
  - intros [= <-]. apply OnReceivedNACK_Configuration.
  - intros [= <-]. apply TimeToSendPacket_Configuration.
  - intros [= <-]. apply SendToNetwork_Configuration.
  - by intros [= <-].
  - intros [= <-]. apply BuildRTPheader_Configuration.
Qed.

(** No sequence of packet-building and packet-sending calls changes what
    the configuration calls set: the collaborators, the payload registry
    and the type in use, the header extensions, the SSRCs and the
    allocator's set, the CSRCs, the RTX mode, the size limits, the target
    bit rate, the start timestamp and the flags for values set from
    outside. *)
Theorem sending_keeps_Configuration ops s s' :
  forallb is_sending_op ops = true ->
  run ops s = Some s' ->
  Configuration s' = Configuration s.
Proof.
  revert s. induction ops as [|op ops IH]; intros s Hops; cbn [run].
  - by intros [= <-].
  - cbn [forallb] in Hops. apply andb_true_iff in Hops as [Hop Hops].
    destruct (step op s) as [s1|] eqn:Hstep; [|done].
    intros Hrun. rewrite (IH s1 Hops Hrun).
    by eapply step_sending_Configuration.
Qed.
End Sending.

(** ** Values set from outside *)

Section Forced.
Context {H : Type} `{PacketHistoryOps H}.
Implicit Types s : RTPSender H.

(** The configuration calls, unfolded down to the member assignments. *)
Ltac unfold_configuration_calls :=
  unfold SetTargetBitrate, SetTransmissionTimeOffset, SetAbsoluteSendTime,
    RegisterRtpHeaderExtension, DeregisterRtpHeaderExtension,
    RegisterPayload, DeRegisterSendPayload, SetMaxPayloadLength,
    SetRTXStatus, SetRtxSsrc, SetRtxPayloadType, CheckPayloadType,
    SetStorePacketsStatus, SetSendingStatus, SetSendingMediaStatus,
    SetStartTimestamp, GenerateNewSSRC, SetSSRC, SetCSRCStatus, SetCSRCs,
    SetSequenceNumber, SetRtpState, SetRtxRtpState, SetStartTimestamp,
    ssrc_db_CreateSSRC, rand;
  cbn beta iota zeta.

Lemma Configuration_fields s s' :
  Configuration s' = Configuration s ->
  max_payload_length_ s' = max_payload_length_ s
  /\ transmission_time_offset_ s' = transmission_time_offset_ s
  /\ absolute_send_time_ s' = absolute_send_time_ s
  /\ start_timestamp_forced_ s' = start_timestamp_forced_ s
  /\ start_timestamp_ s' = start_timestamp_ s
  /\ sequence_number_forced_ s' = sequence_number_forced_ s
  /\ ssrc_forced_ s' = ssrc_forced_ s
  /\ ssrc_ s' = ssrc_ s.
Proof. unfold Configuration. intros [= ]. repeat split; congruence. Qed.

Lemma step_sanity_checked op s s' :
  step op s = Some s' -> sanity_checked s -> sanity_checked s'.
Proof.
  intros Hstep (Hlen & Hoffset & Habs).
  destruct (is_sending_op op) eqn:Hop.
  { apply (step_sending_Configuration _ _ _ Hop), Configuration_fields
      in Hstep as (Hl & Ho & Ha & _).
    unfold sanity_checked. by rewrite Hl, Ho, Ha. }
  destruct op; try discriminate Hop; cbn [step] in Hstep;
    injection Hstep as <-; unfold sanity_checked;
    unfold_configuration_calls; repeat case_match; sender_simpl;
    try done.
  all: zbool; repeat match goal with
                     | Hor : _ || _ = false |- _ =>
                       apply orb_false_iff in Hor as [? ?]
                     end; zbool; unfold IP_PACKET_SIZE in *; lia.
Qed.

Lemma new_RTPSender_sanity_checked c audio clock tick db (h : H) :
  sanity_checked (new_RTPSender c audio clock tick db h).
Proof.
  unfold sanity_checked, new_RTPSender, ssrc_db_CreateSSRC, rand.
  sender_simpl. unfold IP_PACKET_SIZE. lia.
Qed.


Lemma step_forced_SSRC op s s' :
  is_SetSSRC op = false -> step op s = Some s' ->
  ssrc_forced_ s = true ->
  ssrc_ s' = ssrc_ s /\ ssrc_forced_ s' = true.
Proof.
  intros Hset Hstep Hforced.
  destruct (is_sending_op op) eqn:Hop.
  { apply (step_sending_Configuration _ _ _ Hop), Configuration_fields
      in Hstep as (_ & _ & _ & _ & _ & _ & Hf & Hs).
    split; congruence. }
  destruct op; try discriminate Hop; try discriminate Hset;
    cbn [step] in Hstep; injection Hstep as <-;
    unfold_configuration_calls; rewrite ?Hforced; cbn [negb andb];
    repeat case_match; sender_simpl; done.
Qed.

(** An SSRC set through [SetSSRC] stays: once [ssrc_forced_] is set, no
    sequence of calls other than [SetSSRC] changes the SSRC, neither
    [GenerateNewSSRC] nor stopping and restarting sending, and the flag
    stays set. *)
Theorem forced_SSRC_is_kept ops s s' :
  ssrc_forced_ s = true ->
  forallb (fun op => negb (is_SetSSRC op)) ops = true ->
  run ops s = Some s' ->
  SSRC s' = SSRC s /\ ssrc_forced_ s' = true.
Proof.
  revert s. induction ops as [|op ops IH]; intros s Hforced Hops; cbn [run].
  - by intros [= <-].
  - cbn [forallb] in Hops. apply andb_true_iff in Hops as [Hop Hops].
    apply negb_true_iff in Hop.
    destruct (step op s) as [s1|] eqn:Hstep; [|done].
    destruct (step_forced_SSRC _ _ _ Hop Hstep Hforced) as [Hs1 Hf1].
    intros Hrun. destruct (IH s1 Hf1 Hops Hrun) as [Hs' Hf'].
    unfold SSRC in *. split; congruence.
Qed.

Lemma step_forced_sequence_number op s s' :
  is_sending_op op = false -> is_SetSequenceNumber op = false ->
  is_SetRtpState op = false ->
  step op s = Some s' ->
  sequence_number_forced_ s = true ->
  sequence_number_ s' = sequence_number_ s
  /\ sequence_number_forced_ s' = true.
Proof.
  intros Hop Hset Hstate Hstep Hforced.
  destruct op; try discriminate Hop; try discriminate Hset;
    try discriminate Hstate;
    cbn [step] in Hstep; injection Hstep as <-;
    unfold_configuration_calls; sender_simpl; sender_cases;
    rewrite ?Hforced in *; done.
Qed.

(** A sequence number set from outside is not drawn again: once
    [sequence_number_forced_] is set, the calls that neither build or send
    packets nor set the sequence number leave it as it is, among them
    [SetSSRC], [GenerateNewSSRC] and [SetSendingStatus]. *)
Theorem forced_sequence_number_is_kept ops s s' :
  sequence_number_forced_ s = true ->
  forallb (fun op => negb (is_sending_op op)
                     && negb (is_SetSequenceNumber op)
                     && negb (is_SetRtpState op)) ops = true ->
  run ops s = Some s' ->
  SequenceNumber s' = SequenceNumber s /\ sequence_number_forced_ s' = true.
Proof.
  revert s. induction ops as [|op ops IH]; intros s Hforced Hops; cbn [run].
  - by intros [= <-].
  - cbn [forallb] in Hops. apply andb_true_iff in Hops as [Hop Hops].
    apply andb_true_iff in Hop as [Hop Hstate].
    apply andb_true_iff in Hop as [Hop Hset].
    apply negb_true_iff in Hop, Hset, Hstate.
    destruct (step op s) as [s1|] eqn:Hstep; [|done].
    destruct (step_forced_sequence_number _ _ _ Hop Hset Hstate Hstep Hforced)
      as [Hs1 Hf1].
    intros Hrun. destruct (IH s1 Hf1 Hops Hrun) as [Hs' Hf'].
    unfold SequenceNumber in *. split; congruence.
Qed.

Lemma step_forced_start_timestamp op s s' :
  is_forced_SetStartTimestamp op = false -> is_SetRtpState op = false ->
  step op s = Some s' ->
  start_timestamp_forced_ s = true ->
  start_timestamp_ s' = start_timestamp_ s
  /\ start_timestamp_forced_ s' = true.
Proof.
  intros Hset Hstate Hstep Hforced.
  destruct (is_sending_op op) eqn:Hop.
  { apply (step_sending_Configuration _ _ _ Hop), Configuration_fields
      in Hstep as (_ & _ & _ & Hf & Hs & _).
    split; congruence. }
  destruct op; try discriminate Hop; try discriminate Hstate;
    cbn [step] in Hstep; injection Hstep as <-;
    cbn [is_forced_SetStartTimestamp] in Hset; subst;
    unfold_configuration_calls; sender_simpl; sender_cases;
    rewrite ?Hforced in *; done.
Qed.

(** A start timestamp set with [force] stays: the unforced
    [SetStartTimestamp], which [SetSendingStatus(true)] makes on every
    start, is ignored from then on, and only a forced call or
    [SetRtpState] changes it. *)
Theorem forced_start_timestamp_is_kept ops s s' :
  start_timestamp_forced_ s = true ->
  forallb (fun op => negb (is_forced_SetStartTimestamp op)
                     && negb (is_SetRtpState op)) ops = true ->
  run ops s = Some s' ->
  StartTimestamp s' = StartTimestamp s /\ start_timestamp_forced_ s' = true.
Proof.
  revert s. induction ops as [|op ops IH]; intros s Hforced Hops; cbn [run].
  - by intros [= <-].
  - cbn [forallb] in Hops. apply andb_true_iff in Hops as [Hop Hops].
    apply andb_true_iff in Hop as [Hset Hstate].
    apply negb_true_iff in Hset, Hstate.
    destruct (step op s) as [s1|] eqn:Hstep; [|done].
    destruct (step_forced_start_timestamp _ _ _ Hset Hstate Hstep Hforced)
      as [Hs1 Hf1].
    intros Hrun. destruct (IH s1 Hf1 Hops Hrun) as [Hs' Hf'].
    unfold StartTimestamp in *. split; congruence.
Qed.
End Forced.

Lemma sending_keeps_Configuration_witness :
  Configuration sample_sent_sender = Configuration sample_video_sender.
Proof.
  apply (sending_keeps_Configuration
           [OpBuildRTPheader (replicate (Z.to_nat IP_PACKET_SIZE) 0) 100
              true 0 1000 true true;
            OpSendToNetwork sample_built.1.2 400 12 1000 kDontStore
              kNormalPriority]).
  - reflexivity.
  - unfold sample_sent_sender, sample_built. cbn [run step]. reflexivity.
Defined.


(** The SSRC 0xDEADBEEF survives a stop, a [GenerateNewSSRC] and a
    restart. *)
Lemma forced_SSRC_is_kept_witness :
  SSRC (SetSendingStatus
          (GenerateNewSSRC
             (SetSendingStatus sample_forced_ssrc_sender false 0)).1
          true 1000)
  = SSRC sample_forced_ssrc_sender.
Proof.
  apply (forced_SSRC_is_kept
           [OpSetSendingStatus false 0; OpGenerateNewSSRC;
            OpSetSendingStatus true 1000]
           sample_forced_ssrc_sender).
  - vm_compute. reflexivity.
  - reflexivity.
  - cbn [run step]. reflexivity.
Defined.

(** The sequence number 4711 survives a new SSRC, a stop and a
    [GenerateNewSSRC]. *)
Lemma forced_sequence_number_is_kept_witness :
  SequenceNumber
    (GenerateNewSSRC
       (SetSendingStatus
          (SetSSRC (SetSequenceNumber sample_video_sender 4711) 99)
          false 0)).1
  = SequenceNumber (SetSequenceNumber sample_video_sender 4711).
Proof.
  apply (forced_sequence_number_is_kept
           [OpSetSSRC 99; OpSetSendingStatus false 0; OpGenerateNewSSRC]
           (SetSequenceNumber sample_video_sender 4711)).
  - reflexivity.
  - reflexivity.
  - cbn [run step]. reflexivity.
Defined.

(** The start timestamp 5000 survives a start and an unforced
    [SetStartTimestamp]. *)
Lemma forced_start_timestamp_is_kept_witness :
  StartTimestamp
    (SetStartTimestamp
       (SetSendingStatus (SetStartTimestamp sample_video_sender 5000 true)
          true 777)
       888 false)
  = StartTimestamp (SetStartTimestamp sample_video_sender 5000 true).
Proof.
  apply (forced_start_timestamp_is_kept
           [OpSetSendingStatus true 777; OpSetStartTimestamp 888 false]
           (SetStartTimestamp sample_video_sender 5000 true)).
  - reflexivity.
  - reflexivity.
  - cbn [run step]. reflexivity.
Defined.

(** ** Send-side delay statistics *)

Section SendDelay.
Implicit Types m it : SendDelayMap.
Implicit Types e : Z * Z.

Lemma SendDelayMap_ordered_above k m :
  Forall (fun e => k < e.1) m ->
  forall k', k' <= k -> Forall (fun e => k' < e.1) m.
Proof.
  intros Hall k' Hle. eapply Forall_impl; [exact Hall|]. cbn. intros; lia.
Qed.

Lemma elem_of_upper_bound m key e :
  SendDelayMap_ordered m ->
  e ∈ upper_bound m key <-> e ∈ m /\ key < e.1.
Proof.
  induction m as [|[k v] m IH]; cbn [upper_bound SendDelayMap_ordered].
  - intros _. split; [by intros ?%elem_of_nil|by intros [?%elem_of_nil _]].
  - intros [Hhead Hm].
    destruct (Z.leb_spec k key) as [Hle|Hgt].
    + rewrite IH by done. rewrite elem_of_cons. split; [tauto|].
      intros [[->|Hin] Hkey]; [cbn in Hkey; lia|done].
    + split; [|tauto]. intros Hin. split; [done|].
      apply elem_of_cons in Hin as [->|Hin]; [done|].
      rewrite Forall_forall in Hhead. specialize (Hhead _ Hin). lia.
Qed.

Lemma elem_of_lower_bound m key e :
  SendDelayMap_ordered m ->
  e ∈ lower_bound m key <-> e ∈ m /\ key <= e.1.
Proof.
  induction m as [|[k v] m IH]; cbn [lower_bound SendDelayMap_ordered].
  - intros _. split; [by intros ?%elem_of_nil|by intros [?%elem_of_nil _]].
  - intros [Hhead Hm].
    destruct (Z.ltb_spec k key) as [Hlt|Hge].
    + rewrite IH by done. rewrite elem_of_cons. split; [tauto|].
      intros [[->|Hin] Hkey]; [cbn in Hkey; lia|done].
    + split; [|tauto]. intros Hin. split; [done|].
      apply elem_of_cons in Hin as [->|Hin]; [done|].
      rewrite Forall_forall in Hhead. specialize (Hhead _ Hin). lia.
Qed.

Lemma lower_bound_ordered m key :
  SendDelayMap_ordered m -> SendDelayMap_ordered (lower_bound m key).
Proof.
  induction m as [|[k v] m IH]; cbn [lower_bound SendDelayMap_ordered];
    [done|].
  intros [Hhead Hm]. destruct (k <? key); [by apply IH|done].
Qed.

Lemma elem_of_SendDelayMap_assign m key value e :
  SendDelayMap_ordered m ->
  e ∈ SendDelayMap_assign m key value
  <-> e = (key, value) \/ (e ∈ m /\ e.1 <> key).
Proof.
  induction m as [|[k v] m IH];
    cbn [SendDelayMap_assign SendDelayMap_ordered].
  - intros _. rewrite list_elem_of_singleton. split; [tauto|].
    intros [?|[?%elem_of_nil _]]; done.
  - intros [Hhead Hm]. rewrite Forall_forall in Hhead.
    destruct (Z.ltb_spec key k) as [Hlt|Hge].
    { rewrite !elem_of_cons. split; [|tauto].
      intros [->|[->|Hin]]; [by left| |].
      - right. split; [by left|cbn; lia].
      - right. split; [by right|]. specialize (Hhead _ Hin). lia. }
    destruct (Z.eqb_spec key k) as [->|Hne].
    { rewrite !elem_of_cons. split.
      - intros [->|Hin]; [by left|]. right. split; [by right|].
        specialize (Hhead _ Hin). lia.
      - intros [->|[[->|Hin] Hkey]]; [by left|done|by right]. }
    rewrite !elem_of_cons, IH by done. split.
    + intros [->|[->|[Hin Hkey]]]; [|by left|].
      * right. split; [by left|cbn; lia].
      * right. split; [by right|done].
    + intros [->|[[->|Hin] Hkey]]; [right; by left|by left|].
      right. right. done.
Qed.

Lemma SendDelayMap_assign_ordered m key value :
  SendDelayMap_ordered m ->
  SendDelayMap_ordered (SendDelayMap_assign m key value).
Proof.
  induction m as [|[k v] m IH];
    cbn [SendDelayMap_assign SendDelayMap_ordered]; [done|].
  intros [Hhead Hm].
  destruct (Z.ltb_spec key k) as [Hlt|Hge].
  { cbn [SendDelayMap_ordered]. split; [|done].
    constructor; [done|]. eapply SendDelayMap_ordered_above; [done|lia]. }
  destruct (Z.eqb_spec key k) as [->|Hne]; cbn [SendDelayMap_ordered].
  { done. }
  split; [|by apply IH].
  apply Forall_forall. intros e Hin.
  apply elem_of_SendDelayMap_assign in Hin; [|done].
  destruct Hin as [->|[Hin _]]; [cbn; lia|].
  rewrite Forall_forall in Hhead. by apply Hhead.
Qed.

Lemma UpdateDelayStatistics_entries m observer capture_time_ms now_ms now :
  SendDelayMap_ordered m ->
  let m' :=
    (UpdateDelayStatistics m observer capture_time_ms now_ms now).1 in
  SendDelayMap_ordered m'
  /\ forall e,
       e ∈ m'
       <-> e = (now_ms, i32 (now_ms - capture_time_ms))
           \/ (e ∈ m /\ e.1 <> now_ms
               /\ now_ms - kSendSideDelayWindowMs <= e.1).
Proof.
  intros Hm. cbn zeta. unfold UpdateDelayStatistics. cbn [fst].
  pose proof (SendDelayMap_assign_ordered m now_ms
                (i32 (now_ms - capture_time_ms)) Hm) as Hassign.
  split; [by apply lower_bound_ordered|].
  intros e. rewrite elem_of_lower_bound by done.
  rewrite elem_of_SendDelayMap_assign by done.
  unfold kSendSideDelayWindowMs. split.
  - intros [[->|[Hin Hkey]] Hwin]; [by left|right; done].
  - intros [->|(Hin & Hkey & Hwin)]; [|split; [by right|done]].
    split; [by left|cbn; lia].
Qed.

(** [UpdateDelayStatistics] keeps the map a sliding window: afterwards it
    holds the new sample under the key [now_ms] and, of the samples it
    held before, exactly those with another key that is not more than
    [kSendSideDelayWindowMs] behind [now_ms]; the keys stay in order. *)
Theorem UpdateDelayStatistics_window m observer capture_time_ms now_ms now :
  SendDelayMap_ordered m ->
  let m' :=
    (UpdateDelayStatistics m observer capture_time_ms now_ms now).1 in
  SendDelayMap_ordered m'
  /\ forall e,
       e ∈ m'
       <-> e = (now_ms, i32 (now_ms - capture_time_ms))
           \/ (e ∈ m /\ e.1 <> now_ms
               /\ now_ms - kSendSideDelayWindowMs <= e.1).
Proof. apply UpdateDelayStatistics_entries. Qed.

Lemma GetSendSideDelay_loop_bounds it avg mx n lo :
  (forall e, e ∈ it -> lo <= e.2) ->
  let '(avg', mx', n') := GetSendSideDelay_loop it avg mx n in
  n' = n + Z.of_nat (length it)
  /\ avg + lo * Z.of_nat (length it) <= avg'
  /\ avg' <= avg + mx' * Z.of_nat (length it)
  /\ mx <= mx'
  /\ (forall e, e ∈ it -> e.2 <= mx')
  /\ (mx' = mx \/ exists e, e ∈ it /\ e.2 = mx').
Proof.
  revert avg mx n.
  induction it as [|[k d] it IH]; intros avg mx n Hlo;
    cbn [GetSendSideDelay_loop length].
  - split; [lia|]. split; [lia|]. split; [lia|]. split; [lia|].
    split; [by intros e ?%elem_of_nil|by left].
  - assert (Hrest : forall e, e ∈ it -> lo <= e.2)
      by (intros e Hin; apply Hlo, elem_of_cons; by right).
    specialize (IH (avg + d) (Z.max mx d) (n + 1) Hrest).
    assert (Hd : lo <= d) by (apply (Hlo (k, d)), elem_of_cons; by left).
    destruct (GetSendSideDelay_loop it _ _ _) as [[avg' mx'] n'].
    destruct IH as (Hn & Hlow & Hhigh & Hmx & Hall & Hatt).
    split; [lia|]. split; [lia|]. split; [nia|]. split; [lia|]. split.
    + intros e [->|Hin]%elem_of_cons; [cbn; lia|by apply Hall].
    + destruct Hatt as [Heq|(e & Hin & He)].
      * destruct (Z.max_spec mx d) as [[_ Hmax]|[_ Hmax]].
        -- right. exists (k, d). split; [by left|cbn; lia].
        -- left. lia.
      * right. exists e. split; [by right|done].
Qed.


Lemma GetSendSideDelay_loop_max it avg mx n :
  let '(_, mx', _) := GetSendSideDelay_loop it avg mx n in
  mx <= mx' /\ forall e, e ∈ it -> e.2 <= mx'.
Proof.
  revert avg mx n.
  induction it as [|[k d] it IH]; intros avg mx n;
    cbn [GetSendSideDelay_loop].
  - split; [lia|]. by intros e ?%elem_of_nil.
  - specialize (IH (avg + d) (Z.max mx d) (n + 1)).
    destruct (GetSendSideDelay_loop it _ _ _) as [[avg' mx'] n'].
    destruct IH as [Hmx Hall]. split; [lia|].
    intros e [->|Hin]%elem_of_cons; [cbn; lia|by apply Hall].
Qed.

(** With an observer, [UpdateDelayStatistics] always has something to
    report when the clock has not moved since [now_ms] was read: the
    sample it has just stored is in the window, so [GetSendSideDelay]
    cannot return false, and the maximum reported is at least that
    sample and at least zero. *)
Theorem UpdateDelayStatistics_notifies m capture_time_ms now_ms :
  SendDelayMap_ordered m ->
  exists avg_delay_ms max_delay_ms,
    (UpdateDelayStatistics m true capture_time_ms now_ms now_ms).2
    = Some (avg_delay_ms, max_delay_ms)
    /\ 0 <= max_delay_ms
    /\ i32 (now_ms - capture_time_ms) <= max_delay_ms.
Proof.
  intros Hm.
  destruct (UpdateDelayStatistics_entries m true capture_time_ms now_ms now_ms
              Hm) as [Hm' Hin].
  unfold UpdateDelayStatistics in *. cbn [fst snd] in *.
  set (m' := lower_bound _ _) in *.
  assert (Hnew : (now_ms, i32 (now_ms - capture_time_ms)) ∈ m')
    by (apply Hin; by left).
  unfold GetSendSideDelay.
  pose proof (fun e => elem_of_upper_bound m'
                         (now_ms - kSendSideDelayWindowMs) e Hm') as Hit.
  assert (Hwin : (now_ms, i32 (now_ms - capture_time_ms))
                 ∈ upper_bound m' (now_ms - kSendSideDelayWindowMs)).
  { apply Hit. split; [done|]. unfold kSendSideDelayWindowMs. cbn. lia. }
  destruct (upper_bound m' (now_ms - kSendSideDelayWindowMs)) as [|e0 it];
    [by apply elem_of_nil in Hwin|].
  pose proof (GetSendSideDelay_loop_max (e0 :: it) 0 0 0) as Hmax.
  destruct (GetSendSideDelay_loop (e0 :: it) 0 0 0) as [[avg mx] n].
  destruct Hmax as [Hmx Hall].
  do 2 eexists. split; [reflexivity|]. split; [done|].
  apply (Hall _ Hwin).
Qed.
End SendDelay.

Lemma sample_send_delays_ordered : SendDelayMap_ordered sample_send_delays.
Proof. vm_compute. repeat constructor. Qed.

(** At 1500 ms the sample of 600 ms is still in the window and a fourth
    sample joins the two. *)
Lemma UpdateDelayStatistics_window_witness :
  let m' := (UpdateDelayStatistics sample_send_delays false 1480 1500 1500).1 in
  SendDelayMap_ordered m'
  /\ forall e,
       e ∈ m'
       <-> e = (1500, i32 (1500 - 1480))
           \/ (e ∈ sample_send_delays /\ e.1 <> 1500
               /\ 1500 - kSendSideDelayWindowMs <= e.1).
Proof.
  apply (UpdateDelayStatistics_window sample_send_delays false 1480 1500 1500).
  exact sample_send_delays_ordered.
Defined.


Lemma UpdateDelayStatistics_notifies_witness :
  exists avg_delay_ms max_delay_ms,
    (UpdateDelayStatistics sample_send_delays true 1480 1500 1500).2
    = Some (avg_delay_ms, max_delay_ms)
    /\ 0 <= max_delay_ms
    /\ i32 (1500 - 1480) <= max_delay_ms.
Proof.
  apply (UpdateDelayStatistics_notifies sample_send_delays 1480 1500).
  exact sample_send_delays_ordered.
Defined.

(** ** The RTP header *)

Section Header.
Context {H : Type} `{PacketHistoryOps H}.
Implicit Types s : RTPSender H.

Lemma length_AssignUWord16ToBuffer b p v :
  length (RtpUtility.AssignUWord16ToBuffer b p v) = length b.
Proof. unfold RtpUtility.AssignUWord16ToBuffer. by rewrite !length_set_byte. Qed.

Lemma length_AssignUWord24ToBuffer b p v :
  length (RtpUtility.AssignUWord24ToBuffer b p v) = length b.
Proof. unfold RtpUtility.AssignUWord24ToBuffer. by rewrite !length_set_byte. Qed.

Lemma length_AssignUWord32ToBuffer b p v :
  length (RtpUtility.AssignUWord32ToBuffer b p v) = length b.
Proof. unfold RtpUtility.AssignUWord32ToBuffer. by rewrite !length_set_byte. Qed.

Lemma GetId_member (m : RtpHeaderExtensionMap.t) id type :
  (id, type) ∈ m -> is_Some (RtpHeaderExtensionMap.GetId m type).
Proof.
  induction m as [|[id' type'] m IH]; [by intros ?%elem_of_nil|].
  intros Hin. cbn [RtpHeaderExtensionMap.GetId].
  destruct (decide (type' = type)); [by eexists|].
  apply elem_of_cons in Hin as [[= -> ->]|Hin]; [done|by apply IH].
Qed.

(** One kind's block: four bytes when the kind is registered. *)
Lemma Build_extension_block s type data_buffer base :
  is_Some (RtpHeaderExtensionMap.GetId (rtp_header_extension_map_ s) type) ->
  let r :=
    match type with
    | kRtpExtensionTransmissionTimeOffset =>
      BuildTransmissionTimeOffsetExtension s data_buffer base
    | kRtpExtensionAudioLevel =>
      BuildAudioLevelExtension s data_buffer base
    | kRtpExtensionAbsoluteSendTime =>
      BuildAbsoluteSendTimeExtension s data_buffer base
    | kRtpExtensionNone => (data_buffer, 0)
    end in
  length r.1 = length data_buffer
  /\ r.2 = RtpHeaderExtensionMap.extension_length type.
Proof.
  intros [id Hid]. cbn zeta.
  destruct type; cbn [RtpHeaderExtensionMap.extension_length];
    unfold BuildTransmissionTimeOffsetExtension, BuildAudioLevelExtension,
      BuildAbsoluteSendTimeExtension; rewrite ?Hid; cbn [fst snd];
    rewrite ?length_AssignUWord24ToBuffer, ?length_set_byte; done.
Qed.

Lemma extension_length_range type :
  0 <= RtpHeaderExtensionMap.extension_length type <= 4.
Proof.
  destruct type; unfold RtpHeaderExtensionMap.extension_length,
    kTransmissionTimeOffsetLength, kAudioLevelLength,
    kAbsoluteSendTimeLength; lia.
Qed.

Lemma blocks_length_bounds (m : RtpHeaderExtensionMap.t) :
  0 <= RtpHeaderExtensionMap.blocks_length m <= 4 * Z.of_nat (length m).
Proof.
  unfold RtpHeaderExtensionMap.blocks_length.
  induction m as [|[id type] m IH]; cbn [foldr length snd]; [lia|].
  pose proof (extension_length_range type). lia.
Qed.

Lemma BuildRTPHeaderExtension_loop_total s types data_buffer base acc :
  (forall e, e ∈ types -> e ∈ rtp_header_extension_map_ s) ->
  0 <= acc -> acc + RtpHeaderExtensionMap.blocks_length types < 65536 ->
  let r := BuildRTPHeaderExtension_loop s types data_buffer base acc in
  length r.1 = length data_buffer /\ r.2 = acc + RtpHeaderExtensionMap.blocks_length types.
Proof.
  revert data_buffer acc.
  induction types as [|[id type] types IH]; intros data_buffer acc Hsub Hacc Hsum;
    cbn [BuildRTPHeaderExtension_loop]; [split; [done|cbn; lia]|].
  unfold RtpHeaderExtensionMap.blocks_length in *. cbn [foldr snd] in *.
  fold (RtpHeaderExtensionMap.blocks_length types) in *.
  pose proof (blocks_length_bounds types) as Hb.
  assert (Hreg : is_Some (RtpHeaderExtensionMap.GetId
                            (rtp_header_extension_map_ s) type)).
  { eapply GetId_member, Hsub. by left. }
  pose proof (Build_extension_block s type data_buffer
                (base + kRtpOneByteHeaderLength + acc) Hreg) as Hblock.
  cbn zeta in Hblock.
  destruct (match type with
            | kRtpExtensionNone => _ | _ => _ end) as [buffer1 block_length].
  cbn [fst snd] in Hblock. destruct Hblock as [Hlen ->].
  pose proof (extension_length_range type).
  unfold u16. rewrite Z.mod_small by lia.
  destruct (IH buffer1 (acc + RtpHeaderExtensionMap.extension_length type))
    as [Hlen' Htot]; [|lia|lia|].
  { intros e He. apply Hsub. by right. }
  split; [congruence|lia].
Qed.

Lemma BuildRTPHeaderExtension_length s data_buffer base :
  (length (rtp_header_extension_map_ s) <= 3)%nat ->
  let r := BuildRTPHeaderExtension s data_buffer base in
  length r.1 = length data_buffer
  /\ r.2 = RtpHeaderExtensionTotalLength s.
Proof.
  intros Hsize. cbn zeta.
  unfold BuildRTPHeaderExtension, RtpHeaderExtensionTotalLength,
    RtpHeaderExtensionMap.GetTotalLengthInBytes, RtpHeaderExtensionMap.Size.
  pose proof (blocks_length_bounds (rtp_header_extension_map_ s)) as Hb.
  destruct (Z.leb_spec (Z.of_nat (length (rtp_header_extension_map_ s))) 0)
    as [Hempty|Hsome].
  { destruct (rtp_header_extension_map_ s); [done|cbn in Hempty; lia]. }
  match goal with
  | |- context [BuildRTPHeaderExtension_loop s ?t ?b ?p 0] =>
    pose proof (BuildRTPHeaderExtension_loop_total s t b p 0
                  ltac:(done) ltac:(lia) ltac:(lia)) as Hloop;
    destruct (BuildRTPHeaderExtension_loop s t b p 0)
      as [buffer1 total_block_length]
  end.
  cbn zeta in Hloop. cbn [fst snd] in Hloop. destruct Hloop as [Hlen ->].
  rewrite Z.add_0_l. rewrite length_AssignUWord16ToBuffer in Hlen.
  unfold kRtpOneByteHeaderLength.
  destruct (Z.eqb_spec (RtpHeaderExtensionMap.blocks_length
                          (rtp_header_extension_map_ s)) 0) as [Hz|Hnz];
    cbn [fst snd].
  - rewrite Hz. done.
  - destruct (Z.ltb_spec 0 (RtpHeaderExtensionMap.blocks_length
                              (rtp_header_extension_map_ s))); [|lia].
    rewrite length_AssignUWord16ToBuffer. split; [done|].
    unfold u16. apply Z.mod_small. lia.
Qed.

Lemma RtpHeaderExtensionTotalLength_bounds s :
  (length (rtp_header_extension_map_ s) <= 3)%nat ->
  0 <= RtpHeaderExtensionTotalLength s <= 16.
Proof.
  intros Hsize. unfold RtpHeaderExtensionTotalLength,
    RtpHeaderExtensionMap.GetTotalLengthInBytes, kRtpOneByteHeaderLength.
  pose proof (blocks_length_bounds (rtp_header_extension_map_ s)).
  case_match; lia.
Qed.

(** A header without CSRCs: twelve bytes and the extension block. *)
Lemma length_CSRC_loop (csrcs : list Z) header (l : list nat) :
  length
    (foldl (fun hd i =>
              RtpUtility.AssignUWord32ToBuffer hd (12 + 4 * Z.of_nat i)
                (default 0 (csrcs !! i))) header l)
  = length header.
Proof.
  revert header. induction l as [|i l IH]; intros header; cbn [foldl];
    [done|].
  by rewrite IH, length_AssignUWord32ToBuffer.
Qed.

(** The length [CreateRTPHeader] returns: twelve bytes, four per CSRC and
    the extension block. *)
Lemma CreateRTPHeader_length s header payload_type ssrc marker_bit timestamp
    sequence_number csrcs num_csrcs :
  0 <= num_csrcs <= kRtpCsrcSize ->
  (length (rtp_header_extension_map_ s) <= 3)%nat ->
  let r :=
    CreateRTPHeader s header payload_type ssrc marker_bit timestamp
      sequence_number csrcs num_csrcs in
  length r.1 = length header
  /\ r.2 = 12 + 4 * num_csrcs + RtpHeaderExtensionTotalLength s.
Proof.
  intros Hcsrcs Hsize. cbn zeta. unfold CreateRTPHeader.
  destruct (Z.ltb_spec kRtpCsrcSize num_csrcs) as [?|_]; [lia|].
  rewrite andb_false_r.
  set (fixed := RtpUtility.AssignUWord32ToBuffer _ 8 ssrc).
  assert (Hfixed : length fixed = length header).
  { subst fixed. rewrite !length_AssignUWord32ToBuffer,
      length_AssignUWord16ToBuffer.
    destruct marker_bit; by rewrite !length_set_byte. }
  set (with_csrcs := if 0 <? num_csrcs then _ else _).
  assert (Hcs : length with_csrcs.1 = length header
                /\ with_csrcs.2 = 12 + 4 * num_csrcs).
  { subst with_csrcs. destruct (Z.ltb_spec 0 num_csrcs); cbn [fst snd].
    - by rewrite length_set_byte, length_CSRC_loop.
    - split; [done|lia]. }
  destruct with_csrcs as [header1 rtp_header_length]. cbn [fst snd] in Hcs.
  destruct Hcs as [Hlen1 ->].
  pose proof (BuildRTPHeaderExtension_length s header1 (12 + 4 * num_csrcs)
                Hsize) as Hext.
  destruct (BuildRTPHeaderExtension s header1 (12 + 4 * num_csrcs))
    as [header2 len].
  cbn zeta in Hext. cbn [fst snd] in Hext. destruct Hext as [Hlen2 ->].
  pose proof (RtpHeaderExtensionTotalLength_bounds s Hsize).
  destruct (Z.ltb_spec 0 (RtpHeaderExtensionTotalLength s)); cbn [fst snd].
  - rewrite length_set_byte. split; [congruence|done].
  - split; [congruence|lia].
Qed.

Lemma BuildRTPheader_returns_RTPHeaderLength s data_buffer payload_type marker_bit
    capture_timestamp capture_time_ms timestamp_provided
    inc_sequence_number :
  0 <= num_csrcs_ s <= kRtpCsrcSize ->
  (length (rtp_header_extension_map_ s) <= 3)%nat ->
  let '(s', data_buffer', len) :=
    BuildRTPheader s data_buffer payload_type marker_bit capture_timestamp
      capture_time_ms timestamp_provided inc_sequence_number in
  len = RTPHeaderLength s
  /\ 12 <= len <= 88
  /\ length data_buffer' = length data_buffer
  /\ RTPHeaderLength s' = RTPHeaderLength s.
Proof.
  intros Hcsrcs Hsize. unfold BuildRTPheader.
  set (s1 := set_last_packet_marker_bit_ _ _).
  assert (Hs1 : rtp_header_extension_map_ s1 = rtp_header_extension_map_ s
                /\ include_csrcs_ s1 = include_csrcs_ s
                /\ num_csrcs_ s1 = num_csrcs_ s)
    by (subst s1; by destruct timestamp_provided).
  destruct Hs1 as (Hmap & Hinc & Hnum).
  assert (Hlen1 : RTPHeaderLength s1 = RTPHeaderLength s)
    by (unfold RTPHeaderLength, RtpHeaderExtensionTotalLength;
        by rewrite Hmap, Hinc, Hnum).
  rewrite Hinc, Hnum.
  match goal with
  | |- context [CreateRTPHeader s1 ?b ?p ?c ?m ?t ?q ?cs ?n] =>
    pose proof (CreateRTPHeader_length s1 b p c m t q cs n) as Hcreate;
    destruct (CreateRTPHeader s1 b p c m t q cs n) as [data_buffer' len]
  end.
  cbn zeta in Hcreate. cbn [fst snd] in Hcreate.
  destruct Hcreate as [Hbuf ->];
    [unfold kRtpCsrcSize in *; case_match; lia | by rewrite Hmap |].
  pose proof (RtpHeaderExtensionTotalLength_bounds s Hsize) as Hext.
  assert (Hsame : RtpHeaderExtensionTotalLength s1
                  = RtpHeaderExtensionTotalLength s)
    by (unfold RtpHeaderExtensionTotalLength; by rewrite Hmap).
  rewrite Hsame.
  assert (Hhl : RTPHeaderLength s
                = 12 + 4 * (if include_csrcs_ s then num_csrcs_ s else 0)
                  + RtpHeaderExtensionTotalLength s).
  { unfold RTPHeaderLength, u16, kRtpCsrcSize in *.
    destruct (include_csrcs_ s).
    - rewrite (Z.mod_small (12 + 4 * num_csrcs_ s)) by lia.
      rewrite Z.mod_small by lia. lia.
    - rewrite Z.mod_small by lia. lia. }
  rewrite Hhl. unfold kRtpCsrcSize in *.
  split; [done|]. split; [case_match; lia|]. split; [done|].
  by rewrite <- Hhl.
Qed.

(** [BuildRTPheader] returns what [RTPHeaderLength] announces, for a
    sender with at most [kRtpCsrcSize] CSRCs and at most three header
    extensions: between 12 and 88 bytes. It writes into the caller's
    buffer without resizing it and leaves [RTPHeaderLength] as it was. *)
Theorem BuildRTPheader_length s data_buffer payload_type marker_bit
    capture_timestamp capture_time_ms timestamp_provided
    inc_sequence_number :
  0 <= num_csrcs_ s <= kRtpCsrcSize ->
  (length (rtp_header_extension_map_ s) <= 3)%nat ->
  let '(s', data_buffer', len) :=
    BuildRTPheader s data_buffer payload_type marker_bit capture_timestamp
      capture_time_ms timestamp_provided inc_sequence_number in
  len = RTPHeaderLength s
  /\ 12 <= len <= 88
  /\ length data_buffer' = length data_buffer
  /\ RTPHeaderLength s' = RTPHeaderLength s.
Proof. apply BuildRTPheader_returns_RTPHeaderLength. Qed.

(** *** Where the header fields are *)

Lemma byte_at_AssignUWord16ToBuffer_other b p v i :
  i < p \/ p + 2 <= i ->
  byte_at (RtpUtility.AssignUWord16ToBuffer b p v) i = byte_at b i.
Proof.
  intros Hi. unfold RtpUtility.AssignUWord16ToBuffer.
  rewrite !byte_at_set_byte_ne by lia. done.
Qed.

Lemma byte_at_AssignUWord24ToBuffer_other b p v i :
  i < p \/ p + 3 <= i ->
  byte_at (RtpUtility.AssignUWord24ToBuffer b p v) i = byte_at b i.
Proof.
  intros Hi. unfold RtpUtility.AssignUWord24ToBuffer.
  rewrite !byte_at_set_byte_ne by lia. done.
Qed.

Lemma byte_at_AssignUWord32ToBuffer_other b p v i :
  i < p \/ p + 4 <= i ->
  byte_at (RtpUtility.AssignUWord32ToBuffer b p v) i = byte_at b i.
Proof.
  intros Hi. unfold RtpUtility.AssignUWord32ToBuffer.
  rewrite !byte_at_set_byte_ne by lia. done.
Qed.

Lemma BufferToUWord16_AssignUWord16ToBuffer b p v :
  0 <= p -> p + 1 < Z.of_nat (length b) -> 0 <= v < 65536 ->
  RtpUtility.BufferToUWord16 (RtpUtility.AssignUWord16ToBuffer b p v) p = v.
Proof.
  intros Hp Hlen Hv.
  unfold RtpUtility.BufferToUWord16, RtpUtility.AssignUWord16ToBuffer.
  rewrite (byte_at_set_byte_ne _ (p + 1) p) by lia.
  rewrite (byte_at_set_byte_eq _ p) by lia.
  rewrite (byte_at_set_byte_eq _ (p + 1)) by (rewrite length_set_byte; lia).
  by apply u16_bytes.
Qed.

Lemma BufferToUWord32_AssignUWord32ToBuffer b p v :
  0 <= p -> p + 3 < Z.of_nat (length b) -> 0 <= v < 4294967296 ->
  RtpUtility.BufferToUWord32 (RtpUtility.AssignUWord32ToBuffer b p v) p = v.
Proof.
  intros Hp Hlen Hv.
  unfold RtpUtility.BufferToUWord32, RtpUtility.AssignUWord32ToBuffer.
  rewrite (byte_at_set_byte_ne _ (p + 3) p) by lia.
  rewrite (byte_at_set_byte_ne _ (p + 2) p) by lia.
  rewrite (byte_at_set_byte_ne _ (p + 1) p) by lia.
  rewrite (byte_at_set_byte_eq _ p) by lia.
  rewrite (byte_at_set_byte_ne _ (p + 3) (p + 1)) by lia.
  rewrite (byte_at_set_byte_ne _ (p + 2) (p + 1)) by lia.
  rewrite (byte_at_set_byte_eq _ (p + 1)) by (rewrite length_set_byte; lia).
  rewrite (byte_at_set_byte_ne _ (p + 3) (p + 2)) by lia.
  rewrite (byte_at_set_byte_eq _ (p + 2)) by (rewrite !length_set_byte; lia).
  rewrite (byte_at_set_byte_eq _ (p + 3)) by (rewrite !length_set_byte; lia).
  by apply u32_bytes.
Qed.

Lemma byte_at_CSRC_loop (csrcs : list Z) header (l : list nat) i :
  i < 12 ->
  byte_at
    (foldl (fun hd k =>
              RtpUtility.AssignUWord32ToBuffer hd (12 + 4 * Z.of_nat k)
                (default 0 (csrcs !! k))) header l) i
  = byte_at header i.
Proof.
  intros Hi. revert header.
  induction l as [|k l IH]; intros header; cbn [foldl]; [done|].
  rewrite IH. apply byte_at_AssignUWord32ToBuffer_other. lia.
Qed.

Lemma byte_at_extension_block s type data_buffer base i :
  i < base ->
  byte_at
    (match type with
     | kRtpExtensionTransmissionTimeOffset =>
       BuildTransmissionTimeOffsetExtension s data_buffer base
     | kRtpExtensionAudioLevel =>
       BuildAudioLevelExtension s data_buffer base
     | kRtpExtensionAbsoluteSendTime =>
       BuildAbsoluteSendTimeExtension s data_buffer base
     | kRtpExtensionNone => (data_buffer, 0)
     end).1 i
  = byte_at data_buffer i.
Proof.
  intros Hi.
  destruct type; cbn [fst]; [done| | |];
    unfold BuildTransmissionTimeOffsetExtension, BuildAudioLevelExtension,
      BuildAbsoluteSendTimeExtension;
    case_match; cbn [fst]; try done;
    rewrite ?byte_at_AssignUWord24ToBuffer_other by lia;
    rewrite !byte_at_set_byte_ne by lia; done.
Qed.

Lemma byte_at_BuildRTPHeaderExtension_loop s types data_buffer base acc i :
  0 <= acc -> i < base + kRtpOneByteHeaderLength ->
  byte_at (BuildRTPHeaderExtension_loop s types data_buffer base acc).1 i
  = byte_at data_buffer i.
Proof.
  revert data_buffer acc.
  induction types as [|[id type] types IH]; intros data_buffer acc Hacc Hi;
    cbn [BuildRTPHeaderExtension_loop]; [done|].
  pose proof (byte_at_extension_block s type data_buffer
                (base + kRtpOneByteHeaderLength + acc) i ltac:(lia))
    as Hblock.
  destruct (match type with
            | kRtpExtensionNone => _ | _ => _ end) as [buffer1 block_length].
  cbn [fst] in Hblock. rewrite IH; [done| |done].
  unfold u16. apply Z.mod_pos_bound. lia.
Qed.

Lemma byte_at_BuildRTPHeaderExtension s data_buffer base i :
  i < base ->
  byte_at (BuildRTPHeaderExtension s data_buffer base).1 i
  = byte_at data_buffer i.
Proof.
  intros Hi. unfold BuildRTPHeaderExtension.
  case_match; [done|].
  pose proof (byte_at_BuildRTPHeaderExtension_loop s
                (rtp_header_extension_map_ s)
                (RtpUtility.AssignUWord16ToBuffer data_buffer base
                   kRtpOneByteHeaderExtensionId) base 0 i ltac:(lia)) as Hloop.
  destruct (BuildRTPHeaderExtension_loop _ _ _ _ _)
    as [buffer1 total_block_length].
  cbn [fst] in Hloop. unfold kRtpOneByteHeaderLength in Hloop.
  specialize (Hloop ltac:(lia)).
  case_match; cbn [fst];
    rewrite ?byte_at_AssignUWord16ToBuffer_other by lia;
    rewrite Hloop; apply byte_at_AssignUWord16ToBuffer_other; lia.
Qed.

Lemma first_byte_table :
  forallb (fun n => (Z.lor (Z.land 128 240) n =? 128 + n)
                    && (Z.lor (128 + n) 16 =? 144 + n))
          (map Z.of_nat (seq 0 16)) = true.
Proof. vm_compute. reflexivity. Qed.

Lemma first_byte n :
  0 <= n <= 15 ->
  Z.lor (Z.land 128 240) n = 128 + n /\ Z.lor (128 + n) 16 = 144 + n.
Proof.
  intros Hn. pose proof first_byte_table as Ht.
  rewrite forallb_forall in Ht. specialize (Ht n).
  assert (Hin : In n (map Z.of_nat (seq 0 16))).
  { apply in_map_iff. exists (Z.to_nat n). split; [lia|].
    apply in_seq. lia. }
  specialize (Ht Hin). rewrite andb_true_iff in Ht. lia.
Qed.

Lemma u8_small x : 0 <= x < 256 -> u8 x = x.
Proof. intros Hx. unfold u8. apply Z.mod_small. lia. Qed.

Lemma CreateRTPHeader_fixed s header payload_type ssrc marker_bit timestamp
    sequence_number csrcs num_csrcs :
  12 <= Z.of_nat (length header) ->
  0 <= payload_type < 128 ->
  0 <= sequence_number < 65536 ->
  0 <= timestamp < 4294967296 ->
  0 <= ssrc < 4294967296 ->
  0 <= num_csrcs <= kRtpCsrcSize ->
  (length (rtp_header_extension_map_ s) <= 3)%nat ->
  let r :=
    CreateRTPHeader s header payload_type ssrc marker_bit timestamp
      sequence_number csrcs num_csrcs in
  byte_at r.1 0
  = 128 + (if 0 <? RtpHeaderExtensionTotalLength s then 16 else 0)
    + num_csrcs
  /\ byte_at r.1 1 = (if marker_bit then 128 else 0) + payload_type
  /\ RtpUtility.BufferToUWord16 r.1 2 = sequence_number
  /\ RtpUtility.BufferToUWord32 r.1 4 = timestamp
  /\ RtpUtility.BufferToUWord32 r.1 8 = ssrc.
Proof.
  intros Hlen Hpt Hseq Hts Hssrc Hcsrcs Hsize. cbn zeta.
  unfold kRtpCsrcSize in Hcsrcs. unfold CreateRTPHeader.
  destruct (Z.ltb_spec kRtpCsrcSize num_csrcs) as [?|_];
    [unfold kRtpCsrcSize in *; lia|].
  rewrite andb_false_r.
  (* the two leading bytes *)
  set (b1 := if marker_bit then _ else _).
  assert (Hb1 : length b1 = length header
                /\ byte_at b1 0 = 128
                /\ byte_at b1 1 = (if marker_bit then 128 else 0)
                                  + payload_type).
  { subst b1. unfold kRtpMarkerBitMask.
    destruct marker_bit; rewrite ?length_set_byte; (split; [done|]).
    - rewrite byte_at_set_byte_ne, byte_at_set_byte_ne by lia.
      rewrite byte_at_set_byte_eq by lia.
      rewrite !byte_at_set_byte_eq by (rewrite ?length_set_byte; lia).
      rewrite (u8_small payload_type) by lia.
      destruct (marker_bit payload_type Hpt) as (-> & _).
      rewrite !u8_small by lia. lia.
    - rewrite byte_at_set_byte_ne by lia.
      rewrite !byte_at_set_byte_eq by (rewrite ?length_set_byte; lia).
      rewrite !u8_small by lia. lia. }
  destruct Hb1 as (Hlen1 & Hb10 & Hb11). clearbody b1.
  (* the three words *)
  set (fixed := RtpUtility.AssignUWord32ToBuffer _ 8 ssrc).
  assert (Hfixed : length fixed = length header
                   /\ byte_at fixed 0 = 128
                   /\ byte_at fixed 1 = (if marker_bit then 128 else 0)
                                        + payload_type
                   /\ RtpUtility.BufferToUWord16 fixed 2 = sequence_number
                   /\ RtpUtility.BufferToUWord32 fixed 4 = timestamp
                   /\ RtpUtility.BufferToUWord32 fixed 8 = ssrc).
  { subst fixed.
    split; [by rewrite !length_AssignUWord32ToBuffer,
              length_AssignUWord16ToBuffer|].
    split; [by rewrite !byte_at_AssignUWord32ToBuffer_other,
              byte_at_AssignUWord16ToBuffer_other by lia|].
    split; [by rewrite !byte_at_AssignUWord32ToBuffer_other,
              byte_at_AssignUWord16ToBuffer_other by lia|].
    split.
    { unfold RtpUtility.BufferToUWord16.
      rewrite !byte_at_AssignUWord32ToBuffer_other by lia.
      apply BufferToUWord16_AssignUWord16ToBuffer; lia. }
    split.
    { unfold RtpUtility.BufferToUWord32.
      rewrite !(byte_at_AssignUWord32ToBuffer_other _ 8) by lia.
      apply BufferToUWord32_AssignUWord32ToBuffer;
        rewrite ?length_AssignUWord16ToBuffer; lia. }
    apply BufferToUWord32_AssignUWord32ToBuffer;
      rewrite ?length_AssignUWord32ToBuffer, ?length_AssignUWord16ToBuffer;
      lia. }
  destruct Hfixed as (Hlenf & Hf0 & Hf1 & Hfseq & Hfts & Hfssrc).
  clearbody fixed.
  (* what comes after leaves bytes 1 to 11 alone *)
  set (with_csrcs := if 0 <? num_csrcs then _ else _).
  assert (Hcs : length with_csrcs.1 = length header
                /\ with_csrcs.2 = 12 + 4 * num_csrcs
                /\ byte_at with_csrcs.1 0 = 128 + num_csrcs
                /\ forall i, 1 <= i < 12 ->
                     byte_at with_csrcs.1 i = byte_at fixed i).
  { subst with_csrcs. destruct (Z.ltb_spec 0 num_csrcs); cbn [fst snd].
    - split; [by rewrite length_set_byte, length_CSRC_loop|].
      split; [done|]. split.
      + rewrite byte_at_set_byte_eq by (rewrite length_CSRC_loop; lia).
        rewrite byte_at_CSRC_loop, Hf0 by lia.
        destruct (first_byte num_csrcs ltac:(lia)) as [-> _].
        apply u8_small. lia.
      + intros i Hi. rewrite byte_at_set_byte_ne by lia.
        apply byte_at_CSRC_loop. lia.
    - split; [done|]. split; [lia|]. split; [rewrite Hf0; lia|done]. }
  destruct with_csrcs as [header1 rtp_header_length]. cbn [fst snd] in Hcs.
  destruct Hcs as (Hlen2 & -> & Hh0 & Hh).
  pose proof (BuildRTPHeaderExtension_length s header1 (12 + 4 * num_csrcs)
                Hsize) as Hext.
  pose proof (fun i => byte_at_BuildRTPHeaderExtension s header1
                         (12 + 4 * num_csrcs) i) as Hframe.
  destruct (BuildRTPHeaderExtension s header1 (12 + 4 * num_csrcs))
    as [header2 len].
  cbn zeta in Hext. cbn [fst snd] in Hext, Hframe.
  destruct Hext as [Hlen3 ->].
  assert (Hout : forall out : list Z,
             byte_at out 0
             = 128 + (if 0 <? RtpHeaderExtensionTotalLength s
                      then 16 else 0) + num_csrcs ->
             (forall i, 1 <= i < 12 -> byte_at out i = byte_at fixed i) ->
             byte_at out 0
             = 128 + (if 0 <? RtpHeaderExtensionTotalLength s
                      then 16 else 0) + num_csrcs
             /\ byte_at out 1 = (if marker_bit then 128 else 0)
                                + payload_type
             /\ RtpUtility.BufferToUWord16 out 2 = sequence_number
             /\ RtpUtility.BufferToUWord32 out 4 = timestamp
             /\ RtpUtility.BufferToUWord32 out 8 = ssrc).
  { intros out Hout0 Hrest. split; [done|].
    split; [by rewrite Hrest by lia|].
    unfold RtpUtility.BufferToUWord16, RtpUtility.BufferToUWord32 in *.
    rewrite !Hrest by lia. done. }
  destruct (Z.ltb_spec 0 (RtpHeaderExtensionTotalLength s)); cbn [fst].
  - apply Hout.
    + rewrite byte_at_set_byte_eq by lia.
      rewrite Hframe, Hh0 by lia.
      destruct (first_byte num_csrcs ltac:(lia)) as [_ ->].
      rewrite u8_small by lia. lia.
    + intros i Hi. rewrite byte_at_set_byte_ne by lia.
      rewrite Hframe by lia. by apply Hh.
  - apply Hout.
    + rewrite Hframe, Hh0 by lia. lia.
    + intros i Hi. rewrite Hframe by lia. by apply Hh.
Qed.

(** The fixed part of the header [BuildRTPheader] writes, for a 7-bit
    payload type and a buffer that holds the header: version 2 with the
    extension bit and the CSRC count in the first byte; the marker bit and
    the payload type in the second; then the sequence number the sender
    had before the call, the timestamp and the SSRC, each most significant
    byte first. The sender moves on to the next sequence number and keeps
    the timestamp it wrote: the start timestamp plus the capture
    timestamp, or the previous timestamp plus one when none is given. *)
Theorem BuildRTPheader_fixed_header s data_buffer payload_type
    (marker_bit : bool) capture_timestamp capture_time_ms
    (timestamp_provided inc_sequence_number : bool) :
  RTPHeaderLength s <= Z.of_nat (length data_buffer) ->
  0 <= payload_type < 128 ->
  0 <= sequence_number_ s < 65536 ->
  0 <= ssrc_ s < 4294967296 ->
  0 <= num_csrcs_ s <= kRtpCsrcSize ->
  (length (rtp_header_extension_map_ s) <= 3)%nat ->
  let timestamp :=
    if timestamp_provided then u32 (start_timestamp_ s + capture_timestamp)
    else u32 (timestamp_ s + 1) in
  let '(s', header, _) :=
    BuildRTPheader s data_buffer payload_type marker_bit capture_timestamp
      capture_time_ms timestamp_provided inc_sequence_number in
  byte_at header 0
  = 128 + (if 0 <? RtpHeaderExtensionTotalLength s then 16 else 0)
    + (if include_csrcs_ s then num_csrcs_ s else 0)
  /\ byte_at header 1 = (if marker_bit then 128 else 0) + payload_type
  /\ RtpUtility.BufferToUWord16 header 2 = sequence_number_ s
  /\ RtpUtility.BufferToUWord32 header 4 = timestamp
  /\ RtpUtility.BufferToUWord32 header 8 = SSRC s
  /\ SequenceNumber s' = u16 (sequence_number_ s + 1)
  /\ Timestamp s' = timestamp
  /\ last_packet_marker_bit_ s' = marker_bit
  /\ capture_time_ms_ s' = capture_time_ms.
Proof.
  intros Hbuf Hpt Hseq Hssrc Hcsrcs Hsize. cbn zeta.
  assert (H12 : 12 <= Z.of_nat (length data_buffer)).
  { pose proof (BuildRTPheader_returns_RTPHeaderLength s data_buffer payload_type marker_bit
                  capture_timestamp capture_time_ms timestamp_provided
                  inc_sequence_number Hcsrcs Hsize) as Hlen.
    destruct (BuildRTPheader _ _ _ _ _ _ _ _) as [[? ?] len].
    destruct Hlen as (-> & Hrange & _). lia. }
  unfold BuildRTPheader.
  set (s0 := if timestamp_provided then _ else _).
  set (s1 := set_last_packet_marker_bit_ _ _).
  assert (Hs0 : sequence_number_ (set_last_timestamp_time_ms_ (clock_ s0) s0)
                = sequence_number_ s
                /\ timestamp_ s0
                   = (if timestamp_provided
                      then u32 (start_timestamp_ s + capture_timestamp)
                      else u32 (timestamp_ s + 1)))
    by (subst s0; by destruct timestamp_provided).
  destruct Hs0 as [Hseq0 Hts0].
  assert (Hs1 : rtp_header_extension_map_ s1 = rtp_header_extension_map_ s
                /\ include_csrcs_ s1 = include_csrcs_ s
                /\ num_csrcs_ s1 = num_csrcs_ s
                /\ ssrc_ s1 = ssrc_ s
                /\ sequence_number_ s1
                   = u16 (sequence_number_
                            (set_last_timestamp_time_ms_ (clock_ s0) s0) + 1)
                /\ timestamp_ s1 = timestamp_ s0
                /\ last_packet_marker_bit_ s1 = marker_bit
                /\ capture_time_ms_ s1 = capture_time_ms)
    by (subst s1 s0; by destruct timestamp_provided).
  destruct Hs1 as (Hmap & Hinc & Hnum & Hssrc1 & Hseq1 & Hts1 & Hm1 & Hc1).
  assert (Hsame : RtpHeaderExtensionTotalLength s1
                  = RtpHeaderExtensionTotalLength s)
    by (unfold RtpHeaderExtensionTotalLength; by rewrite Hmap).
  unfold SSRC, SequenceNumber, Timestamp.
  rewrite Hseq0, Hinc, Hnum, Hssrc1, Hts1, Hts0.
  clearbody s1 s0.
  match goal with
  | |- context [CreateRTPHeader s1 ?b ?p ?c ?m ?t ?q ?cs ?n] =>
    pose proof (CreateRTPHeader_fixed s1 b p c m t q cs n) as Hcreate;
    destruct (CreateRTPHeader s1 b p c m t q cs n) as [header len]
  end.
  cbn zeta in Hcreate. cbn [fst snd] in Hcreate.
  rewrite Hsame in Hcreate. rewrite Hseq1, Hseq0, Hm1, Hc1, Hts1, Hts0.
  destruct Hcreate as (H0' & H1' & H2' & H3' & H4'); try done.
  - unfold u32. destruct timestamp_provided; apply Z.mod_pos_bound; lia.
  - unfold kRtpCsrcSize in *. destruct (include_csrcs_ s); lia.
  - by rewrite Hmap.
Qed.

(** A packet made of the header [BuildRTPheader] writes and
    [MaxDataPayloadLength] bytes of payload is exactly
    [max_payload_length_] bytes long on an audio sender; on a video sender
    the FEC overhead and, with RTX on, two more bytes are left free,
    provided they fit. *)
Theorem MaxDataPayloadLength_fills s FECPacketOverhead data_buffer
    payload_type (marker_bit : bool) capture_timestamp capture_time_ms
    (timestamp_provided inc_sequence_number : bool) :
  100 <= max_payload_length_ s <= IP_PACKET_SIZE ->
  0 <= num_csrcs_ s <= kRtpCsrcSize ->
  (length (rtp_header_extension_map_ s) <= 3)%nat ->
  let left_free :=
    if audio_configured_ s then 0
    else FECPacketOverhead + (if rtx_ s =? 0 then 0 else 2) in
  0 <= left_free <= max_payload_length_ s - RTPHeaderLength s ->
  let '(_, _, len) :=
    BuildRTPheader s data_buffer payload_type marker_bit capture_timestamp
      capture_time_ms timestamp_provided inc_sequence_number in
  len + MaxDataPayloadLength s FECPacketOverhead + left_free
  = MaxPayloadLength s.
Proof.
  intros Hmax Hcsrcs Hsize left_free Hfree.
  pose proof (BuildRTPheader_returns_RTPHeaderLength s data_buffer payload_type marker_bit
                capture_timestamp capture_time_ms timestamp_provided
                inc_sequence_number Hcsrcs Hsize) as Hlen.
  destruct (BuildRTPheader _ _ _ _ _ _ _ _) as [[s' data_buffer'] len].
  destruct Hlen as (-> & Hrange & _).
  unfold MaxDataPayloadLength, MaxPayloadLength, u16, IP_PACKET_SIZE in *.
  subst left_free.
  destruct (audio_configured_ s).
  - rewrite Z.mod_small by lia. lia.
  - destruct (Z.eqb_spec (rtx_ s) 0); cbn [negb];
      rewrite Z.mod_small by lia; lia.
Qed.
End Header.

(** The sender with one CSRC and two header extensions announces and
    writes a header of 28 bytes. *)
Lemma BuildRTPheader_length_witness :
  RTPHeaderLength sample_csrc_sender = 28
  /\ let '(s', data_buffer', len) :=
       BuildRTPheader sample_csrc_sender
         (replicate (Z.to_nat IP_PACKET_SIZE) 0) 100 true 0 1000 true true in
     len = RTPHeaderLength sample_csrc_sender
     /\ 12 <= len <= 88
     /\ length data_buffer' = length (replicate (Z.to_nat IP_PACKET_SIZE) 0)
     /\ RTPHeaderLength s' = RTPHeaderLength sample_csrc_sender.
Proof.
  split; [vm_compute; reflexivity|].
  apply (BuildRTPheader_length sample_csrc_sender
           (replicate (Z.to_nat IP_PACKET_SIZE) 0) 100 true 0 1000 true true).
  - vm_compute. split; discriminate.
  - vm_compute. lia.
Defined.

(** Its first byte is 0x91: version 2, extension bit, one CSRC; the second
    is 0xE4: marker bit and payload type 100. *)
Lemma BuildRTPheader_fixed_header_witness :
  let '(s', header, _) :=
    BuildRTPheader sample_csrc_sender
      (replicate (Z.to_nat IP_PACKET_SIZE) 0) 100 true 0 1000 true true in
  byte_at header 0 = 145
  /\ byte_at header 1 = 228
  /\ RtpUtility.BufferToUWord16 header 2 = 32423
  /\ RtpUtility.BufferToUWord32 header 4 = 0
  /\ RtpUtility.BufferToUWord32 header 8 = 1
  /\ SequenceNumber s' = 32424.
Proof.
  pose proof (BuildRTPheader_fixed_header sample_csrc_sender
                (replicate (Z.to_nat IP_PACKET_SIZE) 0) 100 true 0 1000
                true true) as Hw.
  cbn zeta in Hw.
  assert (Hx : (if 0 <? RtpHeaderExtensionTotalLength sample_csrc_sender
                then 16 else 0) = 16) by (vm_compute; reflexivity).
  assert (Hcc : (if include_csrcs_ sample_csrc_sender
                 then num_csrcs_ sample_csrc_sender else 0) = 1)
    by (vm_compute; reflexivity).
  assert (Hseq : sequence_number_ sample_csrc_sender = 32423)
    by (vm_compute; reflexivity).
  assert (Hts : u32 (start_timestamp_ sample_csrc_sender + 0) = 0)
    by (vm_compute; reflexivity).
  assert (Hssrc : SSRC sample_csrc_sender = 1) by (vm_compute; reflexivity).
  rewrite Hx, Hcc, Hseq, Hts, Hssrc in Hw.
  destruct (BuildRTPheader _ _ _ _ _ _ _ _) as [[s' header] len].
  destruct Hw as (H0 & H1 & H2 & H3 & H4 & H5 & _).
  - vm_compute. discriminate.
  - lia.
  - vm_compute. split; [discriminate|reflexivity].
  - vm_compute. split; [discriminate|reflexivity].
  - vm_compute. split; discriminate.
  - vm_compute. lia.
  - repeat split; assumption.
Defined.

(** The audio sender's default: 12 bytes of header and 1460 of payload make
    the 1472 bytes of [IP_PACKET_SIZE - 28]. *)
Lemma MaxDataPayloadLength_fills_witness :
  MaxDataPayloadLength sample_audio_sender 0 = 1460
  /\ let '(_, _, len) :=
       BuildRTPheader sample_audio_sender
         (replicate (Z.to_nat IP_PACKET_SIZE) 0) 0 true 0 1000 true true in
     len + MaxDataPayloadLength sample_audio_sender 0
     + (if audio_configured_ sample_audio_sender then 0
        else 0 + (if rtx_ sample_audio_sender =? 0 then 0 else 2))
     = MaxPayloadLength sample_audio_sender.
Proof.
  split; [vm_compute; reflexivity|].
  apply (MaxDataPayloadLength_fills sample_audio_sender 0
           (replicate (Z.to_nat IP_PACKET_SIZE) 0) 0 true 0 1000 true true).
  - vm_compute. split; discriminate.
  - vm_compute. split; discriminate.
  - vm_compute. lia.
  - vm_compute. split; discriminate.
Defined.

(** ** The other in-place updates *)

Section Patchers.
Context {H : Type} `{PacketHistoryOps H}.
Implicit Types s : RTPSender H.

Lemma low24_bytes v :
  0 <= v ->
  u8 (Z.shiftr v 16) * 65536 + u8 (Z.shiftr v 8) * 256 + u8 v
  = v mod 16777216.
Proof.
  intros Hv. unfold u8. rewrite !Z.shiftr_div_pow2 by lia.
  change (2 ^ 16) with 65536. change (2 ^ 8) with 256.
  Z.to_euclidean_division_equations. lia.
Qed.

Lemma BufferToUWord24_AssignUWord24ToBuffer_low b p v :
  0 <= p -> p + 2 < Z.of_nat (length b) -> 0 <= v ->
  RtpUtility.BufferToUWord24 (RtpUtility.AssignUWord24ToBuffer b p v) p
  = v mod 16777216.
Proof.
  intros Hp Hlen Hv.
  unfold RtpUtility.BufferToUWord24, RtpUtility.AssignUWord24ToBuffer.
  rewrite (byte_at_set_byte_ne _ (p + 2) p) by lia.
  rewrite (byte_at_set_byte_ne _ (p + 1) p) by lia.
  rewrite (byte_at_set_byte_eq _ p) by lia.
  rewrite (byte_at_set_byte_ne _ (p + 2) (p + 1)) by lia.
  rewrite (byte_at_set_byte_eq _ (p + 1)) by (rewrite length_set_byte; lia).
  rewrite (byte_at_set_byte_eq _ (p + 2)) by (rewrite !length_set_byte; lia).
  by apply low24_bytes.
Qed.

Lemma u32_i64_low24 x : u32 (i64 x) mod 16777216 = x mod 16777216.
Proof.
  unfold u32, i64, to_signed.
  change (2 ^ 64) with 18446744073709551616.
  change (2 ^ (64 - 1)) with 9223372036854775808.
  destruct (_ <? _); Z.to_euclidean_division_equations; lia.
Qed.

Lemma UpdateTransmissionTimeOffset_writes s rtp_packet rtp_packet_length
    rtp_header time_diff_ms id :
  RtpHeaderExtensionMap.GetId (rtp_header_extension_map_ s)
    kRtpExtensionTransmissionTimeOffset = Some id ->
  let block_pos :=
    12 + RtpUtility.numCSRCs rtp_header
    + RtpHeaderExtensionMap.GetLengthUntilBlockStartInBytes
        (rtp_header_extension_map_ s) kRtpExtensionTransmissionTimeOffset in
  0 <= RtpUtility.numCSRCs rtp_header ->
  rtp_packet_length <= Z.of_nat (length rtp_packet) ->
  block_pos + kTransmissionTimeOffsetLength <= rtp_packet_length ->
  block_pos + kTransmissionTimeOffsetLength
  <= RtpUtility.headerLength rtp_header ->
  byte_at rtp_packet (12 + RtpUtility.numCSRCs rtp_header) = 190 ->
  byte_at rtp_packet (12 + RtpUtility.numCSRCs rtp_header + 1) = 222 ->
  byte_at rtp_packet block_pos = u8 (Z.shiftl id 4 + 2) ->
  let patched :=
    UpdateTransmissionTimeOffset s rtp_packet rtp_packet_length rtp_header
      time_diff_ms in
  RtpUtility.BufferToUWord24 patched (block_pos + 1)
  = (time_diff_ms * 90) mod 16777216
  /\ (0 <= time_diff_ms * 90 < 16777216 ->
      RtpUtility.BufferToUWord24 patched (block_pos + 1)
      = time_diff_ms * 90).
Proof.
  intros Hid block_pos Hcsrc Hbuf Hlen Hhdr Hbe Hde Hfirst patched.
  assert (Hval : RtpUtility.BufferToUWord24 patched (block_pos + 1)
                 = (time_diff_ms * 90) mod 16777216).
  { subst patched. unfold UpdateTransmissionTimeOffset. rewrite Hid.
    fold block_pos.
    assert (Hpos : 4 <= RtpHeaderExtensionMap.GetLengthUntilBlockStartInBytes
                          (rtp_header_extension_map_ s)
                          kRtpExtensionTransmissionTimeOffset).
    { unfold RtpHeaderExtensionMap.GetLengthUntilBlockStartInBytes.
      rewrite Hid. unfold kRtpOneByteHeaderLength.
      pose proof (length_before_nonneg (rtp_header_extension_map_ s)
                    kRtpExtensionTransmissionTimeOffset). lia. }
    unfold kTransmissionTimeOffsetLength in *.
    repeat match goal with
           | |- context [if ?c then _ else _] =>
             let Hc := fresh in
             assert (Hc : c = false)
               by (rewrite ?Hbe, ?Hde, ?Hfirst; cbn; lia);
             rewrite Hc; clear Hc
           end.
    rewrite BufferToUWord24_AssignUWord24ToBuffer_low; [|lia|lia|].
    - apply u32_i64_low24.
    - unfold u32. apply Z.mod_pos_bound. lia. }
  split; [exact Hval|]. intros Hfit. rewrite Hval. by apply Z.mod_small.
Qed.

(** When every check of [UpdateTransmissionTimeOffset] passes, the three
    bytes after the extension's ID byte, read as a big-endian number, are
    the low 24 bits of [time_diff_ms * 90]: the offset itself when it is
    not negative and fits. *)
Theorem UpdateTransmissionTimeOffset_value s rtp_packet rtp_packet_length
    rtp_header time_diff_ms id :
  RtpHeaderExtensionMap.GetId (rtp_header_extension_map_ s)
    kRtpExtensionTransmissionTimeOffset = Some id ->
  let block_pos :=
    12 + RtpUtility.numCSRCs rtp_header
    + RtpHeaderExtensionMap.GetLengthUntilBlockStartInBytes
        (rtp_header_extension_map_ s) kRtpExtensionTransmissionTimeOffset in
  0 <= RtpUtility.numCSRCs rtp_header ->
  rtp_packet_length <= Z.of_nat (length rtp_packet) ->
  block_pos + kTransmissionTimeOffsetLength <= rtp_packet_length ->
  block_pos + kTransmissionTimeOffsetLength
  <= RtpUtility.headerLength rtp_header ->
  byte_at rtp_packet (12 + RtpUtility.numCSRCs rtp_header) = 190 ->
  byte_at rtp_packet (12 + RtpUtility.numCSRCs rtp_header + 1) = 222 ->
  byte_at rtp_packet block_pos = u8 (Z.shiftl id 4 + 2) ->
  let patched :=
    UpdateTransmissionTimeOffset s rtp_packet rtp_packet_length rtp_header
      time_diff_ms in
  RtpUtility.BufferToUWord24 patched (block_pos + 1)
  = (time_diff_ms * 90) mod 16777216
  /\ (0 <= time_diff_ms * 90 < 16777216 ->
      RtpUtility.BufferToUWord24 patched (block_pos + 1)
      = time_diff_ms * 90).
Proof. apply UpdateTransmissionTimeOffset_writes. Qed.

(** When every check of [UpdateAudioLevel] passes it returns true and the
    byte after the extension's ID byte holds the voice flag in its top
    bit and the low seven bits of the level. *)
Theorem UpdateAudioLevel_value s rtp_packet rtp_packet_length rtp_header
    (is_voiced : bool) dBov id :
  RtpHeaderExtensionMap.GetId (rtp_header_extension_map_ s)
    kRtpExtensionAudioLevel = Some id ->
  let block_pos :=
    12 + RtpUtility.numCSRCs rtp_header
    + RtpHeaderExtensionMap.GetLengthUntilBlockStartInBytes
        (rtp_header_extension_map_ s) kRtpExtensionAudioLevel in
  0 <= RtpUtility.numCSRCs rtp_header ->
  rtp_packet_length <= Z.of_nat (length rtp_packet) ->
  block_pos + kAudioLevelLength <= rtp_packet_length ->
  block_pos + kAudioLevelLength <= RtpUtility.headerLength rtp_header ->
  byte_at rtp_packet (12 + RtpUtility.numCSRCs rtp_header) = 190 ->
  byte_at rtp_packet (12 + RtpUtility.numCSRCs rtp_header + 1) = 222 ->
  byte_at rtp_packet block_pos = u8 (Z.shiftl id 4 + 0) ->
  let '(patched, ok) :=
    UpdateAudioLevel s rtp_packet rtp_packet_length rtp_header is_voiced
      dBov in
  ok = true
  /\ byte_at patched (block_pos + 1)
     = (if is_voiced then 128 else 0) + Z.land dBov 127
  /\ forall i, i <> block_pos + 1 -> byte_at patched i = byte_at rtp_packet i.
Proof.
  intros Hid block_pos Hcsrc Hbuf Hlen Hhdr Hbe Hde Hfirst.
  unfold UpdateAudioLevel. rewrite Hid. fold block_pos.
  assert (Hpos : 4 <= RtpHeaderExtensionMap.GetLengthUntilBlockStartInBytes
                        (rtp_header_extension_map_ s)
                        kRtpExtensionAudioLevel).
  { unfold RtpHeaderExtensionMap.GetLengthUntilBlockStartInBytes.
    rewrite Hid. unfold kRtpOneByteHeaderLength.
    pose proof (length_before_nonneg (rtp_header_extension_map_ s)
                  kRtpExtensionAudioLevel). lia. }
  unfold kAudioLevelLength in *.
  repeat match goal with
         | |- context [if ?c then _ else _] =>
           lazymatch c with
           | is_voiced => fail
           | _ =>
             let Hc := fresh in
             assert (Hc : c = false)
               by (rewrite ?Hbe, ?Hde, ?Hfirst; cbn; lia);
             rewrite Hc; clear Hc
           end
         end.
  split; [done|]. split.
  - rewrite byte_at_set_byte_eq by lia.
    assert (Hlow : 0 <= Z.land dBov 127 < 128).
    { change 127 with (Z.ones 7). rewrite Z.land_ones by lia.
      apply Z.mod_pos_bound. lia. }
    apply u8_small. destruct is_voiced; lia.
  - intros i Hi. by rewrite byte_at_set_byte_ne by lia.
Qed.

(** None of the three updates resizes the packet, and none writes into
    the twelve bytes of the fixed header, past the packet length it is
    given or past the header length the parser found. *)
Theorem header_extension_updates_stay_inside s rtp_packet rtp_packet_length
    rtp_header time_diff_ms now_ms (is_voiced : bool) dBov :
  0 <= RtpUtility.numCSRCs rtp_header ->
  let inside (patched : list Z) :=
    length patched = length rtp_packet
    /\ forall i,
         i < 12 \/ rtp_packet_length <= i
         \/ RtpUtility.headerLength rtp_header <= i ->
         byte_at patched i = byte_at rtp_packet i in
  inside (UpdateTransmissionTimeOffset s rtp_packet rtp_packet_length
            rtp_header time_diff_ms)
  /\ inside (UpdateAbsoluteSendTime s rtp_packet rtp_packet_length
               rtp_header now_ms)
  /\ inside (UpdateAudioLevel s rtp_packet rtp_packet_length rtp_header
               is_voiced dBov).1.
Proof.
  intros Hcsrc inside. subst inside. cbn beta.
  unfold UpdateTransmissionTimeOffset, UpdateAbsoluteSendTime,
    UpdateAudioLevel, kTransmissionTimeOffsetLength,
    kAbsoluteSendTimeLength, kAudioLevelLength.
  repeat split; repeat case_match; cbn [fst];
    rewrite ?length_AssignUWord24ToBuffer, ?length_set_byte; try done;
    intros i Hi;
    repeat match goal with
           | Hor : _ || _ = false |- _ =>
             apply orb_false_iff in Hor as [? ?]
           end; zbool;
    rewrite ?byte_at_AssignUWord24ToBuffer_other by lia;
    rewrite ?byte_at_set_byte_ne by lia; done.
Qed.
End Patchers.

(** Ten milliseconds after capture the offset written is 900 ticks of the
    90 kHz clock. *)
Lemma UpdateTransmissionTimeOffset_value_witness :
  RtpUtility.BufferToUWord24
    (UpdateTransmissionTimeOffset sample_offset_sender sample_offset_packet
       420 sample_offset_header 10) 17 = 900.
Proof.
  refine (proj2 (UpdateTransmissionTimeOffset_value sample_offset_sender
                   sample_offset_packet 420 sample_offset_header 10 1
                   eq_refl _ _ _ _ _ _ _) _).
  all: vm_compute; try reflexivity; try (split; congruence); congruence.
Defined.

(** A voiced frame at -30 dBov: the level byte is 0x9E. *)
Lemma UpdateAudioLevel_value_witness :
  let '(patched, ok) :=
    UpdateAudioLevel sample_level_sender sample_level_packet 180
      sample_level_header true 30 in
  ok = true /\ byte_at patched 17 = 158.
Proof.
  pose proof (UpdateAudioLevel_value sample_level_sender sample_level_packet
                180 sample_level_header true 30 3 eq_refl) as Hw.
  cbn zeta in Hw.
  destruct (UpdateAudioLevel _ _ _ _ _ _) as [patched ok].
  destruct Hw as (Hok & Hbyte & _).
  1-7: vm_compute; try reflexivity; try (split; congruence); congruence.
  split; [exact Hok|]. exact Hbyte.
Defined.

Lemma header_extension_updates_stay_inside_witness :
  length (UpdateAbsoluteSendTime sample_abs_sender sample_abs_packet 420
            sample_abs_header 1500)
  = length sample_abs_packet.
Proof.
  destruct (header_extension_updates_stay_inside sample_abs_sender
              sample_abs_packet 420 sample_abs_header 0 1500 false 0)
    as (_ & [Hlen _] & _).
  - vm_compute. discriminate.
  - exact Hlen.
Defined.

(** ** Padding *)

Section Padding.
Context {H : Type} `{PacketHistoryOps H}.
Implicit Types s : RTPSender H.

(** No padding goes out in the middle of a frame, nor on the RTX stream
    before any media when the absolute send time is not in use: with
    sending on and RTX off, [SendPadData] after a packet without marker
    bit sends nothing, returns 0 and leaves the sender as it was, sequence
    number included, and so does [TimeToSendPadding]; with RTX on the
    same holds as long as [media_has_been_sent_] is not set and
    AbsoluteSendTime is not registered. *)
Theorem SendPadData_holds_back s payload_type timestamp capture_time_ms
    bytes :
  sending_media_ s = true ->
  0 < bytes ->
  (rtx_ s = kRtxOff /\ last_packet_marker_bit_ s = false)
  \/ (rtx_ s <> kRtxOff /\ media_has_been_sent_ s = false
      /\ RtpHeaderExtensionMap.IsRegistered (rtp_header_extension_map_ s)
           kRtpExtensionAbsoluteSendTime = false) ->
  SendPadData s payload_type timestamp capture_time_ms bytes = Some (s, 0)
  /\ (rtx_ s = kRtxOff ->
      forall fuel, TimeToSendPadding fuel s bytes = Some (s, 0)).
Proof.
  intros Hmedia Hbytes Hcase.
  assert (Hselect : SendPadData_select s = None).
  { unfold SendPadData_select.
    destruct Hcase as [[-> ->]|(Hrtx & -> & ->)]; [done|].
    by destruct (Z.eqb_spec (rtx_ s) kRtxOff). }
  assert (Hpad : forall payload_type timestamp capture_time_ms,
             SendPadData s payload_type timestamp capture_time_ms bytes
             = Some (s, 0)).
  { intros pt ts ct. unfold SendPadData. rewrite Hmedia. cbn [negb].
    destruct (Z.to_nat bytes) as [|fuel] eqn:Hfuel; [lia|].
    cbn [SendPadData_loop].
    destruct (Z.leb_spec bytes 0); [lia|]. by rewrite Hselect. }
  split; [apply Hpad|].
  intros Hoff fuel. unfold TimeToSendPadding. rewrite Hmedia, Hoff.
  cbn [negb]. change (Z.land kRtxOff kRtxRedundantPayloads) with 0.
  cbn [Z.eqb Z.ltb Z.compare negb].
  destruct (if 0 <? last_timestamp_time_ms_ s then _ else _)
    as [timestamp' capture_time_ms'].
  rewrite Z.sub_0_r. destruct (Z.ltb_spec 0 bytes); [|lia].
  by rewrite Hpad.
Qed.

Lemma BuildPaddingPacket_full s packet header_length bytes :
  kMaxPaddingLength <= bytes ->
  let r := BuildPaddingPacket s packet header_length bytes in
  r.2 = kMaxPaddingLength /\ length r.1.2 = length packet.
Proof.
  intros Hfull. cbn zeta. unfold BuildPaddingPacket.
  destruct (Z.ltb_spec bytes kMaxPaddingLength); [lia|].
  assert (Hfill : forall n s0 (p : list Z) pos,
             length (BuildPaddingPacket_fill n s0 p pos).2 = length p).
  { induction n as [|n IH]; intros s0 p pos; [done|].
    cbn [BuildPaddingPacket_fill]. unfold rand at 1. cbn zeta iota beta.
    by rewrite IH, !length_set_byte. }
  match goal with
  | |- context [BuildPaddingPacket_fill ?n ?a ?b ?c] =>
    pose proof (Hfill n a b c) as Hlen;
    destruct (BuildPaddingPacket_fill n a b c) as [s1 packet1]
  end.
  cbn [fst snd] in *. split; [done|].
  by rewrite length_set_byte, Hlen, length_set_byte.
Qed.

Lemma SendPadData_loop_accounting fuel s payload_type timestamp
    capture_time_ms bytes bytes_sent :
  bytes <= kMaxPaddingLength * Z.of_nat fuel ->
  exists s' l,
    SendPadData_loop fuel s payload_type timestamp capture_time_ms bytes
      bytes_sent
    = Some (s', bytes_sent
                + kMaxPaddingLength
                  * Z.of_nat (length (filter (fun e => 0 < e.2) l)))
    /\ transport_log s' = transport_log s ++ l
    /\ (bytes <= 0 -> l = [])
    /\ (0 < bytes ->
        kMaxPaddingLength * Z.of_nat (length l) < bytes + kMaxPaddingLength)
    /\ (forall i e, l !! i = Some e -> (S i < length l)%nat -> 0 < e.2).
Proof.
  revert s bytes bytes_sent.
  induction fuel as [|fuel IH]; intros s bytes bytes_sent Hfuel;
    cbn [SendPadData_loop].
  { destruct (Z.leb_spec bytes 0); [|unfold kMaxPaddingLength in *; lia].
    exists s, []. cbn [filter list_filter length]. rewrite app_nil_r.
    split; [do 2 f_equal; lia|]. split; [done|]. split; [done|].
    split; [lia|]. intros i e Hi. by rewrite lookup_nil in Hi. }
  assert (Hnone : forall s0 : RTPSender H,
             transport_log s0 = transport_log s ->
             exists s' l,
               Some (s0, bytes_sent)
               = Some (s', bytes_sent
                           + kMaxPaddingLength
                             * Z.of_nat
                                 (length (filter (fun e => 0 < e.2) l)))
               /\ transport_log s' = transport_log s ++ l
               /\ (bytes <= 0 -> l = [])
               /\ (0 < bytes ->
                   kMaxPaddingLength * Z.of_nat (length l)
                   < bytes + kMaxPaddingLength)
               /\ (forall i e, l !! i = Some e -> (S i < length l)%nat ->
                     0 < e.2)).
  { intros s0 Hlog. exists s0, []. cbn [filter list_filter length].
    rewrite app_nil_r.
    split; [do 2 f_equal; lia|]. split; [done|]. split; [done|].
    split; [unfold kMaxPaddingLength; lia|].
    intros i e Hi. by rewrite lookup_nil in Hi. }
  destruct (Z.leb_spec bytes 0) as [Hle|Hpos]; [by apply Hnone|].
  set (bytes' := if bytes <? kMaxPaddingLength then kMaxPaddingLength
                 else bytes).
  assert (Hbytes' : kMaxPaddingLength <= bytes'
                    /\ (kMaxPaddingLength <= bytes -> bytes' = bytes)
                    /\ (bytes < kMaxPaddingLength
                        -> bytes' = kMaxPaddingLength))
    by (subst bytes'; destruct (Z.ltb_spec bytes kMaxPaddingLength); lia).
  clearbody bytes'. destruct Hbytes' as (Hfull & Hsame & Hround).
  destruct (SendPadData_select s)
    as [[[[s1 ssrc] sequence_number] over_rtx]|] eqn:Hsel;
    [|by apply Hnone].
  assert (Hlog1 : transport_log s1 = transport_log s).
  { unfold SendPadData_select in Hsel.
    repeat case_match; simplify_eq; done. }
  destruct (CreateRTPHeader _ _ _ _ _ _ _ _ _)
    as [padding_packet header_length].
  pose proof (BuildPaddingPacket_full s1 padding_packet header_length bytes'
                Hfull) as Hpad.
  pose proof (BuildPaddingPacket_frame s1 padding_packet header_length
                bytes') as [_ Hlog2].
  destruct (BuildPaddingPacket s1 padding_packet header_length bytes')
    as [[s2 packet2] padding_bytes_in_packet].
  cbn zeta in Hpad. cbn [fst snd] in Hpad, Hlog2. destruct Hpad as [-> _].
  unfold SendPacketToNetwork.
  destruct (transport_ (collab s2)) as [transport|];
    [|cbn [negb]; apply Hnone; congruence].
  set (data := take _ _). set (n := transport _ data).
  destruct (Z.leb_spec n 0) as [Hrejected|Haccepted]; cbn [negb].
  - exists (set_transport_log (transport_log s2 ++ [(data, n)]) s2),
      [(data, n)].
    cbn [filter list_filter]. rewrite decide_False by (cbn; lia).
    cbn [length]. sender_simpl.
    split; [do 2 f_equal; lia|]. split; [congruence|]. split; [lia|].
    split; [unfold kMaxPaddingLength; lia|].
    intros i e Hi Hlast. cbn [length] in Hlast. lia.
  - destruct (IH (set_transport_log (transport_log s2 ++ [(data, n)]) s2)
                (bytes' - kMaxPaddingLength)
                (bytes_sent + kMaxPaddingLength))
      as (s' & l & Hloop & Hlog & Hnil & Hbound & Hall).
    { unfold kMaxPaddingLength in *. lia. }
    exists s', ((data, n) :: l). rewrite Hloop.
    rewrite filter_cons, decide_True by (cbn; lia).
    cbn [length]. sender_simpl_in Hlog.
    split; [do 2 f_equal; lia|].
    split; [rewrite Hlog, <- app_assoc; cbn [app]; congruence|].
    split; [lia|]. split.
    + intros _. destruct (Z.le_gt_cases (bytes' - kMaxPaddingLength) 0)
        as [Hdone|Hmore].
      * rewrite (Hnil Hdone). cbn [length]. unfold kMaxPaddingLength. lia.
      * specialize (Hbound ltac:(lia)). unfold kMaxPaddingLength in *. lia.
    + intros [|i] e Hi Hlast; [by injection Hi as <-|].
      cbn [lookup list_lookup] in Hi. cbn [length] in Hlast.
      apply (Hall i e Hi). lia.
Qed.


(** *** With RTX off, after the last packet of a frame *)

Lemma length_UpdateTransmissionTimeOffset s rtp_packet rtp_packet_length
    rtp_header time_diff_ms :
  length (UpdateTransmissionTimeOffset s rtp_packet rtp_packet_length
            rtp_header time_diff_ms) = length rtp_packet.
Proof.
  unfold UpdateTransmissionTimeOffset.
  repeat case_match; rewrite ?length_AssignUWord24ToBuffer; done.
Qed.

Lemma length_UpdateAbsoluteSendTime s rtp_packet rtp_packet_length
    rtp_header now_ms :
  length (UpdateAbsoluteSendTime s rtp_packet rtp_packet_length rtp_header
            now_ms) = length rtp_packet.
Proof.
  unfold UpdateAbsoluteSendTime.
  repeat case_match; rewrite ?length_AssignUWord24ToBuffer; done.
Qed.

Lemma BuildPaddingPacket_fill_state n s packet pos :
  (BuildPaddingPacket_fill n s packet pos).1
  = set_rand_calls (n + rand_calls s) s.
Proof.
  revert s packet pos. induction n as [|n IH]; intros s packet pos.
  - by destruct s.
  - cbn [BuildPaddingPacket_fill]. unfold rand at 1. cbn zeta iota beta.
    rewrite IH. sender_simpl. by rewrite Nat.add_succ_r.
Qed.

Lemma BuildPaddingPacket_state s packet header_length bytes :
  exists k,
    (BuildPaddingPacket s packet header_length bytes).1.1
    = set_rand_calls k s.
Proof.
  unfold BuildPaddingPacket.
  match goal with
  | |- context [BuildPaddingPacket_fill ?n ?a ?b ?c] =>
    pose proof (BuildPaddingPacket_fill_state n a b c) as Hfill;
    destruct (BuildPaddingPacket_fill n a b c) as [s1 packet1]
  end.
  cbn [fst] in *. by eexists.
Qed.

Lemma padding_rounds bytes :
  0 < bytes ->
  let bytes' :=
    if bytes <? kMaxPaddingLength then kMaxPaddingLength else bytes in
  (bytes + 223) / 224
  = 1 + (if bytes' - kMaxPaddingLength <=? 0 then 0
         else (bytes' - kMaxPaddingLength + 223) / 224).
Proof.
  intros Hbytes. cbn zeta. unfold kMaxPaddingLength.
  destruct (Z.ltb_spec bytes 224);
    match goal with
    | |- context [?a <=? 0] => destruct (Z.leb_spec a 0)
    end; Z.to_euclidean_division_equations; lia.
Qed.

Lemma SendPadData_loop_rtx_off fuel s payload_type timestamp
    capture_time_ms bytes bytes_sent transport :
  rtx_ s = kRtxOff ->
  last_packet_marker_bit_ s = true ->
  transport_ (collab s) = Some transport ->
  (forall k packet, packet <> [] -> 0 < transport k packet) ->
  (length (rtp_header_extension_map_ s) <= 3)%nat ->
  0 <= sequence_number_ s < 65536 ->
  bytes <= kMaxPaddingLength * Z.of_nat fuel ->
  let n := if bytes <=? 0 then 0 else (bytes + 223) / 224 in
  exists s' l,
    SendPadData_loop fuel s payload_type timestamp capture_time_ms bytes
      bytes_sent
    = Some (s', bytes_sent + kMaxPaddingLength * n)
    /\ transport_log s' = transport_log s ++ l
    /\ Z.of_nat (length l) = n
    /\ Forall (fun e =>
                 Z.of_nat (length e.1)
                 = 12 + RtpHeaderExtensionTotalLength s + kMaxPaddingLength
                 /\ 0 < e.2) l
    /\ sequence_number_ s' = u16 (sequence_number_ s + n)
    /\ sequence_number_rtx_ s' = sequence_number_rtx_ s.
Proof.
  intros Hrtx Hmarker Htransport Haccepts Hsize Hseq.
  revert s bytes bytes_sent Hrtx Hmarker Htransport Hsize Hseq.
  induction fuel as [|fuel IH];
    intros s bytes bytes_sent Hrtx Hmarker Htransport Hsize Hseq Hfuel;
    cbn [SendPadData_loop]; cbn zeta.
  { destruct (Z.leb_spec bytes 0); [|unfold kMaxPaddingLength in *; lia].
    exists s, []. rewrite app_nil_r, Z.mul_0_r, !Z.add_0_r.
    repeat split; try done.
    unfold u16. by rewrite Z.mod_small. }
  destruct (Z.leb_spec bytes 0) as [Hle|Hpos].
  { exists s, []. rewrite app_nil_r, Z.mul_0_r, !Z.add_0_r.
    repeat split; try done.
    unfold u16. by rewrite Z.mod_small. }
  pose proof (padding_rounds bytes Hpos) as Hrounds. cbn zeta in Hrounds.
  set (bytes' := if bytes <? kMaxPaddingLength then kMaxPaddingLength
                 else bytes) in *.
  assert (Hfull : kMaxPaddingLength <= bytes'
                  /\ bytes' - kMaxPaddingLength
                     <= kMaxPaddingLength * Z.of_nat fuel).
  { subst bytes'. unfold kMaxPaddingLength in *.
    destruct (Z.ltb_spec bytes 224); lia. }
  clearbody bytes'. destruct Hfull as [Hfull Hfuel'].
  unfold SendPadData_select. rewrite Hrtx, Hmarker. cbn [Z.eqb negb].
  change (kRtxOff =? kRtxOff) with true. cbn iota.
  set (s1 := set_sequence_number_ _ s).
  pose proof (CreateRTPHeader_length s1
                (replicate (Z.to_nat IP_PACKET_SIZE) 0) (i8 payload_type)
                (ssrc_ s) false timestamp (sequence_number_ s) [] 0)
    as Hheader.
  destruct (CreateRTPHeader _ _ _ _ _ _ _ _ _)
    as [padding_packet header_length].
  cbn zeta in Hheader. cbn [fst snd] in Hheader.
  destruct Hheader as [Hlen0 ->]; [unfold kRtpCsrcSize; lia|done|].
  assert (Hext1 : RtpHeaderExtensionTotalLength s1
                  = RtpHeaderExtensionTotalLength s) by done.
  rewrite Hext1. clear Hext1.
  pose proof (RtpHeaderExtensionTotalLength_bounds s Hsize) as Hext.
  set (header_length := 12 + 4 * 0 + RtpHeaderExtensionTotalLength s).
  pose proof (BuildPaddingPacket_full s1 padding_packet header_length bytes'
                Hfull) as Hpad.
  destruct (BuildPaddingPacket_state s1 padding_packet header_length bytes')
    as [k Hstate].
  destruct (BuildPaddingPacket s1 padding_packet header_length bytes')
    as [[s2 packet2] padding_bytes_in_packet].
  cbn zeta in Hpad. cbn [fst snd] in Hpad, Hstate.
  destruct Hpad as [-> Hlen2]. subst s2.
  set (s2 := set_rand_calls k s1).
  set (length0 := kMaxPaddingLength + header_length).
  assert (Hlength0 : u16 length0 = length0 /\ u32 length0 = length0
                     /\ 0 < length0 <= IP_PACKET_SIZE).
  { subst length0 header_length.
    unfold u16, u32, kMaxPaddingLength, IP_PACKET_SIZE.
    rewrite !Z.mod_small by lia. lia. }
  destruct Hlength0 as (Hu16 & Hu32 & Hrange).
  rewrite Hu16, Hu32.
  set (packet3 := UpdateAbsoluteSendTime s2 _ _ _ _).
  assert (Hlen3 : length packet3 = Z.to_nat IP_PACKET_SIZE).
  { subst packet3. rewrite length_UpdateAbsoluteSendTime.
    destruct (0 <? capture_time_ms);
      rewrite ?length_UpdateTransmissionTimeOffset;
      rewrite Hlen2, Hlen0; apply length_replicate. }
  clearbody packet3.
  unfold SendPacketToNetwork.
  assert (Hcollab : collab s2 = collab s) by done.
  rewrite Hcollab, Htransport.
  set (data := take (Z.to_nat length0) packet3).
  assert (Hdata : Z.of_nat (length data) = length0).
  { subst data. rewrite length_take, Hlen3. lia. }
  assert (Hnonempty : data <> []).
  { intros Hnil. rewrite Hnil in Hdata. cbn in Hdata. lia. }
  pose proof (Haccepts (length (transport_log s2)) data Hnonempty)
    as Hgot.
  set (got := transport _ data) in *.
  destruct (Z.leb_spec got 0) as [?|_]; [lia|]. cbn [negb].
  set (s3 := set_transport_log _ s2).
  destruct (IH s3 (bytes' - kMaxPaddingLength)
              (bytes_sent + kMaxPaddingLength))
    as (s' & l & Hloop & Hlog & Hcount & Hall & Hseq' & Hrtxseq);
    try done.
  { subst s3 s2 s1. sender_simpl. unfold u16. apply Z.mod_pos_bound. lia. }
  exists s', ((data, got) :: l). rewrite Hloop.
  assert (Hlog3 : transport_log s3 = transport_log s ++ [(data, got)])
    by done.
  assert (Hseq3 : sequence_number_ s3 = u16 (sequence_number_ s + 1))
    by done.
  assert (Hext3 : RtpHeaderExtensionTotalLength s3
                  = RtpHeaderExtensionTotalLength s) by done.
  assert (Hrtx3 : sequence_number_rtx_ s3 = sequence_number_rtx_ s) by done.
  clearbody s3 s2 s1.
  rewrite Hrounds.
  set (n' := if bytes' - kMaxPaddingLength <=? 0 then 0 else _) in *.
  split; [do 2 f_equal; lia|].
  split; [rewrite Hlog, Hlog3, <- app_assoc; done|].
  split; [cbn [length]; lia|]. split.
  - constructor.
    + cbn [fst snd]. split; [|done]. rewrite Hdata.
      subst length0 header_length. lia.
    + by rewrite Hext3 in Hall.
  - split; [|congruence]. rewrite Hseq', Hseq3. unfold u16.
    rewrite Z.add_mod_idemp_l by lia. f_equal. lia.
Qed.

End Padding.

(** A fresh sender has sent no frame yet: a request for 500 bytes of
    padding sends nothing. *)
Lemma SendPadData_holds_back_witness :
  SendPadData sample_video_sender 100 0 0 500 = Some (sample_video_sender, 0)
  /\ TimeToSendPadding 0 sample_video_sender 500
     = Some (sample_video_sender, 0).
Proof.
  destruct (SendPadData_holds_back sample_video_sender 100 0 0 500)
    as [Hpad Htime].
  - vm_compute. reflexivity.
  - lia.
  - left. split; vm_compute; reflexivity.
  - split; [exact Hpad|]. apply Htime. vm_compute. reflexivity.
Defined.



(** ** A new sender *)

Section Construction.
Context {H : Type} `{PacketHistoryOps H}.
Implicit Types s : RTPSender H.

Lemma initial_sequence_number r :
  Z.land (u16 (r + 1)) 32767 = (r + 1) mod 32768.
Proof.
  change 32767 with (Z.ones 15). rewrite Z.land_ones by lia.
  unfold u16. change (2 ^ 15) with 32768.
  Z.to_euclidean_division_equations. lia.
Qed.

(** The constructor takes two identifiers from the allocator, first the
    media SSRC and then the RTX SSRC, and both are in use afterwards; they
    differ whenever the allocator's second answer is not an identifier
    already in use. The two sequence numbers are the first two values of
    [rand()], each plus one and cut to 15 bits: a number from 0 to 32767,
    which is 0 when [rand()] returns 32767. Nothing is marked as set from
    outside and no media counts as sent. *)
Theorem new_RTPSender_initial c audio clock tick db (h : H) :
  let s := new_RTPSender c audio clock tick db h in
  SSRC s = CreateSSRC c db
  /\ RtxSsrc s = CreateSSRC c (SSRCDatabase.RegisterSSRC db (SSRC s))
  /\ ssrc_db_ s
     = SSRCDatabase.RegisterSSRC (SSRCDatabase.RegisterSSRC db (SSRC s))
         (RtxSsrc s)
  /\ (RtxSsrc s ∉ SSRCDatabase.RegisterSSRC db (SSRC s) ->
      SSRC s <> RtxSsrc s)
  /\ sequence_number_rtx_ s = (rand_ c 0 + 1) mod 32768
  /\ SequenceNumber s = (rand_ c 1 + 1) mod 32768
  /\ 0 <= SequenceNumber s <= 32767
  /\ (rand_ c 1 = 32767 -> SequenceNumber s = 0)
  /\ ssrc_forced_ s = false /\ sequence_number_forced_ s = false
  /\ start_timestamp_forced_ s = false /\ media_has_been_sent_ s = false.
Proof.
  cbn zeta. unfold new_RTPSender, ssrc_db_CreateSSRC, rand, SSRC, RtxSsrc,
    SequenceNumber. sender_simpl.
  rewrite !initial_sequence_number.
  split; [done|]. split; [done|]. split; [done|]. split.
  { intros Hfresh Heq. apply Hfresh. rewrite <- Heq.
    unfold SSRCDatabase.RegisterSSRC. apply elem_of_union. left.
    by apply elem_of_singleton. }
  split; [done|]. split; [done|]. split.
  { pose proof (Z.mod_pos_bound (rand_ c 1 + 1) 32768). lia. }
  split; [by intros ->|]. done.
Qed.
End Construction.

(** The sample allocator hands out 1 and then 2. *)
Lemma new_RTPSender_initial_witness :
  SSRC sample_video_sender = 1 /\ RtxSsrc sample_video_sender = 2
  /\ SSRC sample_video_sender <> RtxSsrc sample_video_sender.
Proof.
  destruct (new_RTPSender_initial sample_collab false 1500 1500 ∅
              RTPPacketHistory.empty)
    as (Hssrc & Hrtx & _ & Hdiffer & _).
  fold sample_video_sender in Hssrc, Hrtx, Hdiffer.
  assert (H1 : SSRC sample_video_sender = 1) by (vm_compute; reflexivity).
  assert (H2 : RtxSsrc sample_video_sender = 2) by (vm_compute; reflexivity).
  split; [exact H1|]. split; [exact H2|]. apply Hdiffer.
  rewrite H1, H2. unfold SSRCDatabase.RegisterSSRC.
  intros [Hin|Hin]%elem_of_union.
  - apply elem_of_singleton in Hin. discriminate Hin.
  - by apply elem_of_empty in Hin.
Defined.

(** ** The builder and the update agree on where the offset is *)

Section Agreement.
Context {H : Type} `{PacketHistoryOps H}.
Implicit Types s : RTPSender H.

Lemma byte_at_BuildRTPHeaderExtension_loop_below s types data_buffer base
    acc i :
  (forall e, e ∈ types -> e ∈ rtp_header_extension_map_ s) ->
  0 <= acc -> acc + RtpHeaderExtensionMap.blocks_length types < 65536 ->
  i < base + kRtpOneByteHeaderLength + acc ->
  byte_at (BuildRTPHeaderExtension_loop s types data_buffer base acc).1 i
  = byte_at data_buffer i.
Proof.
  revert data_buffer acc.
  induction types as [|[id type] types IH];
    intros data_buffer acc Hsub Hacc Hsum Hi;
    cbn [BuildRTPHeaderExtension_loop]; [done|].
  unfold RtpHeaderExtensionMap.blocks_length in Hsum.
  cbn [foldr snd] in Hsum.
  fold (RtpHeaderExtensionMap.blocks_length types) in Hsum.
  pose proof (blocks_length_bounds types) as Hb.
  pose proof (extension_length_range type) as Hrange.
  assert (Hreg : is_Some (RtpHeaderExtensionMap.GetId
                            (rtp_header_extension_map_ s) type))
    by (eapply GetId_member, Hsub; by left).
  pose proof (Build_extension_block s type data_buffer
                (base + kRtpOneByteHeaderLength + acc) Hreg) as Hblock.
  pose proof (byte_at_extension_block s type data_buffer
                (base + kRtpOneByteHeaderLength + acc) i Hi) as Hframe.
  cbn zeta in Hblock.
  destruct (match type with
            | kRtpExtensionNone => _ | _ => _ end) as [buffer1 block_length].
  cbn [fst snd] in Hblock, Hframe. destruct Hblock as [_ ->].
  unfold u16. rewrite Z.mod_small by lia.
  rewrite IH; [done| |lia|lia|lia].
  intros e He. apply Hsub. by right.
Qed.

Lemma length_before_blocks_length (m : RtpHeaderExtensionMap.t) type :
  is_Some (RtpHeaderExtensionMap.GetId m type) ->
  RtpHeaderExtensionMap.length_before m type
  + RtpHeaderExtensionMap.extension_length type
  <= RtpHeaderExtensionMap.blocks_length m.
Proof.
  unfold RtpHeaderExtensionMap.blocks_length.
  induction m as [|[id type'] m IH];
    cbn [RtpHeaderExtensionMap.GetId RtpHeaderExtensionMap.length_before
         foldr snd].
  - by intros [? ?].
  - fold (RtpHeaderExtensionMap.blocks_length m) in *.
    pose proof (blocks_length_bounds m).
    destruct (decide (type' = type)) as [->|Hne]; [lia|].
    intros Hreg. specialize (IH Hreg). lia.
Qed.

(** The block of the transmission time offset as the loop leaves it. *)
Lemma BuildRTPHeaderExtension_loop_offset s types data_buffer base acc id :
  (forall e, e ∈ types -> e ∈ rtp_header_extension_map_ s) ->
  RtpHeaderExtensionMap.GetId (rtp_header_extension_map_ s)
    kRtpExtensionTransmissionTimeOffset = Some id ->
  is_Some (RtpHeaderExtensionMap.GetId types
             kRtpExtensionTransmissionTimeOffset) ->
  0 <= base -> 0 <= acc ->
  acc + RtpHeaderExtensionMap.blocks_length types < 65536 ->
  base + kRtpOneByteHeaderLength + acc
  + RtpHeaderExtensionMap.blocks_length types
  <= Z.of_nat (length data_buffer) ->
  let r := BuildRTPHeaderExtension_loop s types data_buffer base acc in
  let pos :=
    base + kRtpOneByteHeaderLength + acc
    + RtpHeaderExtensionMap.length_before types
        kRtpExtensionTransmissionTimeOffset in
  byte_at r.1 pos = u8 (Z.shiftl id 4 + 2)
  /\ RtpUtility.BufferToUWord24 r.1 (pos + 1)
     = u32 (transmission_time_offset_ s) mod 16777216.
Proof.
  intros Hsub Hid. revert data_buffer acc Hsub.
  induction types as [|[id' type] types IH];
    intros data_buffer acc Hsub Hreg Hbase Hacc Hsum Hfit;
    [by destruct Hreg|].
  cbn [BuildRTPHeaderExtension_loop RtpHeaderExtensionMap.length_before
       RtpHeaderExtensionMap.GetId] in *.
  unfold RtpHeaderExtensionMap.blocks_length in Hsum, Hfit.
  cbn [foldr snd] in Hsum, Hfit.
  fold (RtpHeaderExtensionMap.blocks_length types) in Hsum, Hfit.
  pose proof (blocks_length_bounds types) as Hb.
  pose proof (extension_length_range type) as Hrange.
  assert (Hrest : forall e, e ∈ types -> e ∈ rtp_header_extension_map_ s)
    by (intros e He; apply Hsub; by right).
  unfold kRtpOneByteHeaderLength in *.
  destruct (decide (type = kRtpExtensionTransmissionTimeOffset))
    as [->|Hne].
  - cbn zeta. rewrite Z.add_0_r.
    unfold BuildTransmissionTimeOffsetExtension. rewrite Hid.
    cbv beta iota zeta.
    unfold kTransmissionTimeOffsetLength, u16.
    cbn [RtpHeaderExtensionMap.extension_length] in *.
    unfold kTransmissionTimeOffsetLength in *.
    rewrite Z.mod_small by lia.
    set (p := base + 4 + acc).
    set (block := RtpUtility.AssignUWord24ToBuffer _ (p + 1) _).
    assert (Hblock : byte_at block p = u8 (Z.shiftl id 4 + 2)
                     /\ RtpUtility.BufferToUWord24 block (p + 1)
                        = u32 (transmission_time_offset_ s) mod 16777216).
    { subst block. split.
      - rewrite byte_at_AssignUWord24ToBuffer_other by lia.
        apply byte_at_set_byte_eq. lia.
      - apply BufferToUWord24_AssignUWord24ToBuffer_low;
          rewrite ?length_set_byte; try lia.
        unfold u32. apply Z.mod_pos_bound. lia. }
    destruct Hblock as [Hfirst Hvalue]. clearbody block.
    assert (Hbelow : forall i, i < p + 4 ->
               byte_at (BuildRTPHeaderExtension_loop s types block base
                          (acc + 4)).1 i = byte_at block i).
    { intros i Hi. apply byte_at_BuildRTPHeaderExtension_loop_below;
        unfold kRtpOneByteHeaderLength; try done; lia. }
    unfold RtpUtility.BufferToUWord24 in Hvalue |- *.
    rewrite !Hbelow by lia. split; [exact Hfirst|exact Hvalue].
  - cbn zeta.
    assert (Hreg' : is_Some (RtpHeaderExtensionMap.GetId
                               (rtp_header_extension_map_ s) type))
      by (eapply GetId_member, Hsub; by left).
    pose proof (Build_extension_block s type data_buffer
                  (base + 4 + acc) Hreg') as Hblock.
    cbn zeta in Hblock.
    destruct (match type with
              | kRtpExtensionNone => _ | _ => _ end)
      as [buffer1 block_length].
    cbn [fst snd] in Hblock. destruct Hblock as [Hlen ->].
    unfold u16. rewrite Z.mod_small by lia.
    destruct (IH buffer1
                (acc + RtpHeaderExtensionMap.extension_length type) Hrest)
      as [Hfirst Hvalue]; try done; try lia.
    cbn zeta in Hfirst, Hvalue.
    replace (base + 4 + acc
             + (RtpHeaderExtensionMap.extension_length type
                + RtpHeaderExtensionMap.length_before types
                    kRtpExtensionTransmissionTimeOffset))
      with (base + 4 + (acc + RtpHeaderExtensionMap.extension_length type)
            + RtpHeaderExtensionMap.length_before types
                kRtpExtensionTransmissionTimeOffset) by lia.
    done.
Qed.

Lemma GetId_nonempty (m : RtpHeaderExtensionMap.t) type :
  is_Some (RtpHeaderExtensionMap.GetId m type) -> (0 < length m)%nat.
Proof. destruct m; [by intros [? ?]|cbn; lia]. Qed.

Lemma BuildRTPHeaderExtension_offset s data_buffer base id :
  RtpHeaderExtensionMap.GetId (rtp_header_extension_map_ s)
    kRtpExtensionTransmissionTimeOffset = Some id ->
  (length (rtp_header_extension_map_ s) <= 3)%nat ->
  0 <= base ->
  base + RtpHeaderExtensionTotalLength s <= Z.of_nat (length data_buffer) ->
  let r := BuildRTPHeaderExtension s data_buffer base in
  let pos :=
    base + RtpHeaderExtensionMap.GetLengthUntilBlockStartInBytes
             (rtp_header_extension_map_ s)
             kRtpExtensionTransmissionTimeOffset in
  byte_at r.1 base = 190 /\ byte_at r.1 (base + 1) = 222
  /\ byte_at r.1 pos = u8 (Z.shiftl id 4 + 2)
  /\ RtpUtility.BufferToUWord24 r.1 (pos + 1)
     = u32 (transmission_time_offset_ s) mod 16777216.
Proof.
  intros Hid Hsize Hbase Hfit. cbn zeta.
  assert (Hreg : is_Some (RtpHeaderExtensionMap.GetId
                            (rtp_header_extension_map_ s)
                            kRtpExtensionTransmissionTimeOffset))
    by (by rewrite Hid).
  pose proof (GetId_nonempty _ _ Hreg) as Hne.
  pose proof (length_before_blocks_length _ _ Hreg) as Hbefore.
  pose proof (length_before_nonneg (rtp_header_extension_map_ s)
                kRtpExtensionTransmissionTimeOffset) as Hnn.
  pose proof (blocks_length_bounds (rtp_header_extension_map_ s)) as Hb.
  cbn [RtpHeaderExtensionMap.extension_length] in Hbefore.
  unfold kTransmissionTimeOffsetLength in Hbefore.
  unfold RtpHeaderExtensionTotalLength,
    RtpHeaderExtensionMap.GetTotalLengthInBytes in Hfit.
  destruct (Z.ltb_spec 0 (RtpHeaderExtensionMap.blocks_length
                            (rtp_header_extension_map_ s))) as [_|?];
    [|lia].
  unfold kRtpOneByteHeaderLength in Hfit.
  unfold BuildRTPHeaderExtension, RtpHeaderExtensionMap.Size,
    RtpHeaderExtensionMap.GetLengthUntilBlockStartInBytes.
  rewrite Hid.
  destruct (Z.leb_spec (Z.of_nat (length (rtp_header_extension_map_ s))) 0)
    as [?|_]; [lia|].
  cbv zeta.
  set (start := RtpUtility.AssignUWord16ToBuffer data_buffer base
                  kRtpOneByteHeaderExtensionId).
  assert (Hstart : length start = length data_buffer)
    by (subst start; apply length_AssignUWord16ToBuffer).
  assert (Hbe : byte_at start base = 190 /\ byte_at start (base + 1) = 222).
  { subst start. unfold RtpUtility.AssignUWord16ToBuffer. split.
    - rewrite byte_at_set_byte_ne by lia.
      rewrite byte_at_set_byte_eq by lia. done.
    - rewrite byte_at_set_byte_eq by (rewrite length_set_byte; lia). done. }
  clearbody start.
  pose proof (BuildRTPHeaderExtension_loop_total s
                (rtp_header_extension_map_ s) start base 0
                ltac:(done) ltac:(lia) ltac:(lia)) as Htotal.
  pose proof (BuildRTPHeaderExtension_loop_offset s
                (rtp_header_extension_map_ s) start base 0 id
                ltac:(done) Hid Hreg Hbase ltac:(lia) ltac:(lia)) as Hoff.
  pose proof (fun i => byte_at_BuildRTPHeaderExtension_loop s
                (rtp_header_extension_map_ s) start base 0 i
                ltac:(lia)) as Hframe.
  unfold kRtpOneByteHeaderLength in *.
  destruct (BuildRTPHeaderExtension_loop s (rtp_header_extension_map_ s)
              start base 0) as [buffer1 total_block_length].
  cbn zeta in Htotal, Hoff. cbn [fst snd] in Htotal, Hoff, Hframe.
  destruct Htotal as [Hlen1 ->].
  specialize (Hoff ltac:(lia)). destruct Hoff as [Hfirst Hvalue].
  rewrite Z.add_0_r in Hfirst, Hvalue. rewrite Z.add_0_l.
  destruct (Z.eqb_spec (RtpHeaderExtensionMap.blocks_length
                          (rtp_header_extension_map_ s)) 0) as [?|_];
    [lia|].
  cbn [fst snd].
  unfold RtpUtility.BufferToUWord24 in *.
  rewrite Z.add_assoc.
  rewrite !byte_at_AssignUWord16ToBuffer_other by lia.
  rewrite !Hframe by lia. destruct Hbe as [-> ->].
  split; [done|]. split; [done|]. split; [exact Hfirst|exact Hvalue].
Qed.

Lemma CreateRTPHeader_offset s header payload_type ssrc (marker_bit : bool)
    timestamp sequence_number csrcs id :
  RtpHeaderExtensionMap.GetId (rtp_header_extension_map_ s)
    kRtpExtensionTransmissionTimeOffset = Some id ->
  (length (rtp_header_extension_map_ s) <= 3)%nat ->
  12 + RtpHeaderExtensionTotalLength s <= Z.of_nat (length header) ->
  let r :=
    CreateRTPHeader s header payload_type ssrc marker_bit timestamp
      sequence_number csrcs 0 in
  let pos :=
    12 + RtpHeaderExtensionMap.GetLengthUntilBlockStartInBytes
           (rtp_header_extension_map_ s)
           kRtpExtensionTransmissionTimeOffset in
  byte_at r.1 12 = 190 /\ byte_at r.1 13 = 222
  /\ byte_at r.1 pos = u8 (Z.shiftl id 4 + 2)
  /\ RtpUtility.BufferToUWord24 r.1 (pos + 1)
     = u32 (transmission_time_offset_ s) mod 16777216.
Proof.
  intros Hid Hsize Hfit. cbn zeta. unfold CreateRTPHeader.
  change (0 <? 0) with false. cbn [andb]. cbv iota.
  set (fixed := RtpUtility.AssignUWord32ToBuffer _ 8 ssrc).
  assert (Hfixed : length fixed = length header).
  { subst fixed. rewrite !length_AssignUWord32ToBuffer,
      length_AssignUWord16ToBuffer.
    destruct marker_bit; by rewrite !length_set_byte. }
  clearbody fixed.
  pose proof (BuildRTPHeaderExtension_offset s fixed 12 id Hid Hsize
                ltac:(lia) ltac:(lia)) as Hext.
  destruct (BuildRTPHeaderExtension s fixed 12) as [header2 len].
  cbn zeta in Hext. cbn [fst snd] in Hext.
  assert (Hpos : 4 <= RtpHeaderExtensionMap.GetLengthUntilBlockStartInBytes
                        (rtp_header_extension_map_ s)
                        kRtpExtensionTransmissionTimeOffset).
  { unfold RtpHeaderExtensionMap.GetLengthUntilBlockStartInBytes,
      kRtpOneByteHeaderLength. rewrite Hid.
    pose proof (length_before_nonneg (rtp_header_extension_map_ s)
                  kRtpExtensionTransmissionTimeOffset). lia. }
  destruct (0 <? len); cbn [fst snd]; [|exact Hext].
  unfold RtpUtility.BufferToUWord24 in *.
  rewrite !byte_at_set_byte_ne by lia. exact Hext.
Qed.

Lemma BuildRTPheader_offset_block s data_buffer payload_type
    (marker_bit : bool) capture_timestamp capture_time_ms
    (timestamp_provided inc_sequence_number : bool) rtp_header
    time_diff_ms id :
  RtpHeaderExtensionMap.GetId (rtp_header_extension_map_ s)
    kRtpExtensionTransmissionTimeOffset = Some id ->
  num_csrcs_ s = 0 ->
  (length (rtp_header_extension_map_ s) <= 3)%nat ->
  RTPHeaderLength s <= Z.of_nat (length data_buffer) ->
  RtpUtility.numCSRCs rtp_header = 0 ->
  RtpUtility.headerLength rtp_header = RTPHeaderLength s ->
  let '(s', packet, len) :=
    BuildRTPheader s data_buffer payload_type marker_bit capture_timestamp
      capture_time_ms timestamp_provided inc_sequence_number in
  let pos :=
    12 + RtpHeaderExtensionMap.GetLengthUntilBlockStartInBytes
           (rtp_header_extension_map_ s)
           kRtpExtensionTransmissionTimeOffset in
  let patched :=
    UpdateTransmissionTimeOffset s' packet len rtp_header time_diff_ms in
  RtpUtility.BufferToUWord24 packet (pos + 1)
  = u32 (transmission_time_offset_ s) mod 16777216
  /\ RtpUtility.BufferToUWord24 patched (pos + 1)
     = (time_diff_ms * 90) mod 16777216.
Proof.
  intros Hid Hnone Hsize Hfit Hcc Hhl.
  pose proof (RtpHeaderExtensionTotalLength_bounds s Hsize) as Hext.
  assert (Hhl' : RTPHeaderLength s = 12 + RtpHeaderExtensionTotalLength s).
  { unfold RTPHeaderLength, u16. rewrite Hnone.
    destruct (include_csrcs_ s); cbn;
      rewrite ?(Z.mod_small 12) by lia; apply Z.mod_small; lia. }
  assert (Hend : 12 + RtpHeaderExtensionMap.GetLengthUntilBlockStartInBytes
                        (rtp_header_extension_map_ s)
                        kRtpExtensionTransmissionTimeOffset
                 + kTransmissionTimeOffsetLength <= RTPHeaderLength s).
  { rewrite Hhl'.
    unfold RtpHeaderExtensionMap.GetLengthUntilBlockStartInBytes,
      RtpHeaderExtensionTotalLength,
      RtpHeaderExtensionMap.GetTotalLengthInBytes,
      kTransmissionTimeOffsetLength, kRtpOneByteHeaderLength.
    rewrite Hid.
    pose proof (length_before_blocks_length (rtp_header_extension_map_ s)
                  kRtpExtensionTransmissionTimeOffset
                  ltac:(by rewrite Hid)) as Hbefore.
    cbn [RtpHeaderExtensionMap.extension_length] in Hbefore.
    unfold kTransmissionTimeOffsetLength in Hbefore.
    pose proof (length_before_nonneg (rtp_header_extension_map_ s)
                  kRtpExtensionTransmissionTimeOffset).
    pose proof (blocks_length_bounds (rtp_header_extension_map_ s)).
    destruct (Z.ltb_spec 0 (RtpHeaderExtensionMap.blocks_length
                              (rtp_header_extension_map_ s))); lia. }
  unfold BuildRTPheader.
  set (s1 := set_last_packet_marker_bit_ _ _).
  assert (Hmap : rtp_header_extension_map_ s1 = rtp_header_extension_map_ s)
    by (subst s1; by destruct timestamp_provided).
  assert (Htto : transmission_time_offset_ s1 = transmission_time_offset_ s)
    by (subst s1; by destruct timestamp_provided).
  assert (Hinc : include_csrcs_ s1 = include_csrcs_ s)
    by (subst s1; by destruct timestamp_provided).
  assert (Hnum : num_csrcs_ s1 = num_csrcs_ s)
    by (subst s1; by destruct timestamp_provided).
  set (timestamp := timestamp_ s1). set (ssrc := ssrc_ s1).
  set (csrcs := csrcs_ s1). set (sequence_number := sequence_number_ _).
  clearbody timestamp ssrc csrcs sequence_number s1.
  assert (Hzero : (if include_csrcs_ s1 then num_csrcs_ s1 else 0) = 0)
    by (rewrite Hinc, Hnum, Hnone; by destruct (include_csrcs_ s)).
  rewrite Hzero.
  assert (Htotal : RtpHeaderExtensionTotalLength s1
                   = RtpHeaderExtensionTotalLength s)
    by (unfold RtpHeaderExtensionTotalLength; by rewrite Hmap).
  pose proof (CreateRTPHeader_offset s1 data_buffer payload_type ssrc
                marker_bit timestamp sequence_number csrcs id
                ltac:(by rewrite Hmap) ltac:(by rewrite Hmap)
                ltac:(rewrite Htotal; lia)) as Hcreate.
  pose proof (CreateRTPHeader_length s1 data_buffer payload_type ssrc
                marker_bit timestamp sequence_number csrcs 0
                ltac:(unfold kRtpCsrcSize; lia)
                ltac:(by rewrite Hmap)) as Hlength.
  destruct (CreateRTPHeader s1 data_buffer payload_type ssrc marker_bit
              timestamp sequence_number csrcs 0) as [packet len].
  cbn zeta in Hcreate, Hlength. cbn [fst snd] in Hcreate, Hlength.
  rewrite Hmap, Htto in Hcreate. rewrite Htotal in Hlength.
  destruct Hcreate as (Hbe & Hde & Hfirst & Hvalue).
  destruct Hlength as (Hbuf & Hlen).
  assert (Hlen' : len = RTPHeaderLength s) by lia. clear Hlen. subst len.
  split; [exact Hvalue|].
  pose proof (UpdateTransmissionTimeOffset_writes s1 packet
                (RTPHeaderLength s) rtp_header time_diff_ms id
                ltac:(by rewrite Hmap)) as Hwrites.
  cbn zeta in Hwrites. rewrite Hmap, Hcc, Hhl, Z.add_0_r in Hwrites.
  destruct Hwrites as [Hw _]; try done; lia.
Qed.

(** The header builder and the in-place update agree on where the
    transmission time offset lives when the sender has no CSRCs: in the
    packet [BuildRTPheader] makes, the three bytes after the extension's
    ID byte hold the sender's configured offset (its low 24 bits), and
    [UpdateTransmissionTimeOffset], given a header object that reports no
    CSRCs and the built header length, passes all its checks and
    replaces them by [time_diff_ms * 90] (low 24 bits). *)
Theorem BuildRTPheader_UpdateTransmissionTimeOffset s data_buffer
    payload_type (marker_bit : bool) capture_timestamp capture_time_ms
    (timestamp_provided inc_sequence_number : bool) rtp_header
    time_diff_ms id :
  RtpHeaderExtensionMap.GetId (rtp_header_extension_map_ s)
    kRtpExtensionTransmissionTimeOffset = Some id ->
  num_csrcs_ s = 0 ->
  (length (rtp_header_extension_map_ s) <= 3)%nat ->
  RTPHeaderLength s <= Z.of_nat (length data_buffer) ->
  RtpUtility.numCSRCs rtp_header = 0 ->
  RtpUtility.headerLength rtp_header = RTPHeaderLength s ->
  let '(s', packet, len) :=
    BuildRTPheader s data_buffer payload_type marker_bit capture_timestamp
      capture_time_ms timestamp_provided inc_sequence_number in
  let pos :=
    12 + RtpHeaderExtensionMap.GetLengthUntilBlockStartInBytes
           (rtp_header_extension_map_ s)
           kRtpExtensionTransmissionTimeOffset in
  let patched :=
    UpdateTransmissionTimeOffset s' packet len rtp_header time_diff_ms in
  RtpUtility.BufferToUWord24 packet (pos + 1)
  = u32 (transmission_time_offset_ s) mod 16777216
  /\ RtpUtility.BufferToUWord24 patched (pos + 1)
     = (time_diff_ms * 90) mod 16777216.
Proof. apply BuildRTPheader_offset_block. Qed.
End Agreement.

(** The sample sender with the offset under ID 1: the built packet carries
    offset 0 at byte 17, the update for 10 ms leaves 900 there. *)
Lemma BuildRTPheader_UpdateTransmissionTimeOffset_witness :
  let '(s', packet, len) :=
    BuildRTPheader sample_offset_sender
      (replicate (Z.to_nat IP_PACKET_SIZE) 0) 100 true 0 1000 true true in
  RtpUtility.BufferToUWord24 packet 17 = 0
  /\ RtpUtility.BufferToUWord24
       (UpdateTransmissionTimeOffset s' packet len sample_offset_header 10) 17
     = 900.
Proof.
  pose proof (BuildRTPheader_UpdateTransmissionTimeOffset sample_offset_sender
                (replicate (Z.to_nat IP_PACKET_SIZE) 0) 100 true 0 1000 true
                true sample_offset_header 10 1) as Hw.
  assert (Hpos : 12 + RtpHeaderExtensionMap.GetLengthUntilBlockStartInBytes
                        (rtp_header_extension_map_ sample_offset_sender)
                        kRtpExtensionTransmissionTimeOffset + 1 = 17)
    by (vm_compute; reflexivity).
  assert (Hold : u32 (transmission_time_offset_ sample_offset_sender)
                 mod 16777216 = 0) by (vm_compute; reflexivity).
  assert (Hnew : (10 * 90) mod 16777216 = 900) by (vm_compute; reflexivity).
  destruct (BuildRTPheader _ _ _ _ _ _ _ _) as [[s' packet] len].
  cbn zeta in Hw. rewrite Hpos, Hold, Hnew in Hw.
  apply Hw; vm_compute; first [reflexivity | congruence | lia].
Defined.
